(** * SceneManager: textures, materials, lights and the still-life scene

    A shallow embedding of [Source/SceneManager.cpp] (CS-330 scene manager).
    The C++ member functions become functions in a small state-and-fault
    monad over the [SceneManager] fields and the world they talk to (the
    image files [stbi_load] reads, the OpenGL texture names, the contents of
    uninitialised locals).  Every call into a helper library (stb_image,
    OpenGL, ShaderManager, ShapeMeshes, std::cout) is recorded as an [Event],
    in program order, in the log of the state.  Where the C++ has undefined
    behaviour (a call through a NULL [m_pShaderManager], an index outside
    [m_textureIDs]) the run ends in a [Fault].  [float] arithmetic is IEEE
    binary32, bit for bit. *)

From Stdlib Require Import ZArith QArith_base List String Bool Lia.
From Stdlib Require Import Floats.SpecFloat.
Import ListNotations.

Local Open Scope Z_scope.

(** ** Numbers

    [float] and [double] are IEEE 754 binary32 and binary64, computed with the
    Standard Library's specification of the format ([SpecFloat]): every
    operation rounds to nearest, ties to even. *)

Module IEEE.

Definition prec32 : Z := 24.
Definition emax32 : Z := 128.
Definition prec64 : Z := 53.
Definition emax64 : Z := 1024.

Inductive float : Set := Float (v : spec_float).
Inductive double : Set := Double (v : spec_float).

Definition float_bits (x : float) : spec_float := let 'Float v := x in v.
Definition double_bits (x : double) : spec_float := let 'Double v := x in v.

(** An [int] converted to [float]. *)
Definition i2f (n : Z) : float := Float (binary_normalize prec32 emax32 n 0 false).

(** A decimal literal with suffix [f] ([0.75f]) and without ([0.75]): the
    nearest representable number.  Numerator and denominator of every literal
    in the source are below [2^24], hence exact, and the division rounds
    once.  A literal with a minus sign is the negation of the positive
    literal, which is the nearest number to the negative decimal. *)
Definition f32 (q : Q) : float :=
  Float (SFdiv prec32 emax32
           (binary_normalize prec32 emax32 (Qnum q) 0 false)
           (binary_normalize prec32 emax32 (Zpos (Qden q)) 0 false)).
Definition f64 (q : Q) : double :=
  Double (SFdiv prec64 emax64
            (binary_normalize prec64 emax64 (Qnum q) 0 false)
            (binary_normalize prec64 emax64 (Zpos (Qden q)) 0 false)).

(** [double] to [float] rounds; [float] to [double] is exact. *)
Definition d2f (d : double) : float :=
  match double_bits d with
  | S754_finite s m e => Float (binary_normalize prec32 emax32 (cond_Zopp s (Zpos m)) e s)
  | v => Float v
  end.
Definition f2d (x : float) : double :=
  match float_bits x with
  | S754_finite s m e => Double (binary_normalize prec64 emax64 (cond_Zopp s (Zpos m)) e s)
  | v => Double v
  end.

Definition fadd (a b : float) : float :=
  Float (SFadd prec32 emax32 (float_bits a) (float_bits b)).
Definition dadd (a b : double) : double :=
  Double (SFadd prec64 emax64 (double_bits a) (double_bits b)).
Definition dsub (a b : double) : double :=
  Double (SFsub prec64 emax64 (double_bits a) (double_bits b)).

End IEEE.
Export IEEE.

(** A GLuint is a [Z] in [0, 2^32).  GLuint to [int]: the same 32 bits read
    as two's complement. *)
Definition GLuint_to_int (u : Z) : Z := (u + 2 ^ 31) mod 2 ^ 32 - 2 ^ 31.

(** ** glm vectors and the model matrix *)

Record vec2 : Set := mkvec2 { v2x : float; v2y : float }.
Record vec3 : Set := mkvec3 { v3x : float; v3y : float; v3z : float }.
Record vec4 : Set := mkvec4 { v4r : float; v4g : float; v4b : float; v4a : float }.

(** [translation * rotationZ * rotationY * rotationX * scale].  glm's matrix
    product and trigonometry are outside the source: the matrix is kept as
    the five values it is built from. *)
Record mat4 : Set := modelView {
  mv_scale : vec3;
  mv_Xrotation : float;
  mv_Yrotation : float;
  mv_Zrotation : float;
  mv_translation : vec3
}.

(** ** The fields of SceneManager *)

Record TEXTURE_INFO : Set := mkTEXTURE_INFO { ID : Z; tag : string }.

Record OBJECT_MATERIAL : Set := mkOBJECT_MATERIAL {
  diffuseColor : vec3;
  specularColor : vec3;
  shininess : float;
  material_tag : string
}.

(** [m_textureIDs] is an array: its extent is the length of the list.
    [m_pShaderManager] is [None] when the pointer is NULL.  [m_basicMeshes]
    is set by the constructor to a fresh ShapeMeshes object and is never
    NULL while the object lives; its calls are events. *)
Record SceneManager : Set := mkSceneManager {
  m_pShaderManager : option positive;
  m_textureIDs : list TEXTURE_INFO;
  m_loadedTextures : Z;
  m_objectMaterials : list OBJECT_MATERIAL
}.

(** ** The world outside the class *)

Record Image : Set := mkImage {
  img_width : Z;
  img_height : Z;
  img_channels : Z;
  img_data : list Z
}.

(** [files] is what [stbi_load] finds under a file name ([None]: the file is
    missing or is not an image).  [gl_textures] are the texture names OpenGL
    has handed out and not deleted.  [uninit_material] is the content of a
    local OBJECT_MATERIAL that was declared and never assigned. *)
Record World : Type := mkWorld {
  files : string -> option Image;
  gl_textures : list Z;
  uninit_material : OBJECT_MATERIAL
}.

Inductive GLenum : Set :=
| GL_TEXTURE_2D | GL_TEXTURE_WRAP_S | GL_TEXTURE_WRAP_T | GL_REPEAT
| GL_TEXTURE_MIN_FILTER | GL_TEXTURE_MAG_FILTER | GL_LINEAR
| GL_RGB8 | GL_RGB | GL_RGBA8 | GL_RGBA | GL_UNSIGNED_BYTE
| GL_TEXTURE0_plus (i : Z).

Module ShapeMeshes.
Inductive BoxSide : Set := back | bottom | left | right | top | front.
End ShapeMeshes.

Inductive cout_item : Set := cout_str (s : string) | cout_int (n : Z).

Inductive Event : Set :=
(* std::cout *)
| Ev_cout (line : list cout_item)
(* stb_image *)
| Ev_stbi_set_flip_vertically_on_load (flag : bool)
| Ev_stbi_load (filename : string)
| Ev_stbi_image_free (image : Image)
(* OpenGL *)
| Ev_glGenTextures (name : Z)
| Ev_glBindTexture (target : GLenum) (texture : Z)
| Ev_glTexParameteri (target pname param : GLenum)
| Ev_glTexImage2D (target : GLenum) (level : Z) (internalformat : GLenum)
                  (width height border : Z) (format type : GLenum) (image : Image)
| Ev_glGenerateMipmap (target : GLenum)
| Ev_glActiveTexture (texture : GLenum)
(* ShaderManager *)
| Ev_setMat4Value (name : string) (value : mat4)
| Ev_setIntValue (name : string) (value : Z)
| Ev_setBoolValue (name : string) (value : bool)
| Ev_setFloatValue (name : string) (value : float)
| Ev_setVec2Value (name : string) (value : vec2)
| Ev_setVec3Value (name : string) (value : vec3)
| Ev_setVec4Value (name : string) (value : vec4)
| Ev_setSampler2DValue (name : string) (slot : Z)
(* ShapeMeshes *)
| Ev_LoadPlaneMesh | Ev_LoadTaperedCylinderMesh | Ev_LoadTorusMesh
| Ev_LoadBoxMesh | Ev_LoadCylinderMesh | Ev_LoadSphereMesh
| Ev_DrawPlaneMesh
| Ev_DrawTaperedCylinderMesh (bDrawTop bDrawBottom bDrawSides : bool)
| Ev_DrawTorusMesh | Ev_DrawHalfTorusMesh
| Ev_DrawBoxMesh | Ev_DrawBoxMeshSide (side : ShapeMeshes.BoxSide)
| Ev_DrawCylinderMesh | Ev_DrawSphereMesh.

Record State : Type := mkState {
  sm : SceneManager;
  world : World;
  log : list Event
}.

(** ** The monad: state, and the two ways the C++ can go wrong *)

Inductive fault : Set :=
| NullPointer                 (* a call through a NULL m_pShaderManager *)
| OutOfBounds (index : Z).    (* m_textureIDs[index] outside the array *)

Inductive Result (A : Type) : Type :=
| Ok (a : A) (st : State)
| Fault (f : fault).
Arguments Ok {A} a st.
Arguments Fault {A} f.

Definition M (A : Type) : Type := State -> Result A.

Definition ret {A} (a : A) : M A := fun st => Ok a st.
Definition bind {A B} (m : M A) (k : A -> M B) : M B :=
  fun st => match m st with
            | Ok a st' => k a st'
            | Fault f => Fault f
            end.
Definition gets {A} (f : State -> A) : M A := fun st => Ok (f st) st.
Definition modify (f : State -> State) : M unit := fun st => Ok tt (f st).

Declare Scope monad_scope.
Delimit Scope monad_scope with monad.
Notation "x <- m ;; k" := (bind m (fun x => k))
  (at level 100, m at next level, k at level 200, right associativity) : monad_scope.
Notation "' pat <- m ;; k" := (bind m (fun x => match x with pat => k end))
  (at level 100, pat pattern, m at next level, k at level 200,
   right associativity) : monad_scope.
Notation "m ;; k" := (bind m (fun _ => k))
  (at level 100, k at level 200, right associativity) : monad_scope.
Local Open Scope monad_scope.

Definition set_sm (s : SceneManager) (st : State) : State :=
  mkState s (world st) (log st).
Definition set_world (w : World) (st : State) : State :=
  mkState (sm st) w (log st).
Definition emit (e : Event) : M unit :=
  modify (fun st => mkState (sm st) (world st) (log st ++ [e])).

(** Counted loops.  [for_int n i body] runs [body] at [i], [i + 1], ...,
    [n] times; [for_loop n body s] runs, [n] times, a body that updates the
    locals [s] of the enclosing function. *)
Fixpoint for_int (n : nat) (i : Z) (body : Z -> M unit) : M unit :=
  match n with
  | O => ret tt
  | S n' => body i ;; for_int n' (i + 1) body
  end.

Fixpoint for_loop {S : Type} (n : nat) (body : S -> M S) (s : S) : M S :=
  match n with
  | O => ret s
  | S n' => s' <- body s ;; for_loop n' body s'
  end.

(** ** Access to the texture array *)

Fixpoint list_update {A} (l : list A) (i : nat) (v : A) : list A :=
  match l, i with
  | [], _ => []
  | _ :: l', O => v :: l'
  | x :: l', S i' => x :: list_update l' i' v
  end.

Definition in_bounds (arr : list TEXTURE_INFO) (index : Z) : bool :=
  (0 <=? index) && (index <? Z.of_nat (List.length arr)).

(** [m_textureIDs[index]] read. *)
Definition texture_at (index : Z) : M TEXTURE_INFO :=
  fun st =>
    if in_bounds (m_textureIDs (sm st)) index then
      match nth_error (m_textureIDs (sm st)) (Z.to_nat index) with
      | Some e => Ok e st
      | None => Fault (OutOfBounds index)
      end
    else Fault (OutOfBounds index).

(** [m_textureIDs[index] = e]. *)
Definition store_texture (index : Z) (f : TEXTURE_INFO -> TEXTURE_INFO) : M unit :=
  e <- texture_at index ;;
  modify (fun st =>
    set_sm (mkSceneManager (m_pShaderManager (sm st))
              (list_update (m_textureIDs (sm st)) (Z.to_nat index) (f e))
              (m_loadedTextures (sm st))
              (m_objectMaterials (sm st))) st).

Definition tag_of (e : TEXTURE_INFO) : string := tag e.

Definition set_ID (v : Z) (e : TEXTURE_INFO) : TEXTURE_INFO := mkTEXTURE_INFO v (tag e).
Definition set_tag (t : string) (e : TEXTURE_INFO) : TEXTURE_INFO := mkTEXTURE_INFO (ID e) t.

Definition set_m_loadedTextures (n : Z) : M unit :=
  modify (fun st =>
    set_sm (mkSceneManager (m_pShaderManager (sm st)) (m_textureIDs (sm st))
              n (m_objectMaterials (sm st))) st).

Definition push_back_material (m : OBJECT_MATERIAL) : M unit :=
  modify (fun st =>
    set_sm (mkSceneManager (m_pShaderManager (sm st)) (m_textureIDs (sm st))
              (m_loadedTextures (sm st)) (m_objectMaterials (sm st) ++ [m])) st).

(** ** stb_image, OpenGL and std::cout *)

Definition cout (line : list cout_item) : M unit := emit (Ev_cout line).

Definition stbi_set_flip_vertically_on_load (flag : bool) : M unit :=
  emit (Ev_stbi_set_flip_vertically_on_load flag).

(** [stbi_load(filename, &width, &height, &colorChannels, 0)]: the image, or
    NULL. *)
Definition stbi_load (filename : string) : M (option Image) :=
  emit (Ev_stbi_load filename) ;;
  gets (fun st => files (world st) filename).

Definition stbi_image_free (image : Image) : M unit := emit (Ev_stbi_image_free image).

(** The name [glGenTextures] hands out: one that is not in use.  Names start
    at 1 and the driver counts upwards. *)
Definition fresh_name (used : list Z) : Z := 1 + fold_right Z.max 0 used.

(** [glGenTextures(1, &name)]. *)
Definition glGenTextures : M Z :=
  name <- gets (fun st => fresh_name (gl_textures (world st))) ;;
  modify (fun st =>
    set_world (mkWorld (files (world st)) (name :: gl_textures (world st))
                 (uninit_material (world st))) st) ;;
  emit (Ev_glGenTextures name) ;;
  ret name.

Definition glBindTexture (target : GLenum) (texture : Z) : M unit :=
  emit (Ev_glBindTexture target texture).
Definition glTexParameteri (target pname param : GLenum) : M unit :=
  emit (Ev_glTexParameteri target pname param).
Definition glTexImage2D (target : GLenum) (level : Z) (internalformat : GLenum)
    (width height border : Z) (format type : GLenum) (image : Image) : M unit :=
  emit (Ev_glTexImage2D target level internalformat width height border format type image).
Definition glGenerateMipmap (target : GLenum) : M unit := emit (Ev_glGenerateMipmap target).
Definition glActiveTexture (texture : GLenum) : M unit := emit (Ev_glActiveTexture texture).

(** ** CreateGLTexture *)

Definition CreateGLTexture (filename : string) (tag : string) : M bool :=
  stbi_set_flip_vertically_on_load true ;;
  image <- stbi_load filename ;;
  match image with
  | Some image =>
      let width := img_width image in
      let height := img_height image in
      let colorChannels := img_channels image in
      cout [cout_str "Successfully loaded image:"; cout_str filename;
            cout_str ", width:"; cout_int width;
            cout_str ", height:"; cout_int height;
            cout_str ", channels:"; cout_int colorChannels] ;;
      textureID <- glGenTextures ;;
      glBindTexture GL_TEXTURE_2D textureID ;;
      glTexParameteri GL_TEXTURE_2D GL_TEXTURE_WRAP_S GL_REPEAT ;;
      glTexParameteri GL_TEXTURE_2D GL_TEXTURE_WRAP_T GL_REPEAT ;;
      glTexParameteri GL_TEXTURE_2D GL_TEXTURE_MIN_FILTER GL_LINEAR ;;
      glTexParameteri GL_TEXTURE_2D GL_TEXTURE_MAG_FILTER GL_LINEAR ;;
      (* the if / else if / else; [false] is the early [return false] *)
      uploaded <-
        (if colorChannels =? 3 then
           glTexImage2D GL_TEXTURE_2D 0 GL_RGB8 width height 0 GL_RGB GL_UNSIGNED_BYTE image ;;
           ret true
         else if colorChannels =? 4 then
           glTexImage2D GL_TEXTURE_2D 0 GL_RGBA8 width height 0 GL_RGBA GL_UNSIGNED_BYTE image ;;
           ret true
         else
           cout [cout_str "Not implemented to handle image with ";
                 cout_int colorChannels; cout_str " channels"] ;;
           ret false) ;;
      if uploaded then
        glGenerateMipmap GL_TEXTURE_2D ;;
        stbi_image_free image ;;
        glBindTexture GL_TEXTURE_2D 0 ;;
        n <- gets (fun st => m_loadedTextures (sm st)) ;;
        store_texture n (set_ID textureID) ;;
        store_texture n (set_tag tag) ;;
        set_m_loadedTextures (n + 1) ;;
        ret true
      else ret false
  | None =>
      cout [cout_str "Could not load image:"; cout_str filename] ;;
      ret false
  end.

(** ** BindGLTextures, DestroyGLTextures *)

Definition BindGLTextures : M unit :=
  n <- gets (fun st => m_loadedTextures (sm st)) ;;
  for_int (Z.to_nat n) 0 (fun i =>
    glActiveTexture (GL_TEXTURE0_plus i) ;;
    e <- texture_at i ;;
    glBindTexture GL_TEXTURE_2D (ID e)).

Definition DestroyGLTextures : M unit :=
  n <- gets (fun st => m_loadedTextures (sm st)) ;;
  for_int (Z.to_nat n) 0 (fun i =>
    _ <- texture_at i ;;
    name <- glGenTextures ;;
    store_texture i (set_ID name)).

(** ** FindTextureID, FindTextureSlot

    [while (index < m_loadedTextures && !bFound)]: the loop leaves as soon as
    the tag is found, and otherwise moves [index] up by one; [remaining] is
    [m_loadedTextures - index]. *)

Fixpoint FindTextureID_from (tag : string) (remaining : nat) (index : Z) : M Z :=
  match remaining with
  | O => ret (-1)
  | S r =>
      e <- texture_at index ;;
      if String.eqb (tag_of e) tag
      then ret (GLuint_to_int (ID e))
      else FindTextureID_from tag r (index + 1)
  end.

Definition FindTextureID (tag : string) : M Z :=
  n <- gets (fun st => m_loadedTextures (sm st)) ;;
  FindTextureID_from tag (Z.to_nat n) 0.

Fixpoint FindTextureSlot_from (tag : string) (remaining : nat) (index : Z) : M Z :=
  match remaining with
  | O => ret (-1)
  | S r =>
      e <- texture_at index ;;
      if String.eqb (tag_of e) tag
      then ret index
      else FindTextureSlot_from tag r (index + 1)
  end.

Definition FindTextureSlot (tag : string) : M Z :=
  n <- gets (fun st => m_loadedTextures (sm st)) ;;
  FindTextureSlot_from tag (Z.to_nat n) 0.

(** ** FindMaterial

    The loop walks the vector from the front; the argument list is the part
    of [m_objectMaterials] from [index] on.  The result is the out-parameter
    [material] as the loop leaves it. *)

Fixpoint FindMaterial_from (tag : string) (from_index : list OBJECT_MATERIAL)
    (material : OBJECT_MATERIAL) : OBJECT_MATERIAL :=
  match from_index with
  | [] => material
  | m :: rest =>
      if String.eqb (material_tag m) tag
      then mkOBJECT_MATERIAL (diffuseColor m) (specularColor m) (shininess m)
             (material_tag material)
      else FindMaterial_from tag rest material
  end.

Definition FindMaterial (tag : string) (material : OBJECT_MATERIAL)
    : M (bool * OBJECT_MATERIAL) :=
  materials <- gets (fun st => m_objectMaterials (sm st)) ;;
  if Nat.eqb (List.length materials) 0 then ret (false, material)
  else ret (true, FindMaterial_from tag materials material).

(** ** ShaderManager and ShapeMeshes calls

    A call through [m_pShaderManager] needs the pointer: through NULL it is a
    fault. *)

Definition g_ModelName : string := "model".
Definition g_ColorValueName : string := "objectColor".
Definition g_TextureValueName : string := "objectTexture".
Definition g_UseTextureName : string := "bUseTexture".
Definition g_UseLightingName : string := "bUseLighting".

Definition shader_call (e : Event) : M unit :=
  fun st => match m_pShaderManager (sm st) with
            | Some _ => emit e st
            | None => Fault NullPointer
            end.

Definition setMat4Value (name : string) (value : mat4) : M unit :=
  shader_call (Ev_setMat4Value name value).
Definition setIntValue (name : string) (value : Z) : M unit :=
  shader_call (Ev_setIntValue name value).
Definition setBoolValue (name : string) (value : bool) : M unit :=
  shader_call (Ev_setBoolValue name value).
Definition setFloatValue (name : string) (value : float) : M unit :=
  shader_call (Ev_setFloatValue name value).
Definition setVec2Value (name : string) (value : vec2) : M unit :=
  shader_call (Ev_setVec2Value name value).
Definition setVec3Value (name : string) (value : vec3) : M unit :=
  shader_call (Ev_setVec3Value name value).
Definition setVec4Value (name : string) (value : vec4) : M unit :=
  shader_call (Ev_setVec4Value name value).
Definition setSampler2DValue (name : string) (slot : Z) : M unit :=
  shader_call (Ev_setSampler2DValue name slot).

(** [NULL != m_pShaderManager] *)
Definition pShaderManager_not_NULL : M bool :=
  gets (fun st => match m_pShaderManager (sm st) with Some _ => true | None => false end).

Definition LoadPlaneMesh : M unit := emit Ev_LoadPlaneMesh.
Definition LoadTaperedCylinderMesh : M unit := emit Ev_LoadTaperedCylinderMesh.
Definition LoadTorusMesh : M unit := emit Ev_LoadTorusMesh.
Definition LoadBoxMesh : M unit := emit Ev_LoadBoxMesh.
Definition LoadCylinderMesh : M unit := emit Ev_LoadCylinderMesh.
Definition LoadSphereMesh : M unit := emit Ev_LoadSphereMesh.
Definition DrawPlaneMesh : M unit := emit Ev_DrawPlaneMesh.
Definition DrawTaperedCylinderMesh (bDrawTop bDrawBottom bDrawSides : bool) : M unit :=
  emit (Ev_DrawTaperedCylinderMesh bDrawTop bDrawBottom bDrawSides).
Definition DrawTorusMesh : M unit := emit Ev_DrawTorusMesh.
Definition DrawHalfTorusMesh : M unit := emit Ev_DrawHalfTorusMesh.
Definition DrawBoxMesh : M unit := emit Ev_DrawBoxMesh.
Definition DrawBoxMeshSide (side : ShapeMeshes.BoxSide) : M unit :=
  emit (Ev_DrawBoxMeshSide side).
Definition DrawCylinderMesh : M unit := emit Ev_DrawCylinderMesh.
Definition DrawSphereMesh : M unit := emit Ev_DrawSphereMesh.

(** ** SetTransformations, SetShaderColor, SetShaderTexture,
       SetTextureUVScale, SetShaderMaterial *)

Definition SetTransformations (scaleXYZ : vec3)
    (XrotationDegrees YrotationDegrees ZrotationDegrees : float)
    (positionXYZ : vec3) : M unit :=
  let modelView :=
    modelView scaleXYZ XrotationDegrees YrotationDegrees ZrotationDegrees positionXYZ in
  present <- pShaderManager_not_NULL ;;
  if present then setMat4Value g_ModelName modelView else ret tt.

(** [setIntValue(g_UseTextureName, false)]: the [bool] becomes the [int] 0. *)
Definition SetShaderColor (redColorValue greenColorValue blueColorValue alphaValue : float)
    : M unit :=
  let currentColor := mkvec4 redColorValue greenColorValue blueColorValue alphaValue in
  present <- pShaderManager_not_NULL ;;
  if present then
    setIntValue g_UseTextureName 0 ;;
    setVec4Value g_ColorValueName currentColor
  else ret tt.

Definition SetShaderTexture (textureTag : string) : M unit :=
  present <- pShaderManager_not_NULL ;;
  if present then
    setIntValue g_UseTextureName 1 ;;
    textureID <- FindTextureSlot textureTag ;;
    setSampler2DValue g_TextureValueName textureID
  else ret tt.

Definition SetTextureUVScale (u v : float) : M unit :=
  present <- pShaderManager_not_NULL ;;
  if present then setVec2Value "UVscale" (mkvec2 u v) else ret tt.

(** [OBJECT_MATERIAL material;] is declared and not assigned: it starts as
    whatever the world holds for an uninitialised local. *)
Definition SetShaderMaterial (materialTag : string) : M unit :=
  materials <- gets (fun st => m_objectMaterials (sm st)) ;;
  if (0 <? Z.of_nat (List.length materials)) then
    material <- gets (fun st => uninit_material (world st)) ;;
    '(bReturn, material) <- FindMaterial materialTag material ;;
    if bReturn then
      setVec3Value "material.diffuseColor" (diffuseColor material) ;;
      setVec3Value "material.specularColor" (specularColor material) ;;
      setFloatValue "material.shininess" (shininess material)
    else ret tt
  else ret tt.

(** ** LoadSceneTextures, DefineObjectMaterials *)

Definition LoadSceneTextures : M unit :=
  _ <- CreateGLTexture "./textures/Porcelain.jpg" "cup" ;;
  _ <- CreateGLTexture "./textures/Wood1.jpg" "table-top" ;;
  _ <- CreateGLTexture "./textures/Wood2.png" "table-side" ;;
  _ <- CreateGLTexture "./textures/Metal.jpg" "base" ;;
  _ <- CreateGLTexture "./textures/Wood3.jpg" "WoodFloor" ;;
  _ <- CreateGLTexture "./textures/BlackSteel.png" "lamp-rim" ;;
  _ <- CreateGLTexture "./textures/WhiteCloth.jpg" "lamp-shade" ;;
  _ <- CreateGLTexture "./textures/Wall.jpg" "wall" ;;
  _ <- CreateGLTexture "./textures/WhitePlastic.jpg" "plastic" ;;
  _ <- CreateGLTexture "./textures/BookSpine.png" "BookSpine" ;;
  _ <- CreateGLTexture "./textures/BookBack.png" "BookBack" ;;
  _ <- CreateGLTexture "./textures/BookFront.png" "BookFront" ;;
  _ <- CreateGLTexture "./textures/Pages.png" "Pages" ;;
  BindGLTextures.

Definition plasticMaterial : OBJECT_MATERIAL :=
  mkOBJECT_MATERIAL (mkvec3 (f32 0.9) (f32 0.9) (f32 0.9))
    (mkvec3 (f32 0.1) (f32 0.1) (f32 0.1)) (d2f (f64 1.0)) "plastic".
Definition woodMaterial : OBJECT_MATERIAL :=
  mkOBJECT_MATERIAL (mkvec3 (f32 1.0) (f32 1.0) (f32 1.0))
    (mkvec3 (f32 0.1) (f32 0.1) (f32 0.1)) (d2f (f64 5.0)) "wood".
Definition woodFloorMaterial : OBJECT_MATERIAL :=
  mkOBJECT_MATERIAL (mkvec3 (f32 1.0) (f32 1.0) (f32 1.0))
    (mkvec3 (f32 0.1) (f32 0.1) (f32 0.1)) (d2f (f64 0.2)) "woodFloor".
Definition porcelainMaterial : OBJECT_MATERIAL :=
  mkOBJECT_MATERIAL (mkvec3 (f32 0.2) (f32 0.2) (f32 0.2))
    (mkvec3 (f32 0.8) (f32 0.8) (f32 0.9)) (f32 32.0) "porcelain".
Definition metalMaterial : OBJECT_MATERIAL :=
  mkOBJECT_MATERIAL (mkvec3 (f32 0.3) (f32 0.3) (f32 0.2))
    (mkvec3 (f32 0.7) (f32 0.7) (f32 0.8)) (d2f (f64 8.0)) "metal".
Definition clothMaterial : OBJECT_MATERIAL :=
  mkOBJECT_MATERIAL (mkvec3 (f32 10.0) (f32 10.0) (f32 10.0))
    (mkvec3 (f32 0.3) (f32 0.3) (f32 0.3)) (f32 2.0) "cloth".
Definition wallMaterial : OBJECT_MATERIAL :=
  mkOBJECT_MATERIAL (mkvec3 (f32 0.4) (f32 0.4) (f32 0.4))
    (mkvec3 (f32 0.3) (f32 0.3) (f32 0.3)) (f32 1.0) "wall".
Definition bookCoverMaterial : OBJECT_MATERIAL :=
  mkOBJECT_MATERIAL (mkvec3 (f32 0.5) (f32 0.1) (f32 0.1))
    (mkvec3 (f32 0.6) (f32 0.6) (f32 0.6)) (f32 16.0) "BookCover".

Definition DefineObjectMaterials : M unit :=
  push_back_material plasticMaterial ;;
  push_back_material woodMaterial ;;
  push_back_material woodFloorMaterial ;;
  push_back_material porcelainMaterial ;;
  push_back_material metalMaterial ;;
  push_back_material clothMaterial ;;
  push_back_material wallMaterial ;;
  push_back_material bookCoverMaterial.

(** ** The placement routines

    Each assignment to a local is a [let]; a later [let] of the same name is
    the next assignment. *)

Definition LoadLamp (xPosition yPosition zPosition : float) : M unit :=
  let XrotationDegrees := f32 0.0 in
  let YrotationDegrees := f32 0.0 in
  let ZrotationDegrees := f32 0.0 in
  let scaleXYZ := mkvec3 (f32 0.75) (f32 1.0) (f32 0.75) in
  let XrotationDegrees := f32 0.0 in
  let YrotationDegrees := f32 0.0 in
  let ZrotationDegrees := f32 0.0 in
  let positionXYZ := mkvec3 (fadd (f32 (-4.2)) xPosition) (fadd (f32 5.3) yPosition) (fadd (f32 (-1.6)) zPosition) in
  SetTransformations scaleXYZ XrotationDegrees YrotationDegrees ZrotationDegrees positionXYZ ;;
  SetTextureUVScale (i2f 4) (i2f 1) ;;
  SetShaderTexture "lamp-shade" ;;
  SetShaderMaterial "cloth" ;;
  DrawTaperedCylinderMesh false false true ;;
  let scaleXYZ := mkvec3 (f32 0.35) (f32 0.35) (f32 0.1) in
  let XrotationDegrees := f32 90.0 in
  let YrotationDegrees := f32 0.0 in
  let ZrotationDegrees := f32 0.0 in
  let positionXYZ := mkvec3 (fadd (f32 (-4.20)) xPosition) (fadd (f32 6.3) yPosition) (fadd (f32 (-1.6)) zPosition) in
  SetTransformations scaleXYZ XrotationDegrees YrotationDegrees ZrotationDegrees positionXYZ ;;
  SetTextureUVScale (i2f 4) (i2f 1) ;;
  SetShaderTexture "lamp-rim" ;;
  SetShaderMaterial "metal" ;;
  DrawTorusMesh ;;
  let scaleXYZ := mkvec3 (f32 0.65) (f32 0.65) (f32 0.1) in
  let XrotationDegrees := f32 90.0 in
  let YrotationDegrees := f32 0.0 in
  let ZrotationDegrees := f32 0.0 in
  let positionXYZ := mkvec3 (fadd (f32 (-4.20)) xPosition) (fadd (f32 5.3) yPosition) (fadd (f32 (-1.6)) zPosition) in
  SetTransformations scaleXYZ XrotationDegrees YrotationDegrees ZrotationDegrees positionXYZ ;;
  SetTextureUVScale (i2f 4) (i2f 1) ;;
  SetShaderTexture "lamp-rim" ;;
  SetShaderMaterial "metal" ;;
  DrawTorusMesh ;;
  let scaleXYZ := mkvec3 (f32 0.05) (f32 0.75) (f32 0.05) in
  let XrotationDegrees := f32 0.0 in
  let YrotationDegrees := f32 0.0 in
  let ZrotationDegrees := f32 0.0 in
  let positionXYZ := mkvec3 (fadd (f32 (-4.20)) xPosition) (fadd (f32 4.85) yPosition) (fadd (f32 (-1.6)) zPosition) in
  SetTransformations scaleXYZ XrotationDegrees YrotationDegrees ZrotationDegrees positionXYZ ;;
  SetTextureUVScale (i2f 4) (i2f 1) ;;
  SetShaderTexture "lamp-rim" ;;
  SetShaderMaterial "metal" ;;
  DrawCylinderMesh ;;
  let scaleXYZ := mkvec3 (f32 0.025) (f32 1.0) (f32 0.025) in
  let XrotationDegrees := f32 160.0 in
  let YrotationDegrees := f32 0.0 in
  let ZrotationDegrees := f32 0.0 in
  let positionXYZ := mkvec3 (fadd (f32 (-4.20)) xPosition) (fadd (f32 4.85) yPosition) (fadd (f32 (-1.6)) zPosition) in
  SetTransformations scaleXYZ XrotationDegrees YrotationDegrees ZrotationDegrees positionXYZ ;;
  SetTextureUVScale (i2f 4) (i2f 1) ;;
  SetShaderTexture "lamp-rim" ;;
  SetShaderMaterial "metal" ;;
  DrawCylinderMesh ;;
  let scaleXYZ := mkvec3 (f32 0.025) (f32 1.0) (f32 0.025) in
  let XrotationDegrees := f32 160.0 in
  let YrotationDegrees := f32 120.0 in
  let ZrotationDegrees := f32 0.0 in
  let positionXYZ := mkvec3 (fadd (f32 (-4.20)) xPosition) (fadd (f32 4.85) yPosition) (fadd (f32 (-1.6)) zPosition) in
  SetTransformations scaleXYZ XrotationDegrees YrotationDegrees ZrotationDegrees positionXYZ ;;
  SetTextureUVScale (i2f 4) (i2f 1) ;;
  SetShaderTexture "lamp-rim" ;;
  SetShaderMaterial "metal" ;;
  DrawCylinderMesh ;;
  let scaleXYZ := mkvec3 (f32 0.025) (f32 1.0) (f32 0.025) in
  let XrotationDegrees := f32 160.0 in
  let YrotationDegrees := f32 240.0 in
  let ZrotationDegrees := f32 0.0 in
  let positionXYZ := mkvec3 (fadd (f32 (-4.20)) xPosition) (fadd (f32 4.85) yPosition) (fadd (f32 (-1.6)) zPosition) in
  SetTransformations scaleXYZ XrotationDegrees YrotationDegrees ZrotationDegrees positionXYZ ;;
  SetTextureUVScale (i2f 4) (i2f 1) ;;
  SetShaderTexture "lamp-rim" ;;
  SetShaderMaterial "metal" ;;
  DrawCylinderMesh.

Definition LoadMonitor (xPosition yPosition zPosition : float) : M unit :=
  let XrotationDegrees := f32 0.0 in
  let YrotationDegrees := f32 0.0 in
  let ZrotationDegrees := f32 0.0 in
  let scaleXYZ := mkvec3 (f32 3.0) (f32 2.0) (f32 0.25) in
  let XrotationDegrees := f32 0.0 in
  let YrotationDegrees := f32 0.0 in
  let ZrotationDegrees := f32 0.0 in
  let positionXYZ := mkvec3 (fadd (f32 0.0) xPosition) (fadd (f32 4.068) yPosition) (fadd (f32 5.005) zPosition) in
  SetTransformations scaleXYZ XrotationDegrees YrotationDegrees ZrotationDegrees positionXYZ ;;
  SetTextureUVScale (i2f 4) (i2f 1) ;;
  SetShaderColor (d2f (f64 0.1)) (d2f (f64 0.1)) (d2f (f64 0.1)) (i2f 1) ;;
  SetShaderMaterial "plastic" ;;
  DrawBoxMesh ;;
  let scaleXYZ := mkvec3 (f32 3.0) (f32 0.25) (f32 0.25) in
  let XrotationDegrees := f32 0.0 in
  let YrotationDegrees := f32 0.0 in
  let ZrotationDegrees := f32 0.0 in
  let positionXYZ := mkvec3 (fadd (f32 0.0) xPosition) (fadd (f32 3.0) yPosition) (fadd (f32 5.0) zPosition) in
  SetTransformations scaleXYZ XrotationDegrees YrotationDegrees ZrotationDegrees positionXYZ ;;
  SetTextureUVScale (i2f 4) (i2f 1) ;;
  SetShaderTexture "plastic" ;;
  SetShaderMaterial "plastic" ;;
  DrawBoxMesh ;;
  let scaleXYZ := mkvec3 (f32 3.0) (f32 0.25) (f32 0.25) in
  let XrotationDegrees := f32 0.0 in
  let YrotationDegrees := f32 0.0 in
  let ZrotationDegrees := f32 0.0 in
  let positionXYZ := mkvec3 (fadd (f32 0.0) xPosition) (fadd (f32 5.0) yPosition) (fadd (f32 5.0) zPosition) in
  SetTransformations scaleXYZ XrotationDegrees YrotationDegrees ZrotationDegrees positionXYZ ;;
  SetTextureUVScale (i2f 4) (i2f 1) ;;
  SetShaderTexture "plastic" ;;
  SetShaderMaterial "plastic" ;;
  DrawBoxMesh ;;
  let scaleXYZ := mkvec3 (f32 0.25) (f32 1.9) (f32 0.25) in
  let XrotationDegrees := f32 0.0 in
  let YrotationDegrees := f32 0.0 in
  let ZrotationDegrees := f32 0.0 in
  let positionXYZ := mkvec3 (fadd (f32 1.5) xPosition) (fadd (f32 4.0) yPosition) (fadd (f32 5.0) zPosition) in
  SetTransformations scaleXYZ XrotationDegrees YrotationDegrees ZrotationDegrees positionXYZ ;;
  SetTextureUVScale (i2f 4) (i2f 1) ;;
  SetShaderTexture "plastic" ;;
  SetShaderMaterial "plastic" ;;
  DrawBoxMesh ;;
  let scaleXYZ := mkvec3 (f32 0.25) (f32 1.9) (f32 0.25) in
  let XrotationDegrees := f32 0.0 in
  let YrotationDegrees := f32 0.0 in
  let ZrotationDegrees := f32 0.0 in
  let positionXYZ := mkvec3 (fadd (f32 (-1.49)) xPosition) (fadd (f32 4.0) yPosition) (fadd (f32 5.0) zPosition) in
  SetTransformations scaleXYZ XrotationDegrees YrotationDegrees ZrotationDegrees positionXYZ ;;
  SetTextureUVScale (i2f 4) (i2f 1) ;;
  SetShaderTexture "plastic" ;;
  SetShaderMaterial "plastic" ;;
  DrawBoxMesh ;;
  let scaleXYZ := mkvec3 (f32 0.15) (f32 0.25) (f32 0.25) in
  let XrotationDegrees := f32 90.0 in
  let YrotationDegrees := f32 0.0 in
  let ZrotationDegrees := f32 0.0 in
  let positionXYZ := mkvec3 (fadd (f32 (-1.47)) xPosition) (fadd (f32 4.878) yPosition) (fadd (f32 4.875) zPosition) in
  SetTransformations scaleXYZ XrotationDegrees YrotationDegrees ZrotationDegrees positionXYZ ;;
  SetTextureUVScale (i2f 4) (i2f 1) ;;
  SetShaderTexture "plastic" ;;
  SetShaderMaterial "plastic" ;;
  DrawCylinderMesh ;;
  let scaleXYZ := mkvec3 (f32 0.15) (f32 0.25) (f32 0.25) in
  let XrotationDegrees := f32 90.0 in
  let YrotationDegrees := f32 0.0 in
  let ZrotationDegrees := f32 0.0 in
  let positionXYZ := mkvec3 (fadd (f32 (-1.47)) xPosition) (fadd (f32 3.12) yPosition) (fadd (f32 4.87) zPosition) in
  SetTransformations scaleXYZ XrotationDegrees YrotationDegrees ZrotationDegrees positionXYZ ;;
  SetTextureUVScale (i2f 4) (i2f 1) ;;
  SetShaderTexture "plastic" ;;
  SetShaderMaterial "plastic" ;;
  DrawCylinderMesh ;;
  let scaleXYZ := mkvec3 (f32 0.15) (f32 0.25) (f32 0.25) in
  let XrotationDegrees := f32 90.0 in
  let YrotationDegrees := f32 0.0 in
  let ZrotationDegrees := f32 0.0 in
  let positionXYZ := mkvec3 (fadd (f32 1.4825) xPosition) (fadd (f32 3.125) yPosition) (fadd (f32 4.87) zPosition) in
  SetTransformations scaleXYZ XrotationDegrees YrotationDegrees ZrotationDegrees positionXYZ ;;
  SetTextureUVScale (i2f 4) (i2f 1) ;;
  SetShaderTexture "plastic" ;;
  SetShaderMaterial "plastic" ;;
  DrawCylinderMesh ;;
  let scaleXYZ := mkvec3 (f32 0.15) (f32 0.25) (f32 0.25) in
  let XrotationDegrees := f32 90.0 in
  let YrotationDegrees := f32 0.0 in
  let ZrotationDegrees := f32 0.0 in
  let positionXYZ := mkvec3 (fadd (f32 1.4825) xPosition) (fadd (f32 4.878) yPosition) (fadd (f32 4.87) zPosition) in
  SetTransformations scaleXYZ XrotationDegrees YrotationDegrees ZrotationDegrees positionXYZ ;;
  SetTextureUVScale (i2f 4) (i2f 1) ;;
  SetShaderTexture "plastic" ;;
  SetShaderMaterial "plastic" ;;
  DrawCylinderMesh ;;
  let scaleXYZ := mkvec3 (f32 1.0) (f32 0.05) (f32 1.0) in
  let XrotationDegrees := f32 0.0 in
  let YrotationDegrees := f32 0.0 in
  let ZrotationDegrees := f32 0.0 in
  let positionXYZ := mkvec3 (fadd (f32 0.0) xPosition) (fadd (f32 2.55) yPosition) (fadd (f32 5.0) zPosition) in
  SetTransformations scaleXYZ XrotationDegrees YrotationDegrees ZrotationDegrees positionXYZ ;;
  SetTextureUVScale (i2f 4) (i2f 1) ;;
  SetShaderTexture "plastic" ;;
  SetShaderMaterial "plastic" ;;
  DrawBoxMesh ;;
  let scaleXYZ := mkvec3 (f32 1.0) (f32 0.05) (f32 1.0) in
  let XrotationDegrees := f32 (-65.0) in
  let YrotationDegrees := f32 0.0 in
  let ZrotationDegrees := f32 0.0 in
  let positionXYZ := mkvec3 (fadd (f32 0.0) xPosition) (fadd (f32 3.025) yPosition) (fadd (f32 4.735) zPosition) in
  SetTransformations scaleXYZ XrotationDegrees YrotationDegrees ZrotationDegrees positionXYZ ;;
  SetTextureUVScale (i2f 4) (i2f 1) ;;
  SetShaderTexture "plastic" ;;
  SetShaderMaterial "plastic" ;;
  DrawBoxMesh ;;
  let scaleXYZ := mkvec3 (f32 0.03) (f32 1.0) (f32 0.03) in
  let XrotationDegrees := f32 0.0 in
  let YrotationDegrees := f32 0.0 in
  let ZrotationDegrees := f32 90.0 in
  let positionXYZ := mkvec3 (fadd (f32 0.5) xPosition) (fadd (f32 2.575) yPosition) (fadd (f32 4.53) zPosition) in
  SetTransformations scaleXYZ XrotationDegrees YrotationDegrees ZrotationDegrees positionXYZ ;;
  SetTextureUVScale (i2f 4) (i2f 1) ;;
  SetShaderTexture "plastic" ;;
  SetShaderMaterial "plastic" ;;
  DrawCylinderMesh ;;
  let scaleXYZ := mkvec3 (f32 1.55) (f32 1.2) (f32 1.0) in
  let XrotationDegrees := f32 90.0 in
  let YrotationDegrees := f32 0.0 in
  let ZrotationDegrees := f32 0.0 in
  let positionXYZ := mkvec3 (fadd (f32 0.0) xPosition) (fadd (f32 4.0) yPosition) (fadd (f32 4.855) zPosition) in
  SetTransformations scaleXYZ XrotationDegrees YrotationDegrees ZrotationDegrees positionXYZ ;;
  SetTextureUVScale (i2f 4) (i2f 1) ;;
  SetShaderTexture "plastic" ;;
  SetShaderMaterial "plastic" ;;
  DrawPlaneMesh.

Definition GenerateKeyCap (xPosition yPosition zPosition : float) : M unit :=
  let XrotationDegrees := f32 0.0 in
  let YrotationDegrees := f32 0.0 in
  let ZrotationDegrees := f32 0.0 in
  let scaleXYZ := mkvec3 (f32 0.075) (f32 0.075) (f32 0.025) in
  let XrotationDegrees := f32 (-80.0) in
  let YrotationDegrees := f32 0.0 in
  let ZrotationDegrees := f32 0.0 in
  let positionXYZ := mkvec3 (fadd (f32 (-0.9)) xPosition) (fadd (f32 4.12) yPosition) (fadd (f32 4.85) zPosition) in
  SetTransformations scaleXYZ XrotationDegrees YrotationDegrees ZrotationDegrees positionXYZ ;;
  SetTextureUVScale (i2f 4) (i2f 1) ;;
  SetShaderTexture "plastic" ;;
  SetShaderMaterial "plastic" ;;
  DrawBoxMesh.

Definition LoadKeyboard (xPosition yPosition zPosition : float) : M unit :=
  let XrotationDegrees := f32 0.0 in
  let YrotationDegrees := f32 0.0 in
  let ZrotationDegrees := f32 0.0 in
  let scaleXYZ := mkvec3 (f32 2.0) (f32 0.5) (f32 0.05) in
  let XrotationDegrees := f32 (-80.0) in
  let YrotationDegrees := f32 0.0 in
  let ZrotationDegrees := f32 0.0 in
  let positionXYZ := mkvec3 (fadd (f32 0.0) xPosition) (fadd (f32 4.068) yPosition) (fadd (f32 5.005) zPosition) in
  SetTransformations scaleXYZ XrotationDegrees YrotationDegrees ZrotationDegrees positionXYZ ;;
  SetTextureUVScale (i2f 4) (i2f 1) ;;
  SetShaderTexture "plastic" ;;
  SetShaderMaterial "plastic" ;;
  DrawBoxMesh ;;
  let keySpace := i2f 0 in
  let yMod := i2f 0 in
  let zMod := i2f 0 in
  _ <- for_loop 3 (fun '(keySpace, yMod, zMod) =>
    keySpace <- for_loop 19 (fun keySpace =>
      GenerateKeyCap (fadd xPosition keySpace) (fadd yPosition yMod) (fadd zPosition zMod) ;;
      let keySpace := d2f (dadd (f2d keySpace) (f64 0.1)) in
      ret keySpace) keySpace ;;
    let keySpace := i2f 0 in
    let yMod := d2f (dsub (f2d yMod) (f64 0.025)) in
    let zMod := d2f (dadd (f2d zMod) (f64 0.15)) in
    ret (keySpace, yMod, zMod)) (keySpace, yMod, zMod) ;;
  let scaleXYZ := mkvec3 (f32 2.0) (f32 0.15) (f32 0.005) in
  let XrotationDegrees := f32 (-120.0) in
  let YrotationDegrees := f32 0.0 in
  let ZrotationDegrees := f32 0.0 in
  let positionXYZ := mkvec3 (fadd (f32 0.0) xPosition) (fadd (f32 4.068) yPosition) (fadd (f32 4.8) zPosition) in
  SetTransformations scaleXYZ XrotationDegrees YrotationDegrees ZrotationDegrees positionXYZ ;;
  SetTextureUVScale (i2f 4) (i2f 1) ;;
  SetShaderTexture "plastic" ;;
  SetShaderMaterial "plastic" ;;
  DrawBoxMesh.

Definition LoadMouse (xPosition yPosition zPosition : float) : M unit :=
  let XrotationDegrees := f32 0.0 in
  let YrotationDegrees := f32 0.0 in
  let ZrotationDegrees := f32 0.0 in
  let scaleXYZ := mkvec3 (f32 0.15) (f32 0.25) (f32 0.1) in
  let XrotationDegrees := f32 90.0 in
  let YrotationDegrees := f32 0.0 in
  let ZrotationDegrees := f32 0.0 in
  let positionXYZ := mkvec3 (fadd (f32 (-0.9)) xPosition) (fadd (f32 4.12) yPosition) (fadd (f32 4.85) zPosition) in
  SetTransformations scaleXYZ XrotationDegrees YrotationDegrees ZrotationDegrees positionXYZ ;;
  SetTextureUVScale (i2f 4) (i2f 1) ;;
  SetShaderTexture "plastic" ;;
  SetShaderMaterial "plastic" ;;
  DrawSphereMesh ;;
  let scaleXYZ := mkvec3 (f32 0.1) (f32 0.08) (f32 0.2) in
  let XrotationDegrees := f32 0.0 in
  let YrotationDegrees := f32 90.0 in
  let ZrotationDegrees := f32 0.0 in
  let positionXYZ := mkvec3 (fadd (f32 (-0.9)) xPosition) (fadd (f32 4.14) yPosition) (fadd (f32 4.75) zPosition) in
  SetTransformations scaleXYZ XrotationDegrees YrotationDegrees ZrotationDegrees positionXYZ ;;
  SetTextureUVScale (i2f 4) (i2f 1) ;;
  SetShaderTexture "plastic" ;;
  SetShaderMaterial "plastic" ;;
  DrawHalfTorusMesh.

Definition LoadPhone (xPosition yPosition zPosition : float) : M unit :=
  let XrotationDegrees := f32 0.0 in
  let YrotationDegrees := f32 0.0 in
  let ZrotationDegrees := f32 0.0 in
  let scaleXYZ := mkvec3 (f32 0.1) (f32 0.03) (f32 0.5) in
  let XrotationDegrees := f32 0.0 in
  let YrotationDegrees := f32 0.0 in
  let ZrotationDegrees := f32 0.0 in
  let positionXYZ := mkvec3 (fadd (f32 (-0.9)) xPosition) (fadd (f32 4.12) yPosition) (fadd (f32 4.85) zPosition) in
  SetTransformations scaleXYZ XrotationDegrees YrotationDegrees ZrotationDegrees positionXYZ ;;
  SetTextureUVScale (i2f 4) (i2f 1) ;;
  SetShaderTexture "plastic" ;;
  SetShaderMaterial "plastic" ;;
  DrawBoxMesh ;;
  let scaleXYZ := mkvec3 (f32 0.1) (f32 0.03) (f32 0.5) in
  let XrotationDegrees := f32 0.0 in
  let YrotationDegrees := f32 0.0 in
  let ZrotationDegrees := f32 0.0 in
  let positionXYZ := mkvec3 (fadd (f32 (-0.5)) xPosition) (fadd (f32 4.12) yPosition) (fadd (f32 4.85) zPosition) in
  SetTransformations scaleXYZ XrotationDegrees YrotationDegrees ZrotationDegrees positionXYZ ;;
  SetTextureUVScale (i2f 4) (i2f 1) ;;
  SetShaderTexture "plastic" ;;
  SetShaderMaterial "plastic" ;;
  DrawBoxMesh ;;
  let scaleXYZ := mkvec3 (f32 0.4) (f32 0.03) (f32 0.1) in
  let XrotationDegrees := f32 0.0 in
  let YrotationDegrees := f32 0.0 in
  let ZrotationDegrees := f32 0.0 in
  let positionXYZ := mkvec3 (fadd (f32 (-0.7)) xPosition) (fadd (f32 4.12) yPosition) (fadd (f32 4.585) zPosition) in
  SetTransformations scaleXYZ XrotationDegrees YrotationDegrees ZrotationDegrees positionXYZ ;;
  SetTextureUVScale (i2f 4) (i2f 1) ;;
  SetShaderTexture "plastic" ;;
  SetShaderMaterial "plastic" ;;
  DrawBoxMesh ;;
  let scaleXYZ := mkvec3 (f32 0.4) (f32 0.03) (f32 0.1) in
  let XrotationDegrees := f32 0.0 in
  let YrotationDegrees := f32 0.0 in
  let ZrotationDegrees := f32 0.0 in
  let positionXYZ := mkvec3 (fadd (f32 (-0.7)) xPosition) (fadd (f32 4.12) yPosition) (fadd (f32 5.1) zPosition) in
  SetTransformations scaleXYZ XrotationDegrees YrotationDegrees ZrotationDegrees positionXYZ ;;
  SetTextureUVScale (i2f 4) (i2f 1) ;;
  SetShaderTexture "plastic" ;;
  SetShaderMaterial "plastic" ;;
  DrawBoxMesh ;;
  let scaleXYZ := mkvec3 (f32 0.05) (f32 0.03) (f32 0.05) in
  let XrotationDegrees := f32 0.0 in
  let YrotationDegrees := f32 0.0 in
  let ZrotationDegrees := f32 0.0 in
  let positionXYZ := mkvec3 (fadd (f32 (-0.9)) xPosition) (fadd (f32 4.10) yPosition) (fadd (f32 5.1) zPosition) in
  SetTransformations scaleXYZ XrotationDegrees YrotationDegrees ZrotationDegrees positionXYZ ;;
  SetTextureUVScale (i2f 4) (i2f 1) ;;
  SetShaderTexture "plastic" ;;
  SetShaderMaterial "plastic" ;;
  DrawCylinderMesh ;;
  let scaleXYZ := mkvec3 (f32 0.05) (f32 0.03) (f32 0.05) in
  let XrotationDegrees := f32 0.0 in
  let YrotationDegrees := f32 0.0 in
  let ZrotationDegrees := f32 0.0 in
  let positionXYZ := mkvec3 (fadd (f32 (-0.9010)) xPosition) (fadd (f32 4.10) yPosition) (fadd (f32 4.5875) zPosition) in
  SetTransformations scaleXYZ XrotationDegrees YrotationDegrees ZrotationDegrees positionXYZ ;;
  SetTextureUVScale (i2f 4) (i2f 1) ;;
  SetShaderTexture "plastic" ;;
  SetShaderMaterial "plastic" ;;
  DrawCylinderMesh ;;
  let scaleXYZ := mkvec3 (f32 0.05) (f32 0.03) (f32 0.05) in
  let XrotationDegrees := f32 0.0 in
  let YrotationDegrees := f32 0.0 in
  let ZrotationDegrees := f32 0.0 in
  let positionXYZ := mkvec3 (d2f (dadd (f64 (-0.50)) (f2d xPosition))) (fadd (f32 4.10) yPosition) (fadd (f32 4.59) zPosition) in
  SetTransformations scaleXYZ XrotationDegrees YrotationDegrees ZrotationDegrees positionXYZ ;;
  SetTextureUVScale (i2f 4) (i2f 1) ;;
  SetShaderTexture "plastic" ;;
  SetShaderMaterial "plastic" ;;
  DrawCylinderMesh ;;
  let scaleXYZ := mkvec3 (f32 0.05) (f32 0.03) (f32 0.05) in
  let XrotationDegrees := f32 0.0 in
  let YrotationDegrees := f32 0.0 in
  let ZrotationDegrees := f32 0.0 in
  let positionXYZ := mkvec3 (d2f (dadd (f64 (-0.50)) (f2d xPosition))) (fadd (f32 4.10) yPosition) (fadd (f32 5.1) zPosition) in
  SetTransformations scaleXYZ XrotationDegrees YrotationDegrees ZrotationDegrees positionXYZ ;;
  SetTextureUVScale (i2f 4) (i2f 1) ;;
  SetShaderTexture "plastic" ;;
  SetShaderMaterial "plastic" ;;
  DrawCylinderMesh ;;
  let scaleXYZ := mkvec3 (f32 0.4) (f32 0.025) (f32 0.55) in
  let XrotationDegrees := f32 0.0 in
  let YrotationDegrees := f32 0.0 in
  let ZrotationDegrees := f32 0.0 in
  let positionXYZ := mkvec3 (d2f (dadd (f64 (-0.70)) (f2d xPosition))) (fadd (f32 4.125) yPosition) (fadd (f32 4.85) zPosition) in
  SetTransformations scaleXYZ XrotationDegrees YrotationDegrees ZrotationDegrees positionXYZ ;;
  SetTextureUVScale (i2f 4) (i2f 1) ;;
  SetShaderColor (d2f (f64 0.2)) (d2f (f64 0.2)) (d2f (f64 0.2)) (i2f 1) ;;
  SetShaderMaterial "plastic" ;;
  DrawBoxMesh.

Definition LoadBook (xPosition yPosition zPosition : float)
    (xRotation yRotation zRotation : float) : M unit :=
  let XrotationDegrees := f32 0.0 in
  let YrotationDegrees := f32 0.0 in
  let ZrotationDegrees := f32 0.0 in
  let scaleXYZ := mkvec3 (f32 0.05) (f32 1.2) (f32 1.0) in
  let XrotationDegrees := fadd (f32 0.0) xRotation in
  let YrotationDegrees := fadd (f32 0.0) yRotation in
  let ZrotationDegrees := fadd (f32 0.0) zRotation in
  let positionXYZ := mkvec3 (fadd (f32 (-0.2)) xPosition) (fadd (f32 4.3) yPosition) (fadd (f32 4.85) zPosition) in
  SetTransformations scaleXYZ XrotationDegrees YrotationDegrees ZrotationDegrees positionXYZ ;;
  SetTextureUVScale (i2f 1) (i2f 1) ;;
  SetShaderTexture "BookBack" ;;
  SetShaderMaterial "BookCover" ;;
  DrawBoxMesh ;;
  let scaleXYZ := mkvec3 (f32 0.05) (f32 1.2) (f32 1.0) in
  let XrotationDegrees := fadd (f32 0.0) xRotation in
  let YrotationDegrees := fadd (f32 0.0) yRotation in
  let ZrotationDegrees := fadd (f32 0.0) zRotation in
  let positionXYZ := mkvec3 (fadd (f32 0.0) xPosition) (fadd (f32 4.3) yPosition) (fadd (f32 4.85) zPosition) in
  SetTransformations scaleXYZ XrotationDegrees YrotationDegrees ZrotationDegrees positionXYZ ;;
  SetTextureUVScale (i2f 1) (i2f 1) ;;
  SetShaderTexture "BookFront" ;;
  SetShaderMaterial "BookCover" ;;
  DrawBoxMesh ;;
  let scaleXYZ := mkvec3 (f32 0.25) (f32 1.2) (f32 0.05) in
  let XrotationDegrees := fadd (f32 0.0) xRotation in
  let YrotationDegrees := fadd (f32 0.0) yRotation in
  let ZrotationDegrees := fadd (f32 0.0) zRotation in
  let positionXYZ := mkvec3 (fadd (f32 (-0.1025)) xPosition) (fadd (f32 4.3) yPosition) (fadd (f32 5.330) zPosition) in
  SetTransformations scaleXYZ XrotationDegrees YrotationDegrees ZrotationDegrees positionXYZ ;;
  SetTextureUVScale (i2f 1) (i2f 1) ;;
  SetShaderTexture "BookSpine" ;;
  SetShaderMaterial "BookCover" ;;
  DrawBoxMesh ;;
  let scaleXYZ := mkvec3 (f32 0.17) (f32 1.1) (f32 0.95) in
  let XrotationDegrees := fadd (f32 0.0) xRotation in
  let YrotationDegrees := fadd (f32 0.0) yRotation in
  let ZrotationDegrees := fadd (f32 0.0) zRotation in
  let positionXYZ := mkvec3 (fadd (f32 (-0.09)) xPosition) (fadd (f32 4.3) yPosition) (fadd (f32 4.85) zPosition) in
  SetTransformations scaleXYZ XrotationDegrees YrotationDegrees ZrotationDegrees positionXYZ ;;
  SetTextureUVScale (i2f 1) (i2f 1) ;;
  SetShaderTexture "Pages" ;;
  SetShaderMaterial "BookCover" ;;
  DrawBoxMesh.

(** ** SetupSceneLights, PrepareScene, RenderScene *)

Definition SetupSceneLights : M unit :=
  setBoolValue g_UseLightingName true ;;
  setVec3Value "pointLights[0].position" (mkvec3 (f32 0.0) (f32 20.0) (f32 20.0)) ;;
  setVec3Value "pointLights[0].ambient" (mkvec3 (f32 0.1) (f32 0.1) (f32 0.1)) ;;
  setVec3Value "pointLights[0].diffuse" (mkvec3 (f32 0.4) (f32 0.4) (f32 0.4)) ;;
  setVec3Value "pointLights[0].specular" (mkvec3 (f32 0.01) (f32 0.01) (f32 0.01)) ;;
  setBoolValue "pointLights[0].bActive" true ;;
  setVec3Value "pointLights[1].position" (mkvec3 (f32 (-4.0)) (f32 5.5) (f32 (-2.5))) ;;
  setVec3Value "pointLights[1].ambient" (mkvec3 (f32 0.4) (f32 0.4) (f32 0.4)) ;;
  setVec3Value "pointLights[1].diffuse" (mkvec3 (f32 0.5) (f32 0.5) (f32 0.5)) ;;
  setVec3Value "pointLights[1].specular" (mkvec3 (f32 0.01) (f32 0.01) (f32 0.01)) ;;
  setBoolValue "pointLights[1].bActive" true ;;
  setVec3Value "pointLights[2].position" (mkvec3 (f32 (-6.0)) (f32 5.5) (f32 (-1.5))) ;;
  setVec3Value "pointLights[2].ambient" (mkvec3 (f32 0.4) (f32 0.4) (f32 0.4)) ;;
  setVec3Value "pointLights[2].diffuse" (mkvec3 (f32 0.5) (f32 0.5) (f32 0.5)) ;;
  setVec3Value "pointLights[2].specular" (mkvec3 (f32 0.01) (f32 0.01) (f32 0.01)) ;;
  setBoolValue "pointLights[2].bActive" true.

Definition PrepareScene : M unit :=
  LoadSceneTextures ;;
  DefineObjectMaterials ;;
  SetupSceneLights ;;
  LoadPlaneMesh ;;
  LoadTaperedCylinderMesh ;;
  LoadTorusMesh ;;
  LoadBoxMesh ;;
  LoadCylinderMesh ;;
  LoadSphereMesh.

Definition RenderScene : M unit :=
  let XrotationDegrees := f32 0.0 in
  let YrotationDegrees := f32 0.0 in
  let ZrotationDegrees := f32 0.0 in
  let scaleXYZ := mkvec3 (f32 20.0) (f32 1.0) (f32 10.0) in
  let XrotationDegrees := f32 0.0 in
  let YrotationDegrees := f32 0.0 in
  let ZrotationDegrees := f32 0.0 in
  let positionXYZ := mkvec3 (f32 0.0) (f32 0.0) (f32 7.0) in
  SetTransformations scaleXYZ XrotationDegrees YrotationDegrees ZrotationDegrees positionXYZ ;;
  SetShaderColor (i2f 1) (i2f 1) (i2f 1) (i2f 1) ;;
  SetShaderTexture "WoodFloor" ;;
  SetTextureUVScale (i2f 4) (i2f 2) ;;
  SetShaderMaterial "woodFloor" ;;
  DrawPlaneMesh ;;
  let scaleXYZ := mkvec3 (f32 20.0) (f32 1.0) (f32 5.0) in
  let XrotationDegrees := f32 90.0 in
  let YrotationDegrees := f32 0.0 in
  let ZrotationDegrees := f32 0.0 in
  let positionXYZ := mkvec3 (f32 0.0) (f32 5.0) (f32 (-3.0)) in
  SetTransformations scaleXYZ XrotationDegrees YrotationDegrees ZrotationDegrees positionXYZ ;;
  SetShaderTexture "wall" ;;
  SetShaderMaterial "wall" ;;
  DrawPlaneMesh ;;
  let scaleXYZ := mkvec3 (f32 0.25) (f32 0.5) (f32 0.25) in
  let XrotationDegrees := f32 180.0 in
  let YrotationDegrees := f32 0.0 in
  let ZrotationDegrees := f32 0.0 in
  let positionXYZ := mkvec3 (f32 (-3.75)) (f32 4.45) (f32 1.0) in
  SetTransformations scaleXYZ XrotationDegrees YrotationDegrees ZrotationDegrees positionXYZ ;;
  SetShaderTexture "cup" ;;
  SetTextureUVScale (i2f 2) (i2f 2) ;;
  SetShaderMaterial "porcelain" ;;
  DrawTaperedCylinderMesh true false true ;;
  let scaleXYZ := mkvec3 (f32 0.13) (f32 0.15) (f32 0.13) in
  let XrotationDegrees := f32 90.0 in
  let YrotationDegrees := f32 (-8.0) in
  let ZrotationDegrees := f32 90.0 in
  let positionXYZ := mkvec3 (f32 (-3.75)) (f32 4.22) (f32 1.17) in
  SetTransformations scaleXYZ XrotationDegrees YrotationDegrees ZrotationDegrees positionXYZ ;;
  SetShaderTexture "cup" ;;
  SetTextureUVScale (i2f 2) (i2f 2) ;;
  SetShaderMaterial "porcelain" ;;
  DrawHalfTorusMesh ;;
  let scaleXYZ := mkvec3 (f32 10.0) (f32 0.5) (f32 5.0) in
  let XrotationDegrees := f32 0.0 in
  let YrotationDegrees := f32 0.0 in
  let ZrotationDegrees := f32 0.0 in
  let positionXYZ := mkvec3 (f32 (-0.4)) (f32 3.65) (f32 0.0) in
  SetTransformations scaleXYZ XrotationDegrees YrotationDegrees ZrotationDegrees positionXYZ ;;
  SetShaderMaterial "wood" ;;
  SetShaderTexture "table-top" ;;
  SetTextureUVScale (i2f 1) (d2f (f64 0.75)) ;;
  DrawBoxMeshSide ShapeMeshes.top ;;
  SetShaderTexture "table-side" ;;
  SetTextureUVScale (i2f 2) (d2f (f64 0.25)) ;;
  DrawBoxMeshSide ShapeMeshes.left ;;
  DrawBoxMeshSide ShapeMeshes.right ;;
  SetTextureUVScale (i2f 4) (d2f (f64 0.25)) ;;
  DrawBoxMeshSide ShapeMeshes.back ;;
  DrawBoxMeshSide ShapeMeshes.front ;;
  DrawBoxMeshSide ShapeMeshes.bottom ;;
  let scaleXYZ := mkvec3 (f32 9.5) (f32 0.5) (f32 4.5) in
  let XrotationDegrees := f32 0.0 in
  let YrotationDegrees := f32 0.0 in
  let ZrotationDegrees := f32 0.0 in
  let positionXYZ := mkvec3 (f32 (-0.4)) (f32 3.2) (f32 0.0) in
  SetTransformations scaleXYZ XrotationDegrees YrotationDegrees ZrotationDegrees positionXYZ ;;
  SetShaderTexture "base" ;;
  SetShaderMaterial "metal" ;;
  SetTextureUVScale (i2f 4) (i2f 1) ;;
  DrawBoxMeshSide ShapeMeshes.back ;;
  DrawBoxMeshSide ShapeMeshes.front ;;
  DrawBoxMeshSide ShapeMeshes.bottom ;;
  SetTextureUVScale (i2f 2) (d2f (f64 0.5)) ;;
  DrawBoxMeshSide ShapeMeshes.left ;;
  DrawBoxMeshSide ShapeMeshes.right ;;
  let scaleXYZ := mkvec3 (f32 4.5) (f32 0.5) (f32 0.25) in
  let XrotationDegrees := f32 0.0 in
  let YrotationDegrees := f32 90.0 in
  let ZrotationDegrees := f32 0.0 in
  let positionXYZ := mkvec3 (f32 (-5.025)) (f32 0.75) (f32 0.0) in
  SetTransformations scaleXYZ XrotationDegrees YrotationDegrees ZrotationDegrees positionXYZ ;;
  SetTextureUVScale (i2f 2) (i2f 1) ;;
  SetShaderMaterial "metal" ;;
  DrawBoxMesh ;;
  let scaleXYZ := mkvec3 (f32 4.5) (f32 0.5) (f32 0.25) in
  let XrotationDegrees := f32 0.0 in
  let YrotationDegrees := f32 90.0 in
  let ZrotationDegrees := f32 0.0 in
  let positionXYZ := mkvec3 (f32 4.21) (f32 0.75) (f32 0.0) in
  SetTransformations scaleXYZ XrotationDegrees YrotationDegrees ZrotationDegrees positionXYZ ;;
  SetTextureUVScale (i2f 2) (i2f 1) ;;
  SetShaderMaterial "metal" ;;
  DrawBoxMesh ;;
  let scaleXYZ := mkvec3 (f32 3.0) (f32 0.25) (f32 0.5) in
  let XrotationDegrees := f32 0.0 in
  let YrotationDegrees := f32 0.0 in
  let ZrotationDegrees := f32 90.0 in
  let positionXYZ := mkvec3 (f32 4.21) (f32 1.52) (f32 (-2.0)) in
  SetTransformations scaleXYZ XrotationDegrees YrotationDegrees ZrotationDegrees positionXYZ ;;
  SetTextureUVScale (i2f 4) (i2f 1) ;;
  SetShaderMaterial "metal" ;;
  DrawBoxMesh ;;
  let scaleXYZ := mkvec3 (f32 3.0) (f32 0.25) (f32 0.5) in
  let XrotationDegrees := f32 0.0 in
  let YrotationDegrees := f32 0.0 in
  let ZrotationDegrees := f32 90.0 in
  let positionXYZ := mkvec3 (f32 4.21) (f32 1.52) (f32 2.0) in
  SetTransformations scaleXYZ XrotationDegrees YrotationDegrees ZrotationDegrees positionXYZ ;;
  SetTextureUVScale (i2f 4) (i2f 1) ;;
  SetShaderMaterial "metal" ;;
  DrawBoxMesh ;;
  let scaleXYZ := mkvec3 (f32 3.0) (f32 0.25) (f32 0.5) in
  let XrotationDegrees := f32 0.0 in
  let YrotationDegrees := f32 0.0 in
  let ZrotationDegrees := f32 90.0 in
  let positionXYZ := mkvec3 (f32 (-5.025)) (f32 1.52) (f32 2.0) in
  SetTransformations scaleXYZ XrotationDegrees YrotationDegrees ZrotationDegrees positionXYZ ;;
  SetTextureUVScale (i2f 4) (i2f 1) ;;
  SetShaderMaterial "metal" ;;
  DrawBoxMesh ;;
  let scaleXYZ := mkvec3 (f32 3.0) (f32 0.25) (f32 0.5) in
  let XrotationDegrees := f32 0.0 in
  let YrotationDegrees := f32 0.0 in
  let ZrotationDegrees := f32 90.0 in
  let positionXYZ := mkvec3 (f32 (-5.025)) (f32 1.52) (f32 (-2.0)) in
  SetTransformations scaleXYZ XrotationDegrees YrotationDegrees ZrotationDegrees positionXYZ ;;
  SetTextureUVScale (i2f 4) (i2f 1) ;;
  SetShaderMaterial "metal" ;;
  DrawBoxMesh ;;
  LoadLamp (d2f (f64 0.25)) (i2f 0) (d2f (f64 (-0.2))) ;;
  LoadMonitor (d2f (f64 (-0.5))) (d2f (f64 1.4)) (d2f (f64 (-6.5))) ;;
  LoadKeyboard (d2f (f64 (-0.5))) (i2f 0) (d2f (f64 (-3.5))) ;;
  LoadMouse (i2f 2) (d2f (f64 (-0.1))) (d2f (f64 (-3.4))) ;;
  LoadPhone (d2f (f64 2.7)) (i2f 0) (d2f (f64 (-3.9))) ;;
  let BookSpacer := d2f (f64 2.0) in
  _ <- for_loop 8 (fun BookSpacer =>
    LoadBook BookSpacer (d2f (f64 0.25)) (d2f (f64 (-6.35))) (f32 0.0) (f32 0.0) (f32 0.0) ;;
    let BookSpacer := d2f (dadd (f2d BookSpacer) (f64 0.25)) in
    ret BookSpacer) BookSpacer ;;
  LoadBook (d2f (f64 1.68)) (d2f (f64 0.25)) (d2f (f64 (-6.35))) (i2f 0) (i2f 0) (d2f (f64 (-7.5))).


(** ** Parts: the constant data of a placement routine

    What the placement routines are said to be: a table of parts, each a
    scale, a rotation, a base position, a UV scale, a texture or a colour, a
    material and a mesh, drawn at the base position plus the offset.  The
    tables below are read off the literals of the source; that the routines
    do draw them is proved further down. *)

(** A literal the offset is added to: [-4.2f + xPosition] adds in [float];
    [-.50 + xPosition] adds in [double] and the vec3 constructor narrows the
    sum to [float]. *)
Inductive literal : Set := lit_f (c : float) | lit_d (c : double).

Definition plus_offset (c : literal) (offset : float) : float :=
  match c with
  | lit_f c => fadd c offset
  | lit_d c => d2f (dadd c (f2d offset))
  end.

Inductive surface : Set :=
| Texture (textureTag : string)
| Color (r g b a : float).

Record part : Set := mkpart {
  part_scale : vec3;
  part_Xrotation : float;
  part_Yrotation : float;
  part_Zrotation : float;
  part_x : literal;
  part_y : literal;
  part_z : literal;
  part_u : float;
  part_v : float;
  part_surface : surface;
  part_material : string;
  part_mesh : Event
}.

(** A part with its place in the scene. *)
Record placed : Set := mkplaced {
  placed_scale : vec3;
  placed_Xrotation : float;
  placed_Yrotation : float;
  placed_Zrotation : float;
  placed_position : vec3;
  placed_u : float;
  placed_v : float;
  placed_surface : surface;
  placed_material : string;
  placed_mesh : Event
}.

Definition place (x y z : float) (p : part) : placed :=
  mkplaced (part_scale p)
    (part_Xrotation p) (part_Yrotation p) (part_Zrotation p)
    (mkvec3 (plus_offset (part_x p) x) (plus_offset (part_y p) y) (plus_offset (part_z p) z))
    (part_u p) (part_v p) (part_surface p) (part_material p) (part_mesh p).

(** LoadBook adds its rotation arguments to the rotation literals as well. *)
Definition place_rotated (x y z xRotation yRotation zRotation : float) (p : part) : placed :=
  mkplaced (part_scale p)
    (fadd (part_Xrotation p) xRotation)
    (fadd (part_Yrotation p) yRotation)
    (fadd (part_Zrotation p) zRotation)
    (mkvec3 (plus_offset (part_x p) x) (plus_offset (part_y p) y) (plus_offset (part_z p) z))
    (part_u p) (part_v p) (part_surface p) (part_material p) (part_mesh p).

Definition set_surface (s : surface) : M unit :=
  match s with
  | Texture textureTag => SetShaderTexture textureTag
  | Color r g b a => SetShaderColor r g b a
  end.

Definition draw_part (p : placed) : M unit :=
  SetTransformations (placed_scale p)
    (placed_Xrotation p) (placed_Yrotation p) (placed_Zrotation p) (placed_position p) ;;
  SetTextureUVScale (placed_u p) (placed_v p) ;;
  set_surface (placed_surface p) ;;
  SetShaderMaterial (placed_material p) ;;
  emit (placed_mesh p).

Fixpoint draw_all (ps : list placed) : M unit :=
  match ps with
  | [] => ret tt
  | p :: rest => draw_part p ;; draw_all rest
  end.

Definition LampParts : list part :=
  [ mkpart (mkvec3 (f32 0.75) (f32 1.0) (f32 0.75)) (f32 0.0) (f32 0.0) (f32 0.0)
      (lit_f (f32 (-4.2))) (lit_f (f32 5.3)) (lit_f (f32 (-1.6)))
      (i2f 4) (i2f 1) (Texture "lamp-shade") "cloth" (Ev_DrawTaperedCylinderMesh false false true);
    mkpart (mkvec3 (f32 0.35) (f32 0.35) (f32 0.1)) (f32 90.0) (f32 0.0) (f32 0.0)
      (lit_f (f32 (-4.20))) (lit_f (f32 6.3)) (lit_f (f32 (-1.6)))
      (i2f 4) (i2f 1) (Texture "lamp-rim") "metal" Ev_DrawTorusMesh;
    mkpart (mkvec3 (f32 0.65) (f32 0.65) (f32 0.1)) (f32 90.0) (f32 0.0) (f32 0.0)
      (lit_f (f32 (-4.20))) (lit_f (f32 5.3)) (lit_f (f32 (-1.6)))
      (i2f 4) (i2f 1) (Texture "lamp-rim") "metal" Ev_DrawTorusMesh;
    mkpart (mkvec3 (f32 0.05) (f32 0.75) (f32 0.05)) (f32 0.0) (f32 0.0) (f32 0.0)
      (lit_f (f32 (-4.20))) (lit_f (f32 4.85)) (lit_f (f32 (-1.6)))
      (i2f 4) (i2f 1) (Texture "lamp-rim") "metal" Ev_DrawCylinderMesh;
    mkpart (mkvec3 (f32 0.025) (f32 1.0) (f32 0.025)) (f32 160.0) (f32 0.0) (f32 0.0)
      (lit_f (f32 (-4.20))) (lit_f (f32 4.85)) (lit_f (f32 (-1.6)))
      (i2f 4) (i2f 1) (Texture "lamp-rim") "metal" Ev_DrawCylinderMesh;
    mkpart (mkvec3 (f32 0.025) (f32 1.0) (f32 0.025)) (f32 160.0) (f32 120.0) (f32 0.0)
      (lit_f (f32 (-4.20))) (lit_f (f32 4.85)) (lit_f (f32 (-1.6)))
      (i2f 4) (i2f 1) (Texture "lamp-rim") "metal" Ev_DrawCylinderMesh;
    mkpart (mkvec3 (f32 0.025) (f32 1.0) (f32 0.025)) (f32 160.0) (f32 240.0) (f32 0.0)
      (lit_f (f32 (-4.20))) (lit_f (f32 4.85)) (lit_f (f32 (-1.6)))
      (i2f 4) (i2f 1) (Texture "lamp-rim") "metal" Ev_DrawCylinderMesh ].

Definition MonitorParts : list part :=
  [ mkpart (mkvec3 (f32 3.0) (f32 2.0) (f32 0.25)) (f32 0.0) (f32 0.0) (f32 0.0)
      (lit_f (f32 0.0)) (lit_f (f32 4.068)) (lit_f (f32 5.005))
      (i2f 4) (i2f 1) (Color (d2f (f64 0.1)) (d2f (f64 0.1)) (d2f (f64 0.1)) (i2f 1)) "plastic" Ev_DrawBoxMesh;
    mkpart (mkvec3 (f32 3.0) (f32 0.25) (f32 0.25)) (f32 0.0) (f32 0.0) (f32 0.0)
      (lit_f (f32 0.0)) (lit_f (f32 3.0)) (lit_f (f32 5.0))
      (i2f 4) (i2f 1) (Texture "plastic") "plastic" Ev_DrawBoxMesh;
    mkpart (mkvec3 (f32 3.0) (f32 0.25) (f32 0.25)) (f32 0.0) (f32 0.0) (f32 0.0)
      (lit_f (f32 0.0)) (lit_f (f32 5.0)) (lit_f (f32 5.0))
      (i2f 4) (i2f 1) (Texture "plastic") "plastic" Ev_DrawBoxMesh;
    mkpart (mkvec3 (f32 0.25) (f32 1.9) (f32 0.25)) (f32 0.0) (f32 0.0) (f32 0.0)
      (lit_f (f32 1.5)) (lit_f (f32 4.0)) (lit_f (f32 5.0))
      (i2f 4) (i2f 1) (Texture "plastic") "plastic" Ev_DrawBoxMesh;
    mkpart (mkvec3 (f32 0.25) (f32 1.9) (f32 0.25)) (f32 0.0) (f32 0.0) (f32 0.0)
      (lit_f (f32 (-1.49))) (lit_f (f32 4.0)) (lit_f (f32 5.0))
      (i2f 4) (i2f 1) (Texture "plastic") "plastic" Ev_DrawBoxMesh;
    mkpart (mkvec3 (f32 0.15) (f32 0.25) (f32 0.25)) (f32 90.0) (f32 0.0) (f32 0.0)
      (lit_f (f32 (-1.47))) (lit_f (f32 4.878)) (lit_f (f32 4.875))
      (i2f 4) (i2f 1) (Texture "plastic") "plastic" Ev_DrawCylinderMesh;
    mkpart (mkvec3 (f32 0.15) (f32 0.25) (f32 0.25)) (f32 90.0) (f32 0.0) (f32 0.0)
      (lit_f (f32 (-1.47))) (lit_f (f32 3.12)) (lit_f (f32 4.87))
      (i2f 4) (i2f 1) (Texture "plastic") "plastic" Ev_DrawCylinderMesh;
    mkpart (mkvec3 (f32 0.15) (f32 0.25) (f32 0.25)) (f32 90.0) (f32 0.0) (f32 0.0)
      (lit_f (f32 1.4825)) (lit_f (f32 3.125)) (lit_f (f32 4.87))
      (i2f 4) (i2f 1) (Texture "plastic") "plastic" Ev_DrawCylinderMesh;
    mkpart (mkvec3 (f32 0.15) (f32 0.25) (f32 0.25)) (f32 90.0) (f32 0.0) (f32 0.0)
      (lit_f (f32 1.4825)) (lit_f (f32 4.878)) (lit_f (f32 4.87))
      (i2f 4) (i2f 1) (Texture "plastic") "plastic" Ev_DrawCylinderMesh;
    mkpart (mkvec3 (f32 1.0) (f32 0.05) (f32 1.0)) (f32 0.0) (f32 0.0) (f32 0.0)
      (lit_f (f32 0.0)) (lit_f (f32 2.55)) (lit_f (f32 5.0))
      (i2f 4) (i2f 1) (Texture "plastic") "plastic" Ev_DrawBoxMesh;
    mkpart (mkvec3 (f32 1.0) (f32 0.05) (f32 1.0)) (f32 (-65.0)) (f32 0.0) (f32 0.0)
      (lit_f (f32 0.0)) (lit_f (f32 3.025)) (lit_f (f32 4.735))
      (i2f 4) (i2f 1) (Texture "plastic") "plastic" Ev_DrawBoxMesh;
    mkpart (mkvec3 (f32 0.03) (f32 1.0) (f32 0.03)) (f32 0.0) (f32 0.0) (f32 90.0)
      (lit_f (f32 0.5)) (lit_f (f32 2.575)) (lit_f (f32 4.53))
      (i2f 4) (i2f 1) (Texture "plastic") "plastic" Ev_DrawCylinderMesh;
    mkpart (mkvec3 (f32 1.55) (f32 1.2) (f32 1.0)) (f32 90.0) (f32 0.0) (f32 0.0)
      (lit_f (f32 0.0)) (lit_f (f32 4.0)) (lit_f (f32 4.855))
      (i2f 4) (i2f 1) (Texture "plastic") "plastic" Ev_DrawPlaneMesh ].

Definition MouseParts : list part :=
  [ mkpart (mkvec3 (f32 0.15) (f32 0.25) (f32 0.1)) (f32 90.0) (f32 0.0) (f32 0.0)
      (lit_f (f32 (-0.9))) (lit_f (f32 4.12)) (lit_f (f32 4.85))
      (i2f 4) (i2f 1) (Texture "plastic") "plastic" Ev_DrawSphereMesh;
    mkpart (mkvec3 (f32 0.1) (f32 0.08) (f32 0.2)) (f32 0.0) (f32 90.0) (f32 0.0)
      (lit_f (f32 (-0.9))) (lit_f (f32 4.14)) (lit_f (f32 4.75))
      (i2f 4) (i2f 1) (Texture "plastic") "plastic" Ev_DrawHalfTorusMesh ].

Definition PhoneParts : list part :=
  [ mkpart (mkvec3 (f32 0.1) (f32 0.03) (f32 0.5)) (f32 0.0) (f32 0.0) (f32 0.0)
      (lit_f (f32 (-0.9))) (lit_f (f32 4.12)) (lit_f (f32 4.85))
      (i2f 4) (i2f 1) (Texture "plastic") "plastic" Ev_DrawBoxMesh;
    mkpart (mkvec3 (f32 0.1) (f32 0.03) (f32 0.5)) (f32 0.0) (f32 0.0) (f32 0.0)
      (lit_f (f32 (-0.5))) (lit_f (f32 4.12)) (lit_f (f32 4.85))
      (i2f 4) (i2f 1) (Texture "plastic") "plastic" Ev_DrawBoxMesh;
    mkpart (mkvec3 (f32 0.4) (f32 0.03) (f32 0.1)) (f32 0.0) (f32 0.0) (f32 0.0)
      (lit_f (f32 (-0.7))) (lit_f (f32 4.12)) (lit_f (f32 4.585))
      (i2f 4) (i2f 1) (Texture "plastic") "plastic" Ev_DrawBoxMesh;
    mkpart (mkvec3 (f32 0.4) (f32 0.03) (f32 0.1)) (f32 0.0) (f32 0.0) (f32 0.0)
      (lit_f (f32 (-0.7))) (lit_f (f32 4.12)) (lit_f (f32 5.1))
      (i2f 4) (i2f 1) (Texture "plastic") "plastic" Ev_DrawBoxMesh;
    mkpart (mkvec3 (f32 0.05) (f32 0.03) (f32 0.05)) (f32 0.0) (f32 0.0) (f32 0.0)
      (lit_f (f32 (-0.9))) (lit_f (f32 4.10)) (lit_f (f32 5.1))
      (i2f 4) (i2f 1) (Texture "plastic") "plastic" Ev_DrawCylinderMesh;
    mkpart (mkvec3 (f32 0.05) (f32 0.03) (f32 0.05)) (f32 0.0) (f32 0.0) (f32 0.0)
      (lit_f (f32 (-0.9010))) (lit_f (f32 4.10)) (lit_f (f32 4.5875))
      (i2f 4) (i2f 1) (Texture "plastic") "plastic" Ev_DrawCylinderMesh;
    mkpart (mkvec3 (f32 0.05) (f32 0.03) (f32 0.05)) (f32 0.0) (f32 0.0) (f32 0.0)
      (lit_d (f64 (-0.50))) (lit_f (f32 4.10)) (lit_f (f32 4.59))
      (i2f 4) (i2f 1) (Texture "plastic") "plastic" Ev_DrawCylinderMesh;
    mkpart (mkvec3 (f32 0.05) (f32 0.03) (f32 0.05)) (f32 0.0) (f32 0.0) (f32 0.0)
      (lit_d (f64 (-0.50))) (lit_f (f32 4.10)) (lit_f (f32 5.1))
      (i2f 4) (i2f 1) (Texture "plastic") "plastic" Ev_DrawCylinderMesh;
    mkpart (mkvec3 (f32 0.4) (f32 0.025) (f32 0.55)) (f32 0.0) (f32 0.0) (f32 0.0)
      (lit_d (f64 (-0.70))) (lit_f (f32 4.125)) (lit_f (f32 4.85))
      (i2f 4) (i2f 1) (Color (d2f (f64 0.2)) (d2f (f64 0.2)) (d2f (f64 0.2)) (i2f 1)) "plastic" Ev_DrawBoxMesh ].

Definition BookParts : list part :=
  [ mkpart (mkvec3 (f32 0.05) (f32 1.2) (f32 1.0)) (f32 0.0) (f32 0.0) (f32 0.0)
      (lit_f (f32 (-0.2))) (lit_f (f32 4.3)) (lit_f (f32 4.85))
      (i2f 1) (i2f 1) (Texture "BookBack") "BookCover" Ev_DrawBoxMesh;
    mkpart (mkvec3 (f32 0.05) (f32 1.2) (f32 1.0)) (f32 0.0) (f32 0.0) (f32 0.0)
      (lit_f (f32 0.0)) (lit_f (f32 4.3)) (lit_f (f32 4.85))
      (i2f 1) (i2f 1) (Texture "BookFront") "BookCover" Ev_DrawBoxMesh;
    mkpart (mkvec3 (f32 0.25) (f32 1.2) (f32 0.05)) (f32 0.0) (f32 0.0) (f32 0.0)
      (lit_f (f32 (-0.1025))) (lit_f (f32 4.3)) (lit_f (f32 5.330))
      (i2f 1) (i2f 1) (Texture "BookSpine") "BookCover" Ev_DrawBoxMesh;
    mkpart (mkvec3 (f32 0.17) (f32 1.1) (f32 0.95)) (f32 0.0) (f32 0.0) (f32 0.0)
      (lit_f (f32 (-0.09))) (lit_f (f32 4.3)) (lit_f (f32 4.85))
      (i2f 1) (i2f 1) (Texture "Pages") "BookCover" Ev_DrawBoxMesh ].

Definition KeyCapPart : part :=
  mkpart (mkvec3 (f32 0.075) (f32 0.075) (f32 0.025)) (f32 (-80.0)) (f32 0.0) (f32 0.0)
      (lit_f (f32 (-0.9))) (lit_f (f32 4.12)) (lit_f (f32 4.85))
      (i2f 4) (i2f 1) (Texture "plastic") "plastic" Ev_DrawBoxMesh.

Definition KeyboardCasePart : part :=
  mkpart (mkvec3 (f32 2.0) (f32 0.5) (f32 0.05)) (f32 (-80.0)) (f32 0.0) (f32 0.0)
      (lit_f (f32 0.0)) (lit_f (f32 4.068)) (lit_f (f32 5.005))
      (i2f 4) (i2f 1) (Texture "plastic") "plastic" Ev_DrawBoxMesh.

Definition KeyboardFrontPart : part :=
  mkpart (mkvec3 (f32 2.0) (f32 0.15) (f32 0.005)) (f32 (-120.0)) (f32 0.0) (f32 0.0)
      (lit_f (f32 0.0)) (lit_f (f32 4.068)) (lit_f (f32 4.8))
      (i2f 4) (i2f 1) (Texture "plastic") "plastic" Ev_DrawBoxMesh.

(** The spacing of the key caps: what the two loops of LoadKeyboard add to
    the offset, key by key, row by row ([keySpace], [yMod], [zMod]). *)
Fixpoint iterate {A : Type} (f : A -> A) (n : nat) (a : A) : list A :=
  match n with
  | O => []
  | S n' => a :: iterate f n' (f a)
  end.

Definition next_keySpace (keySpace : float) : float := d2f (dadd (f2d keySpace) (f64 0.1)).
Definition next_row (row : float * float) : float * float :=
  (d2f (dsub (f2d (fst row)) (f64 0.025)), d2f (dadd (f2d (snd row)) (f64 0.15))).

Definition KeySpacing : list (float * float * float) :=
  flat_map (fun row => map (fun keySpace => (keySpace, fst row, snd row))
                           (iterate next_keySpace 19 (i2f 0)))
           (iterate next_row 3 (i2f 0, i2f 0)).

(** A key cap: the key-cap part placed at the offset plus the spacing of the
    key. *)
Definition place_key (x y z : float) (spacing : float * float * float) : placed :=
  place (fadd x (fst (fst spacing))) (fadd y (snd (fst spacing))) (fadd z (snd spacing))
        KeyCapPart.

(** What LoadKeyboard draws: the case, the 57 key caps, the front edge. *)
Definition KeyboardDrawn (x y z : float) : list placed :=
  place x y z KeyboardCasePart
    :: map (place_key x y z) KeySpacing ++ [place x y z KeyboardFrontPart].

(** A table whose base positions are [float] constants. *)
Definition float_based (p : part) : Prop :=
  (exists c, part_x p = lit_f c) /\ (exists c, part_y p = lit_f c) /\ (exists c, part_z p = lit_f c).


(** ** Vocabulary of the statements *)

(** The run ends normally with result [a]. *)
Definition returns {A} (r : Result A) (a : A) : Prop := exists st', r = Ok a st'.

(** The events a run from [st] to [st'] added to the log. *)
Definition emitted (st st' : State) (es : list Event) : Prop := log st' = log st ++ es.

(** The loaded textures: the first [m_loadedTextures] entries of the array. *)
Definition registry_entry (s : SceneManager) (i : Z) (e : TEXTURE_INFO) : Prop :=
  0 <= i < m_loadedTextures s /\ nth_error (m_textureIDs s) (Z.to_nat i) = Some e.

(** Every loaded texture has a slot in the array. *)
Definition registry_fits (s : SceneManager) : Prop :=
  m_loadedTextures s <= Z.of_nat (List.length (m_textureIDs s)).

(** The image file is there and has 3 or 4 colour channels. *)
Definition loads_as_RGB_or_RGBA (w : World) (filename : string) : Prop :=
  exists image, files w filename = Some image /\
                (img_channels image = 3 \/ img_channels image = 4).

(** The state after [m_textureIDs[i] = e]. *)
Definition with_texture (st : State) (i : Z) (e : TEXTURE_INFO) : State :=
  set_sm (mkSceneManager (m_pShaderManager (sm st))
            (list_update (m_textureIDs (sm st)) (Z.to_nat i) e)
            (m_loadedTextures (sm st)) (m_objectMaterials (sm st))) st.


(** ** States to run the code on *)

Definition gray_image : Image := mkImage 1 1 1 [128].
Definition rgb_image : Image := mkImage 2 1 3 [255; 0; 0; 0; 255; 0].

(** A grey-scale file, the texture files of the scene as RGB images, and
    nothing else. *)
Definition example_files (filename : string) : option Image :=
  if String.eqb filename "gray.png" then Some gray_image
  else if String.prefix "./textures/" filename then Some rgb_image
  else None.

Definition blank_material : OBJECT_MATERIAL :=
  mkOBJECT_MATERIAL (mkvec3 (i2f 0) (i2f 0) (i2f 0)) (mkvec3 (i2f 0) (i2f 0) (i2f 0)) (i2f 0) "".
Definition stale_material : OBJECT_MATERIAL :=
  mkOBJECT_MATERIAL (mkvec3 (i2f 1) (i2f 2) (i2f 3)) (mkvec3 (i2f 4) (i2f 5) (i2f 6)) (i2f 7) "".

(** The object right after [SceneManager(pShaderManager)], with an array of
    [capacity] texture slots and no texture loaded. *)
Definition constructed (capacity : nat) (uninit : OBJECT_MATERIAL) : State :=
  mkState (mkSceneManager (Some 1%positive) (repeat (mkTEXTURE_INFO 0 "") capacity) 0 [])
          (mkWorld example_files [] uninit)
          [].

(** The state a run ends in (the state it started from, if it faults). *)
Definition after {A} (m : M A) (st : State) : State :=
  match m st with
  | Ok _ st' => st'
  | Fault _ => st
  end.

(** The state with [es] added to the log. *)
Definition logged (st : State) (es : list Event) : State :=
  mkState (sm st) (world st) (log st ++ es).

(** The three uniforms SetShaderMaterial sets from a material. *)
Definition material_uniforms (material : OBJECT_MATERIAL) : list Event :=
  [ Ev_setVec3Value "material.diffuseColor" (diffuseColor material);
    Ev_setVec3Value "material.specularColor" (specularColor material);
    Ev_setFloatValue "material.shininess" (shininess material) ].

(** ** The light uniforms

    What SetupSceneLights is said to push: lighting switched on, and for a
    point-light slot its position, ambient, diffuse and specular values and
    its active flag. *)
Definition light_uniform (slot field : string) : string :=
  ("pointLights[" ++ slot ++ "]." ++ field)%string.

Definition point_light (slot : string) (position ambient diffuse specular : vec3)
    : list Event :=
  [ Ev_setVec3Value (light_uniform slot "position") position;
    Ev_setVec3Value (light_uniform slot "ambient") ambient;
    Ev_setVec3Value (light_uniform slot "diffuse") diffuse;
    Ev_setVec3Value (light_uniform slot "specular") specular;
    Ev_setBoolValue (light_uniform slot "bActive") true ].

Definition SceneLights : list Event :=
  Ev_setBoolValue g_UseLightingName true
  :: point_light "0"
       (mkvec3 (f32 0.0) (f32 20.0) (f32 20.0)) (mkvec3 (f32 0.1) (f32 0.1) (f32 0.1))
       (mkvec3 (f32 0.4) (f32 0.4) (f32 0.4)) (mkvec3 (f32 0.01) (f32 0.01) (f32 0.01))
  ++ point_light "1"
       (mkvec3 (f32 (-4.0)) (f32 5.5) (f32 (-2.5))) (mkvec3 (f32 0.4) (f32 0.4) (f32 0.4))
       (mkvec3 (f32 0.5) (f32 0.5) (f32 0.5)) (mkvec3 (f32 0.01) (f32 0.01) (f32 0.01))
  ++ point_light "2"
       (mkvec3 (f32 (-6.0)) (f32 5.5) (f32 (-1.5))) (mkvec3 (f32 0.4) (f32 0.4) (f32 0.4))
       (mkvec3 (f32 0.5) (f32 0.5) (f32 0.5)) (mkvec3 (f32 0.01) (f32 0.01) (f32 0.01)).

(** The uniform a ShaderManager call assigns. *)
Definition uniform_name (e : Event) : option string :=
  match e with
  | Ev_setMat4Value name _ | Ev_setIntValue name _ | Ev_setBoolValue name _
  | Ev_setFloatValue name _ | Ev_setVec2Value name _ | Ev_setVec3Value name _
  | Ev_setVec4Value name _ | Ev_setSampler2DValue name _ => Some name
  | _ => None
  end.

(** The uniform belongs to point-light slot [slot]. *)
Definition in_light_slot (slot : string) (e : Event) : bool :=
  match uniform_name e with
  | Some name => String.prefix ("pointLights[" ++ slot ++ "].") name
  | None => false
  end.

(** The constructed object after LoadSceneTextures (thirteen textures in
    sixteen slots), after DefineObjectMaterials, and after PrepareScene. *)
Definition textures_loaded : State :=
  Eval vm_compute in after LoadSceneTextures (constructed 16 blank_material).
Definition materials_defined : State :=
  Eval vm_compute in after DefineObjectMaterials (constructed 16 stale_material).
Definition scene_prepared : State :=
  Eval vm_compute in after PrepareScene (constructed 16 stale_material).
(** Thirteen textures in an array of thirteen slots: the array is full. *)
Definition registry_full : State :=
  Eval vm_compute in after LoadSceneTextures (constructed 13 blank_material).

(** The five calls that draw a part when no texture is loaded and no
    material is defined: the texture slot is -1 and no material uniform is
    set. *)
Definition part_events_bare (p : placed) : list Event :=
  [ Ev_setMat4Value g_ModelName
      (modelView (placed_scale p) (placed_Xrotation p) (placed_Yrotation p)
                 (placed_Zrotation p) (placed_position p));
    Ev_setVec2Value "UVscale" (mkvec2 (placed_u p) (placed_v p));
    Ev_setIntValue g_UseTextureName
      (match placed_surface p with Texture _ => 1 | Color _ _ _ _ => 0 end);
    match placed_surface p with
    | Texture _ => Ev_setSampler2DValue g_TextureValueName (-1)
    | Color r g b a => Ev_setVec4Value g_ColorValueName (mkvec4 r g b a)
    end;
    placed_mesh p ].

(** The event a run has logged at position [n], if it returned. *)
Definition logged_at {A} (r : Result A) (n : nat) : option Event :=
  match r with
  | Ok _ st => nth_error (log st) n
  | Fault _ => None
  end.

(** The x coordinate of the position in the model matrix that event [n] of a
    run sets. *)
Definition position_x_at {A} (r : Result A) (n : nat) : option float :=
  match logged_at r n with
  | Some (Ev_setMat4Value _ m) => Some (v3x (mv_translation m))
  | _ => None
  end.

(** ** Meshes: what is loaded and what is drawn *)

(** Modelled from the spec: the primitive mesh shapes.  The glossary lists
    them (box, cylinder, tapered cylinder, torus, half-torus, sphere, plane);
    ShapeMeshes, which generates and draws them, is not part of the source. *)
Inductive shape : Set :=
| box | cylinder | tapered_cylinder | torus | half_torus | sphere | plane.

Definition shape_eqb (a b : shape) : bool :=
  match a, b with
  | box, box | cylinder, cylinder | tapered_cylinder, tapered_cylinder
  | torus, torus | half_torus, half_torus | sphere, sphere | plane, plane => true
  | _, _ => false
  end.

(** Modelled from the spec: the shapes a ShapeMeshes load call generates.
    ShapeMeshes is not part of the source.  The glossary has each of the
    seven shapes generated once; the source calls six load operations, one
    named after each shape but the half-torus.  The half-torus is taken to be
    generated with the torus, by LoadTorusMesh: where the source draws the
    half-torus for the handle of the cup it speaks of "the Torus". *)
Definition loaded_shapes (e : Event) : list shape :=
  match e with
  | Ev_LoadPlaneMesh => [plane]
  | Ev_LoadTaperedCylinderMesh => [tapered_cylinder]
  | Ev_LoadTorusMesh => [torus; half_torus]
  | Ev_LoadBoxMesh => [box]
  | Ev_LoadCylinderMesh => [cylinder]
  | Ev_LoadSphereMesh => [sphere]
  | _ => []
  end.

(** Modelled from the spec: the shape a ShapeMeshes draw call draws, by the
    names of the calls and of the shapes (a side of the box is drawn from the
    box). *)
Definition drawn_shape (e : Event) : option shape :=
  match e with
  | Ev_DrawPlaneMesh => Some plane
  | Ev_DrawTaperedCylinderMesh _ _ _ => Some tapered_cylinder
  | Ev_DrawTorusMesh => Some torus
  | Ev_DrawHalfTorusMesh => Some half_torus
  | Ev_DrawBoxMesh | Ev_DrawBoxMeshSide _ => Some box
  | Ev_DrawCylinderMesh => Some cylinder
  | Ev_DrawSphereMesh => Some sphere
  | _ => None
  end.

Definition is_load (e : Event) : bool :=
  match loaded_shapes e with [] => false | _ :: _ => true end.
Definition is_draw (e : Event) : bool :=
  match drawn_shape e with Some _ => true | None => false end.

(** An event that is no ShapeMeshes call. *)
Definition no_mesh_call (e : Event) : bool := negb (is_load e) && negb (is_draw e).

(** An event that is no ShapeMeshes load call. *)
Definition no_load_call (e : Event) : bool := negb (is_load e).

(** What a run may do to the state: it leaves the material registry alone
    and adds to the log only events that pass [ok]. *)
Definition changes (ok : Event -> bool) (st st' : State) : Prop :=
  m_objectMaterials (sm st') = m_objectMaterials (sm st) /\
  exists es, log st' = log st ++ es /\ forallb ok es = true.

Definition steps (ok : Event -> bool) {A} (m : M A) : Prop :=
  forall st a st', m st = Ok a st' -> changes ok st st'.

(** ** Determinism in the registry state *)

(** The material tags the scene uses. *)
Definition scene_material_tags : list string :=
  ["woodFloor"; "wall"; "porcelain"; "wood"; "metal"; "cloth"; "plastic"; "BookCover"]%string.

Definition defines (s : SceneManager) (t : string) : Prop :=
  exists m, In m (m_objectMaterials s) /\ material_tag m = t.

(** No material is defined yet, or all the materials of the scene are. *)
Definition materials_resolve (s : SceneManager) : Prop :=
  m_objectMaterials s = [] \/ forall t, In t scene_material_tags -> defines s t.

(** Two runs, from [st1] and [st2], end the same way: both fault alike, or
    both return the same value, leave the SceneManager fields as they were
    and add the same events to the log. *)
Definition same_outcome {A} (st1 st2 : State) (r1 r2 : Result A) : Prop :=
  match r1, r2 with
  | Ok a1 s1, Ok a2 s2 =>
      a1 = a2 /\ sm s1 = sm st1 /\ sm s2 = sm st2 /\
      exists es, log s1 = log st1 ++ es /\ log s2 = log st2 ++ es
  | Fault f1, Fault f2 => f1 = f2
  | _, _ => False
  end.

(** [m] reads nothing but the SceneManager fields and changes nothing but
    the log. *)
Definition registry_determined {A} (m : M A) : Prop :=
  forall st1 st2, sm st1 = sm st2 -> materials_resolve (sm st1) ->
                  same_outcome st1 st2 (m st1) (m st2).

(** The member functions of SceneManager, as calls on the object. *)
Inductive call : Type :=
| call_CreateGLTexture (filename tag : string)
| call_BindGLTextures
| call_DestroyGLTextures
| call_FindTextureID (tag : string)
| call_FindTextureSlot (tag : string)
| call_FindMaterial (tag : string) (material : OBJECT_MATERIAL)
| call_SetTransformations (scaleXYZ : vec3) (X Y Z : float) (positionXYZ : vec3)
| call_SetShaderColor (r g b a : float)
| call_SetShaderTexture (textureTag : string)
| call_SetTextureUVScale (u v : float)
| call_SetShaderMaterial (materialTag : string)
| call_LoadSceneTextures
| call_DefineObjectMaterials
| call_LoadLamp (x y z : float)
| call_LoadMonitor (x y z : float)
| call_LoadKeyboard (x y z : float)
| call_GenerateKeyCap (x y z : float)
| call_LoadMouse (x y z : float)
| call_LoadPhone (x y z : float)
| call_LoadBook (x y z xRotation yRotation zRotation : float)
| call_SetupSceneLights
| call_PrepareScene
| call_RenderScene.

Definition exec (c : call) : M unit :=
  match c with
  | call_CreateGLTexture filename tag => _ <- CreateGLTexture filename tag ;; ret tt
  | call_BindGLTextures => BindGLTextures
  | call_DestroyGLTextures => DestroyGLTextures
  | call_FindTextureID tag => _ <- FindTextureID tag ;; ret tt
  | call_FindTextureSlot tag => _ <- FindTextureSlot tag ;; ret tt
  | call_FindMaterial tag material => _ <- FindMaterial tag material ;; ret tt
  | call_SetTransformations s X Y Z p => SetTransformations s X Y Z p
  | call_SetShaderColor r g b a => SetShaderColor r g b a
  | call_SetShaderTexture t => SetShaderTexture t
  | call_SetTextureUVScale u v => SetTextureUVScale u v
  | call_SetShaderMaterial t => SetShaderMaterial t
  | call_LoadSceneTextures => LoadSceneTextures
  | call_DefineObjectMaterials => DefineObjectMaterials
  | call_LoadLamp x y z => LoadLamp x y z
  | call_LoadMonitor x y z => LoadMonitor x y z
  | call_LoadKeyboard x y z => LoadKeyboard x y z
  | call_GenerateKeyCap x y z => GenerateKeyCap x y z
  | call_LoadMouse x y z => LoadMouse x y z
  | call_LoadPhone x y z => LoadPhone x y z
  | call_LoadBook x y z xr yr zr => LoadBook x y z xr yr zr
  | call_SetupSceneLights => SetupSceneLights
  | call_PrepareScene => PrepareScene
  | call_RenderScene => RenderScene
  end.

(** The states a SceneManager can be in: as the constructor leaves it (the
    vector of materials is empty; the other fields and the world are
    anything), after a call of a member function that returned, and with the
    world outside having moved on. *)
Inductive reachable : State -> Prop :=
| reach_constructed st :
    m_objectMaterials (sm st) = [] -> reachable st
| reach_call st c st' :
    reachable st -> exec c st = Ok tt st' -> reachable st'
| reach_world st w :
    reachable st -> reachable (set_world w st).

(** The materials DefineObjectMaterials appends, and the load calls
    PrepareScene makes, in order. *)
Definition SceneMaterials : list OBJECT_MATERIAL :=
  [plasticMaterial; woodMaterial; woodFloorMaterial; porcelainMaterial;
   metalMaterial; clothMaterial; wallMaterial; bookCoverMaterial].

Definition PreparedLoads : list Event :=
  [Ev_LoadPlaneMesh; Ev_LoadTaperedCylinderMesh; Ev_LoadTorusMesh;
   Ev_LoadBoxMesh; Ev_LoadCylinderMesh; Ev_LoadSphereMesh].

(** The prepared scene after one RenderScene. *)
Definition scene_rendered : State :=
  Eval vm_compute in after RenderScene scene_prepared.

(** Another world around the same object: no files, other texture names in
    use, other contents of uninitialised memory. *)
Definition other_world : World := mkWorld (fun _ => None) [100; 200] blank_material.

(** A state no sequence of calls leads to: plastic is the only material
    defined. *)
Definition only_plastic (uninit : OBJECT_MATERIAL) : State :=
  mkState (mkSceneManager (Some 1%positive) (repeat (mkTEXTURE_INFO 0 "") 16) 0
             [plasticMaterial])
          (mkWorld example_files [] uninit)
          [].

(** ** Vocabulary of the further properties *)

(** The loaded textures, in slot order. *)
Definition loaded_textures (s : SceneManager) : list TEXTURE_INFO :=
  firstn (Z.to_nat (m_loadedTextures s)) (m_textureIDs s).

(** The first entry with tag [t] in [entries], whose first entry has index
    [index]: the index and the entry. *)
Fixpoint lookup_texture (t : string) (entries : list TEXTURE_INFO) (index : Z)
    : option (Z * TEXTURE_INFO) :=
  match entries with
  | [] => None
  | e :: rest =>
      if String.eqb (tag e) t then Some (index, e)
      else lookup_texture t rest (index + 1)
  end.

(** The calls that bind [entries] to the texture units [index], [index + 1],
    ... *)
Fixpoint bound_units (entries : list TEXTURE_INFO) (index : Z) : list Event :=
  match entries with
  | [] => []
  | e :: rest =>
      Ev_glActiveTexture (GL_TEXTURE0_plus index)
      :: Ev_glBindTexture GL_TEXTURE_2D (ID e)
      :: bound_units rest (index + 1)
  end.

(** A registry of one texture, "sky", whose OpenGL name is 4294967295. *)
Definition large_ID_registry : State :=
  mkState (mkSceneManager (Some 1%positive)
             (mkTEXTURE_INFO 4294967295 "sky" :: repeat (mkTEXTURE_INFO 0 "") 15) 1 [])
          (mkWorld example_files [4294967295] blank_material)
          [].

(** The loaded scene textures with the count raised beyond the sixteen
    slots. *)
Definition count_beyond_array : State :=
  mkState (mkSceneManager (m_pShaderManager (sm textures_loaded))
             (m_textureIDs (sm textures_loaded)) 20
             (m_objectMaterials (sm textures_loaded)))
          (world textures_loaded) (log textures_loaded).

(** The loaded scene textures after one more texture with the tag "wall" and
    one with the tag "sky". *)
Definition wall_again : State :=
  Eval vm_compute in
    after (CreateGLTexture "./textures/Wall2.jpg" "wall") textures_loaded.
Definition sky_added : State :=
  Eval vm_compute in
    after (CreateGLTexture "./textures/Sky.jpg" "sky") textures_loaded.

(** Calls of OpenGL, and the call that frees an image. *)
Definition is_gl_call (e : Event) : bool :=
  match e with
  | Ev_glGenTextures _ | Ev_glBindTexture _ _ | Ev_glTexParameteri _ _ _
  | Ev_glTexImage2D _ _ _ _ _ _ _ _ _ | Ev_glGenerateMipmap _ | Ev_glActiveTexture _ => true
  | _ => false
  end.

Definition is_image_free (e : Event) : bool :=
  match e with
  | Ev_stbi_image_free _ => true
  | _ => false
  end.

(** The texture that is bound to GL_TEXTURE_2D after the calls [es], when
    [bound] was bound before them. *)
Fixpoint bound_after (es : list Event) (bound : option Z) : option Z :=
  match es with
  | [] => bound
  | Ev_glBindTexture GL_TEXTURE_2D texture :: rest => bound_after rest (Some texture)
  | _ :: rest => bound_after rest bound
  end.

(** What FindMaterial and SetShaderMaterial take from a registry entry: the
    fields of [m] under the tag of the out-parameter. *)
Definition copied_into (material m : OBJECT_MATERIAL) : OBJECT_MATERIAL :=
  mkOBJECT_MATERIAL (diffuseColor m) (specularColor m) (shininess m) (material_tag material).

(** The prepared scene without its shader manager. *)
Definition scene_without_shader : State :=
  mkState (mkSceneManager None (m_textureIDs (sm scene_prepared))
             (m_loadedTextures (sm scene_prepared)) (m_objectMaterials (sm scene_prepared)))
          (world scene_prepared) (log scene_prepared).

(** The constructed object, given NULL for the shader manager. *)
Definition constructed_without_shader : State :=
  mkState (mkSceneManager None (repeat (mkTEXTURE_INFO 0 "") 16) 0 [])
          (mkWorld example_files [] stale_material)
          [].

(** ** Runs that only log *)

(** A ShaderManager call that assigns a uniform. *)
Definition is_uniform (e : Event) : bool :=
  match uniform_name e with Some _ => true | None => false end.

Definition uniform_or_draw (e : Event) : bool := is_uniform e || is_draw e.

(** [m] returns from every state whose SceneManager fields satisfy [pre], and
    changes nothing but the log, to which it adds only events that pass
    [ok]. *)
Definition runs (pre : SceneManager -> Prop) (ok : Event -> bool) {A} (m : M A) : Prop :=
  forall st, pre (sm st) ->
    exists a es, m st = Ok a (logged st es) /\ forallb ok es = true.

(** There is a shader manager and every loaded texture has a slot. *)
Definition ready_to_render (s : SceneManager) : Prop :=
  m_pShaderManager s <> None /\ registry_fits s.

(** There is no shader manager and no material. *)
Definition no_shader_no_material (s : SceneManager) : Prop :=
  m_pShaderManager s = None /\ m_objectMaterials s = [].

(** ** The scene textures *)

(** The files LoadSceneTextures loads and the tags it gives them, in the
    order of its calls. *)
Definition SceneTextures : list (string * string) :=
  [ ("./textures/Porcelain.jpg", "cup"); ("./textures/Wood1.jpg", "table-top");
    ("./textures/Wood2.png", "table-side"); ("./textures/Metal.jpg", "base");
    ("./textures/Wood3.jpg", "WoodFloor"); ("./textures/BlackSteel.png", "lamp-rim");
    ("./textures/WhiteCloth.jpg", "lamp-shade"); ("./textures/Wall.jpg", "wall");
    ("./textures/WhitePlastic.jpg", "plastic"); ("./textures/BookSpine.png", "BookSpine");
    ("./textures/BookBack.png", "BookBack"); ("./textures/BookFront.png", "BookFront");
    ("./textures/Pages.png", "Pages") ]%string.

(** CreateGLTexture for each file of a list in turn, the results ignored. *)
Fixpoint load_all (l : list (string * string)) : M unit :=
  match l with
  | [] => ret tt
  | (filename, tag) :: rest => _ <- CreateGLTexture filename tag ;; load_all rest
  end.

(** The file is an image of 3 or 4 channels. *)
Definition loadable (w : World) (f : string * string) : bool :=
  match files w (fst f) with
  | Some image => (img_channels image =? 3) || (img_channels image =? 4)
  | None => false
  end.

(** A world with two of the scene's images, and a grey-scale image in the
    place of a third. *)
Definition two_files (filename : string) : option Image :=
  if String.eqb filename "./textures/BookBack.png" then Some rgb_image
  else if String.eqb filename "./textures/Wall.jpg" then Some rgb_image
  else if String.eqb filename "./textures/Metal.jpg" then Some gray_image
  else None.

Definition constructed_with_two_files : State :=
  mkState (mkSceneManager (Some 1%positive) (repeat (mkTEXTURE_INFO 0 "") 16) 0 [])
          (mkWorld two_files [] blank_material)
          [].

(** The call that selects the sampler. *)
Definition is_sampler (e : Event) : bool :=
  match e with
  | Ev_setSampler2DValue _ _ => true
  | _ => false
  end.

(** The tags LoadSceneTextures gives its textures. *)
Definition scene_texture_tags : list string := map snd SceneTextures.

(** Every tag of [tags] is the tag of a loaded texture. *)
Definition tags_loaded (tags : list string) (s : SceneManager) : Prop :=
  forall t, In t tags -> exists i e, registry_entry s i e /\ tag e = t.

(** A sampler is set to one of the slots 0 .. n - 1 only. *)
Definition sampler_below (n : Z) (e : Event) : bool :=
  match e with
  | Ev_setSampler2DValue _ slot => (0 <=? slot) && (slot <? n)
  | _ => true
  end.

(** There is a shader manager, [n] textures are loaded and fit the array,
    and the textures of the scene are among them. *)
Definition scene_textures_ready (n : Z) (s : SceneManager) : Prop :=
  ready_to_render s /\ m_loadedTextures s = n /\ tags_loaded scene_texture_tags s.

(** No restriction on the texture tags. *)
Definition any_tag (t : string) : bool := true.

(** ** The OpenGL names of the loaded textures *)

(** The IDs of the loaded textures are pairwise distinct texture names that
    are in use. *)
Definition names_distinct_in_use (st : State) : Prop :=
  NoDup (map ID (loaded_textures (sm st))) /\
  forall e, In e (loaded_textures (sm st)) -> In (ID e) (gl_textures (world st)).

(** ** The draw calls *)

(** Whenever [m] returns, the draw calls it has logged are [ds], in this
    order. *)
Definition draws_exactly (ds : list Event) {A} (m : M A) : Prop :=
  forall st a st', m st = Ok a st' ->
    exists es, log st' = log st ++ es /\ filter is_draw es = ds.

(** The draw calls RenderScene adds to the log of the prepared scene. *)
Definition SceneDraws : list Event :=
  Eval vm_compute in
    filter is_draw (skipn (List.length (log scene_prepared)) (log scene_rendered)).

(** * Proofs *)

(** ** The texture array *)

Section ListUpdate.
Context {A : Type}.

Lemma list_update_length (l : list A) i v :
  List.length (list_update l i v) = List.length l.
Proof.
  revert i; induction l as [|x l IH]; intros [|i]; simpl; auto.
Qed.

Lemma nth_error_list_update_eq (l : list A) i v :
  (i < List.length l)%nat -> nth_error (list_update l i v) i = Some v.
Proof.
  revert i; induction l as [|x l IH]; intros [|i] H; simpl in *; try lia; auto.
  apply IH; lia.
Qed.

Lemma nth_error_list_update_neq (l : list A) i j v :
  i <> j -> nth_error (list_update l i v) j = nth_error l j.
Proof.
  revert i j; induction l as [|x l IH]; intros [|i] [|j] H; simpl; auto; try congruence.
Qed.

Lemma map_list_update {B} (f : A -> B) (l : list A) i v x :
  nth_error l i = Some x -> f v = f x -> map f (list_update l i v) = map f l.
Proof.
  revert i; induction l as [|y l IH]; intros [|i] H E; simpl in *; try discriminate; auto.
  - inversion H; subst; congruence.
  - f_equal; eauto.
Qed.
End ListUpdate.

Lemma in_bounds_spec arr i :
  in_bounds arr i = true <-> 0 <= i < Z.of_nat (List.length arr).
Proof.
  unfold in_bounds. rewrite andb_true_iff, Z.leb_le, Z.ltb_lt. tauto.
Qed.

Lemma in_bounds_nth arr i :
  in_bounds arr i = true -> exists e, nth_error arr (Z.to_nat i) = Some e.
Proof.
  intros H; apply in_bounds_spec in H.
  destruct (nth_error arr (Z.to_nat i)) eqn:E; eauto.
  apply nth_error_None in E; lia.
Qed.

Lemma texture_at_ok st i e :
  0 <= i -> nth_error (m_textureIDs (sm st)) (Z.to_nat i) = Some e ->
  texture_at i st = Ok e st.
Proof.
  intros Hi H. unfold texture_at.
  assert (Hb : in_bounds (m_textureIDs (sm st)) i = true).
  { apply in_bounds_spec. split; auto.
    assert (Z.to_nat i < List.length (m_textureIDs (sm st)))%nat
      by (apply nth_error_Some; congruence).
    lia. }
  now rewrite Hb, H.
Qed.

Lemma texture_at_out st i :
  in_bounds (m_textureIDs (sm st)) i = false -> texture_at i st = Fault (OutOfBounds i).
Proof. intros H; unfold texture_at; now rewrite H. Qed.

Lemma store_texture_ok st i f e :
  0 <= i -> nth_error (m_textureIDs (sm st)) (Z.to_nat i) = Some e ->
  store_texture i f st = Ok tt (with_texture st i (f e)).
Proof.
  intros Hi H. unfold store_texture, bind. now rewrite (texture_at_ok _ _ _ Hi H).
Qed.

Lemma store_texture_out st i f :
  in_bounds (m_textureIDs (sm st)) i = false -> store_texture i f st = Fault (OutOfBounds i).
Proof. intros H. unfold store_texture, bind. now rewrite texture_at_out. Qed.

(** ** CreateGLTexture, case by case *)

Ltac run_prims :=
  cbv [bind ret gets modify emit cout stbi_set_flip_vertically_on_load stbi_load
       stbi_image_free glGenTextures glBindTexture glTexParameteri glTexImage2D
       glGenerateMipmap glActiveTexture set_m_loadedTextures set_world set_sm
       push_back_material];
  cbn [sm world log files gl_textures uninit_material].

Lemma CreateGLTexture_missing filename tag st :
  files (world st) filename = None ->
  exists st', CreateGLTexture filename tag st = Ok false st' /\ sm st' = sm st.
Proof.
  intros H. unfold CreateGLTexture. run_prims. rewrite H. run_prims.
  eexists; split; reflexivity.
Qed.

Lemma CreateGLTexture_other_channels filename tag st image :
  files (world st) filename = Some image ->
  img_channels image <> 3 -> img_channels image <> 4 ->
  exists st', CreateGLTexture filename tag st = Ok false st' /\ sm st' = sm st.
Proof.
  intros H H3 H4. unfold CreateGLTexture. run_prims. rewrite H. run_prims.
  apply Z.eqb_neq in H3, H4. rewrite H3, H4. run_prims.
  eexists; split; reflexivity.
Qed.

Lemma list_update_twice {A} (l : list A) i v w :
  list_update (list_update l i v) i w = list_update l i w.
Proof. revert i; induction l as [|x l IH]; intros [|i]; simpl; auto; now rewrite IH. Qed.

Lemma CreateGLTexture_stored filename tag st image :
  files (world st) filename = Some image ->
  img_channels image = 3 \/ img_channels image = 4 ->
  in_bounds (m_textureIDs (sm st)) (m_loadedTextures (sm st)) = true ->
  exists st',
    CreateGLTexture filename tag st = Ok true st' /\
    sm st' = mkSceneManager (m_pShaderManager (sm st))
               (list_update (m_textureIDs (sm st)) (Z.to_nat (m_loadedTextures (sm st)))
                  (mkTEXTURE_INFO (fresh_name (gl_textures (world st))) tag))
               (m_loadedTextures (sm st) + 1)
               (m_objectMaterials (sm st)) /\
    gl_textures (world st') = fresh_name (gl_textures (world st)) :: gl_textures (world st).
Proof.
  intros H Hc Hb.
  destruct (in_bounds_nth _ _ Hb) as [e He].
  pose proof (proj1 (in_bounds_spec _ _) Hb) as [H0 Hlt].
  unfold CreateGLTexture. run_prims. rewrite H. run_prims.
  destruct Hc as [Hc|Hc]; rewrite Hc; cbn [Z.eqb Pos.eqb]; run_prims.
  all: rewrite (store_texture_ok _ _ _ e H0) by (cbn [sm]; exact He).
  all: unfold with_texture, set_sm; cbn [sm world log m_textureIDs m_pShaderManager
         m_loadedTextures m_objectMaterials].
  all: erewrite store_texture_ok;
    [ | exact H0
      | cbn [sm m_textureIDs]; apply nth_error_list_update_eq; lia ].
  all: unfold with_texture, set_sm; cbn [sm world log m_textureIDs m_pShaderManager
         m_loadedTextures m_objectMaterials gl_textures].
  all: rewrite list_update_twice.
  all: eexists; repeat split; reflexivity.
Qed.

Lemma CreateGLTexture_no_slot filename tag st image :
  files (world st) filename = Some image ->
  img_channels image = 3 \/ img_channels image = 4 ->
  in_bounds (m_textureIDs (sm st)) (m_loadedTextures (sm st)) = false ->
  CreateGLTexture filename tag st = Fault (OutOfBounds (m_loadedTextures (sm st))).
Proof.
  intros H Hc Hb.
  unfold CreateGLTexture. run_prims. rewrite H. run_prims.
  destruct Hc as [Hc|Hc]; rewrite Hc; cbn [Z.eqb Pos.eqb]; run_prims.
  all: now rewrite store_texture_out.
Qed.

Lemma fold_max_ge l x : In x l -> x <= fold_right Z.max 0 l.
Proof.
  induction l as [|y l IH]; simpl; [tauto|].
  intros [->|H]; [lia | specialize (IH H); lia].
Qed.

Lemma fresh_name_fresh used : ~ In (fresh_name used) used.
Proof. intros H. apply fold_max_ge in H. unfold fresh_name in H. lia. Qed.

(** The three ways a call can go, in one statement. *)
Lemma CreateGLTexture_cases filename tag st :
  (~ loads_as_RGB_or_RGBA (world st) filename /\
   exists st', CreateGLTexture filename tag st = Ok false st' /\ sm st' = sm st)
  \/ (loads_as_RGB_or_RGBA (world st) filename /\
      in_bounds (m_textureIDs (sm st)) (m_loadedTextures (sm st)) = true /\
      exists st',
        CreateGLTexture filename tag st = Ok true st' /\
        sm st' = mkSceneManager (m_pShaderManager (sm st))
                   (list_update (m_textureIDs (sm st)) (Z.to_nat (m_loadedTextures (sm st)))
                      (mkTEXTURE_INFO (fresh_name (gl_textures (world st))) tag))
                   (m_loadedTextures (sm st) + 1)
                   (m_objectMaterials (sm st)) /\
        gl_textures (world st') = fresh_name (gl_textures (world st)) :: gl_textures (world st))
  \/ (loads_as_RGB_or_RGBA (world st) filename /\
      in_bounds (m_textureIDs (sm st)) (m_loadedTextures (sm st)) = false /\
      CreateGLTexture filename tag st = Fault (OutOfBounds (m_loadedTextures (sm st)))).
Proof.
  destruct (files (world st) filename) as [image|] eqn:Hf.
  - destruct (Z.eq_dec (img_channels image) 3) as [H3|H3];
      [|destruct (Z.eq_dec (img_channels image) 4) as [H4|H4]].
    3:{ left. split.
        - intros (im & E & Hc). rewrite Hf in E. inversion E; subst. tauto.
        - eapply CreateGLTexture_other_channels; eauto. }
    all: assert (Hl : loads_as_RGB_or_RGBA (world st) filename)
           by (exists image; split; [assumption | tauto]).
    all: destruct (in_bounds (m_textureIDs (sm st)) (m_loadedTextures (sm st))) eqn:Hb.
    all: try (right; left; split; [exact Hl | split; [reflexivity|]];
              eapply CreateGLTexture_stored; eauto; tauto).
    all: right; right; split; [exact Hl | split; [reflexivity|]];
         eapply CreateGLTexture_no_slot; eauto; tauto.
  - left. split.
    + intros (im & E & _). congruence.
    + now apply CreateGLTexture_missing.
Qed.

(** ** C1 and C9: what CreateGLTexture returns and what it stores *)

(** C1, as stated, fails: a grey-scale image (one channel) is read
    successfully and CreateGLTexture returns false, so "returns true exactly
    when the image file is successfully read" does not hold. *)
Lemma CreateGLTexture_read_but_false :
  ~ (forall filename tag st,
       (returns (CreateGLTexture filename tag st) true <->
        exists image, files (world st) filename = Some image) /\
       (returns (CreateGLTexture filename tag st) false <->
        files (world st) filename = None)).
Proof.
  intros H.
  destruct (H "gray.png"%string "gray"%string (constructed 16 blank_material)) as [Ht _].
  destruct (proj2 Ht) as [st' E].
  - exists gray_image. reflexivity.
  - vm_compute in E. discriminate E.
Qed.

(** C1, amended: CreateGLTexture returns true exactly when the image file is
    read and has 3 or 4 colour channels; it returns false when the file
    cannot be read and also when it is read with another channel count.
    (With a free slot in the array it always returns.) *)
Theorem CreateGLTexture_true_iff_RGB_or_RGBA filename tag st :
  (forall b, returns (CreateGLTexture filename tag st) b ->
             (b = true <-> loads_as_RGB_or_RGBA (world st) filename)) /\
  (~ loads_as_RGB_or_RGBA (world st) filename ->
   returns (CreateGLTexture filename tag st) false) /\
  (loads_as_RGB_or_RGBA (world st) filename ->
   in_bounds (m_textureIDs (sm st)) (m_loadedTextures (sm st)) = true ->
   returns (CreateGLTexture filename tag st) true).
Proof.
  destruct (CreateGLTexture_cases filename tag st)
    as [(Hn & st' & E & _) | [(Hl & Hb & st' & E & _) | (Hl & Hb & E)]].
  - repeat split.
    + intros ->. destruct H as [s E']. congruence.
    + intros Hl; tauto.
    + intros _. now exists st'.
    + tauto.
  - repeat split.
    + intros _; exact Hl.
    + intros _. destruct H as [s E']. congruence.
    + tauto.
    + intros _ _. now exists st'.
  - repeat split.
    + intros _; exact Hl.
    + destruct H as [s E']. congruence.
    + tauto.
    + congruence.
Qed.

Lemma CreateGLTexture_true_iff_RGB_or_RGBA_witness :
  returns (CreateGLTexture "gray.png" "gray" (constructed 16 blank_material)) false /\
  returns (CreateGLTexture "./textures/Wall.jpg" "wall" (constructed 16 blank_material)) true.
Proof.
  split.
  - apply (proj1 (proj2 (CreateGLTexture_true_iff_RGB_or_RGBA
                           "gray.png" "gray" (constructed 16 blank_material)))).
    intros (image & E & Hc). vm_compute in E. inversion E; subst.
    destruct Hc as [Hc|Hc]; vm_compute in Hc; discriminate Hc.
  - apply (proj2 (proj2 (CreateGLTexture_true_iff_RGB_or_RGBA
                           "./textures/Wall.jpg" "wall" (constructed 16 blank_material)))).
    + exists rgb_image. split; [reflexivity | left; reflexivity].
    + reflexivity.
Defined.

(** C9: a call that returns false leaves the count and every entry of the
    texture array as they were; a call that returns true has written exactly
    the entry at index m_loadedTextures (the new OpenGL name and the tag) and
    has raised the count by one; and nothing checks the capacity: with a
    loadable image and the count at or beyond the extent of the array, the
    call does not return false but writes outside the array. *)
Theorem CreateGLTexture_registry_update filename tag st :
  (forall st', CreateGLTexture filename tag st = Ok false st' ->
     m_loadedTextures (sm st') = m_loadedTextures (sm st) /\
     m_textureIDs (sm st') = m_textureIDs (sm st)) /\
  (forall st', CreateGLTexture filename tag st = Ok true st' ->
     0 <= m_loadedTextures (sm st) < Z.of_nat (List.length (m_textureIDs (sm st))) /\
     m_loadedTextures (sm st') = m_loadedTextures (sm st) + 1 /\
     exists name,
       ~ In name (gl_textures (world st)) /\
       In name (gl_textures (world st')) /\
       nth_error (m_textureIDs (sm st')) (Z.to_nat (m_loadedTextures (sm st)))
         = Some (mkTEXTURE_INFO name tag) /\
       List.length (m_textureIDs (sm st')) = List.length (m_textureIDs (sm st)) /\
       forall j, j <> Z.to_nat (m_loadedTextures (sm st)) ->
                 nth_error (m_textureIDs (sm st')) j = nth_error (m_textureIDs (sm st)) j) /\
  (loads_as_RGB_or_RGBA (world st) filename ->
   Z.of_nat (List.length (m_textureIDs (sm st))) <= m_loadedTextures (sm st) ->
   CreateGLTexture filename tag st = Fault (OutOfBounds (m_loadedTextures (sm st)))).
Proof.
  destruct (CreateGLTexture_cases filename tag st)
    as [(Hn & s & E & Hs) | [(Hl & Hb & s & E & Hs & Hg) | (Hl & Hb & E)]].
  - repeat split; intros; try congruence; try tauto.
    all: assert (st' = s) by congruence; subst; now rewrite Hs.
  - pose proof (proj1 (in_bounds_spec _ _) Hb) as Hr.
    split; [intros; congruence|]. split.
    + intros st' E'. assert (st' = s) by congruence; subst st'.
      rewrite Hs; cbn [m_loadedTextures m_textureIDs].
      split; [exact Hr|]. split; [reflexivity|].
      exists (fresh_name (gl_textures (world st))).
      split; [apply fresh_name_fresh|].
      split; [rewrite Hg; now left|].
      split; [apply nth_error_list_update_eq; lia|].
      split; [apply list_update_length|].
      intros j Hj. apply nth_error_list_update_neq. congruence.
    + intros _ Hfull. lia.
  - repeat split; intros; try congruence.
Qed.

Lemma CreateGLTexture_registry_update_witness :
  CreateGLTexture "./textures/More.jpg" "more" registry_full
    = Fault (OutOfBounds 13).
Proof.
  apply (proj2 (proj2 (CreateGLTexture_registry_update "./textures/More.jpg" "more"
                         registry_full))).
  - exists rgb_image. split; [reflexivity | left; reflexivity].
  - vm_compute. discriminate.
Defined.

(** ** C10: DestroyGLTextures *)

Lemma DestroyGLTextures_loop n : forall i st,
  0 <= i -> i + Z.of_nat n <= Z.of_nat (List.length (m_textureIDs (sm st))) ->
  exists st',
    for_int n i (fun i => _ <- texture_at i ;; name <- glGenTextures ;;
                          store_texture i (set_ID name)) st = Ok tt st' /\
    m_loadedTextures (sm st') = m_loadedTextures (sm st) /\
    m_pShaderManager (sm st') = m_pShaderManager (sm st) /\
    m_objectMaterials (sm st') = m_objectMaterials (sm st) /\
    map tag (m_textureIDs (sm st')) = map tag (m_textureIDs (sm st)) /\
    (forall j : nat, Z.of_nat j < i \/ i + Z.of_nat n <= Z.of_nat j ->
       nth_error (m_textureIDs (sm st')) j = nth_error (m_textureIDs (sm st)) j) /\
    (forall (j : nat) e', i <= Z.of_nat j < i + Z.of_nat n ->
       nth_error (m_textureIDs (sm st')) j = Some e' ->
       ~ In (ID e') (gl_textures (world st)) /\ In (ID e') (gl_textures (world st'))) /\
    incl (gl_textures (world st)) (gl_textures (world st')) /\
    exists names, log st' = log st ++ map Ev_glGenTextures names.
Proof.
  induction n as [|n IH]; intros i st Hi Hlen.
  - exists st. cbn [for_int]. unfold ret.
    repeat split; auto; try lia; try apply incl_refl.
    exists []. now rewrite app_nil_r.
  - assert (Hb : in_bounds (m_textureIDs (sm st)) i = true) by (apply in_bounds_spec; lia).
    destruct (in_bounds_nth _ _ Hb) as [e He].
    cbn [for_int]. unfold bind at 1. unfold bind at 1.
    rewrite (texture_at_ok _ _ _ Hi He).
    unfold bind at 1. unfold glGenTextures at 1. run_prims.
    set (name := fresh_name (gl_textures (world st))).
    rewrite (store_texture_ok _ _ _ e Hi) by (cbn [sm]; exact He).
    set (st1 := with_texture _ i _).
    assert (Hlen1 : List.length (m_textureIDs (sm st1)) = List.length (m_textureIDs (sm st)))
      by (subst st1; cbn; apply list_update_length).
    destruct (IH (i + 1) st1) as (st' & E & Hc & Hp & Hm & Ht & Hout & Hin & Hincl & names & Hlog);
      [lia | rewrite Hlen1; lia |].
    exists st'. split; [exact E|].
    split; [rewrite Hc; reflexivity|].
    split; [rewrite Hp; reflexivity|].
    split; [rewrite Hm; reflexivity|].
    split.
    { rewrite Ht. subst st1; cbn. eapply map_list_update; [exact He | reflexivity]. }
    split.
    { intros j Hj. rewrite Hout by lia. subst st1; cbn.
      apply nth_error_list_update_neq. lia. }
    split.
    { intros j e' Hj He'.
      destruct (Z.eq_dec (Z.of_nat j) i) as [Heq|Hne].
      - rewrite Hout in He' by lia.
        unfold st1 in He'; cbn in He'.
        replace j with (Z.to_nat i) in He' by lia.
        rewrite nth_error_list_update_eq in He'
          by (apply nth_error_Some; congruence).
        inversion He'; subst e'; cbn [ID set_ID].
        split; [apply fresh_name_fresh|].
        apply Hincl. unfold st1; cbn. now left.
      - destruct (Hin j e') as [Hfresh Hlive]; [lia | exact He' |].
        split; [|exact Hlive].
        intros Hold. apply Hfresh. unfold st1; cbn. now right. }
    split.
    { intros x Hx. apply Hincl. subst st1; cbn. now right. }
    exists (name :: names). rewrite Hlog. subst st1; cbn.
    now rewrite <- app_assoc.
Qed.

(** C10: DestroyGLTextures removes no entry and deletes no texture.  For
    every state whose loaded textures fit the array it returns, the count and
    every tag are as before, every loaded entry holds a name that
    glGenTextures has just generated (not in use before, in use after), the
    entries beyond the count are untouched, every texture name that was in
    use is still in use, and the only OpenGL calls made are glGenTextures. *)
Theorem DestroyGLTextures_regenerates st :
  registry_fits (sm st) ->
  exists st',
    DestroyGLTextures st = Ok tt st' /\
    m_loadedTextures (sm st') = m_loadedTextures (sm st) /\
    map tag (m_textureIDs (sm st')) = map tag (m_textureIDs (sm st)) /\
    (forall i e', registry_entry (sm st') i e' ->
       ~ In (ID e') (gl_textures (world st)) /\ In (ID e') (gl_textures (world st'))) /\
    (forall j : nat, m_loadedTextures (sm st) <= Z.of_nat j ->
       nth_error (m_textureIDs (sm st')) j = nth_error (m_textureIDs (sm st)) j) /\
    incl (gl_textures (world st)) (gl_textures (world st')) /\
    exists names, emitted st st' (map Ev_glGenTextures names).
Proof.
  intros Hfit. unfold registry_fits in Hfit.
  unfold DestroyGLTextures, bind at 1, gets.
  destruct (DestroyGLTextures_loop (Z.to_nat (m_loadedTextures (sm st))) 0 st)
    as (st' & E & Hc & _ & _ & Ht & Hout & Hin & Hincl & names & Hlog); [lia | lia |].
  exists st'. split; [exact E|].
  split; [exact Hc|]. split; [exact Ht|].
  split.
  { intros i e' [Hi He']. rewrite Hc in Hi.
    apply (Hin (Z.to_nat i) e'); [lia | exact He']. }
  split; [intros j Hj; apply Hout; lia|].
  split; [exact Hincl|].
  exists names. exact Hlog.
Qed.

Lemma DestroyGLTextures_regenerates_witness :
  exists st',
    DestroyGLTextures textures_loaded = Ok tt st' /\
    m_loadedTextures (sm st') = 13.
Proof.
  destruct (DestroyGLTextures_regenerates
              textures_loaded)
    as (st' & E & Hc & _).
  - vm_compute. discriminate.
  - exists st'. split; [exact E | exact Hc].
Defined.

(** ** C2: FindTextureID and FindTextureSlot *)

Lemma GLuint_to_int_small u : 0 <= u < 2 ^ 31 -> GLuint_to_int u = u.
Proof.
  intros H. unfold GLuint_to_int.
  rewrite Z.mod_small by lia. lia.
Qed.

Lemma FindTexture_from_scan t r : forall index st,
  0 <= index ->
  index + Z.of_nat r <= Z.of_nat (List.length (m_textureIDs (sm st))) ->
  (exists k e,
      index <= k < index + Z.of_nat r /\
      nth_error (m_textureIDs (sm st)) (Z.to_nat k) = Some e /\
      tag e = t /\
      (forall j e', index <= j < k ->
         nth_error (m_textureIDs (sm st)) (Z.to_nat j) = Some e' -> tag e' <> t) /\
      FindTextureID_from t r index st = Ok (GLuint_to_int (ID e)) st /\
      FindTextureSlot_from t r index st = Ok k st)
  \/ ((forall j e', index <= j < index + Z.of_nat r ->
         nth_error (m_textureIDs (sm st)) (Z.to_nat j) = Some e' -> tag e' <> t) /\
      FindTextureID_from t r index st = Ok (-1) st /\
      FindTextureSlot_from t r index st = Ok (-1) st).
Proof.
  induction r as [|r IH]; intros index st Hi Hlen.
  - right. split; [intros; lia | split; reflexivity].
  - assert (Hb : in_bounds (m_textureIDs (sm st)) index = true) by (apply in_bounds_spec; lia).
    destruct (in_bounds_nth _ _ Hb) as [e He].
    cbn [FindTextureID_from FindTextureSlot_from]. unfold bind.
    rewrite (texture_at_ok _ _ _ Hi He). unfold tag_of.
    destruct (String.eqb_spec (tag e) t) as [Heq|Hne].
    + left. exists index, e. repeat split; auto; try lia.
    + destruct (IH (index + 1) st) as
        [(k & e1 & Hk & He1 & Ht & Hfirst & HID & Hslot) | (Hnone & HID & Hslot)];
        [lia | lia | |].
      * left. exists k, e1. repeat split; auto; try lia.
        intros j e' Hj He'.
        destruct (Z.eq_dec j index) as [->|Hji].
        -- rewrite He in He'. inversion He'; subst; exact Hne.
        -- apply (Hfirst j e'); [lia | exact He'].
      * right. split; [|split; assumption].
        intros j e' Hj He'.
        destruct (Z.eq_dec j index) as [->|Hji].
        -- rewrite He in He'. inversion He'; subst; exact Hne.
        -- apply (Hnone j e'); [lia | exact He'].
Qed.

(** C2: texture lookup is a linear scan of the loaded textures.  With the
    first loaded entry of tag [t] at index [i], FindTextureID returns the ID
    of that entry (the GLuint read as the int it returns: the ID itself when
    it is below 2^31) and FindTextureSlot returns [i]; with no loaded entry
    of that tag both return -1.  Neither changes the state. *)
Theorem FindTexture_linear_scan t st :
  registry_fits (sm st) ->
  (forall i e,
     registry_entry (sm st) i e -> tag e = t ->
     (forall j e', j < i -> registry_entry (sm st) j e' -> tag e' <> t) ->
     FindTextureID t st = Ok (GLuint_to_int (ID e)) st /\
     (0 <= ID e < 2 ^ 31 -> FindTextureID t st = Ok (ID e) st) /\
     FindTextureSlot t st = Ok i st) /\
  ((forall i e, registry_entry (sm st) i e -> tag e <> t) ->
   FindTextureID t st = Ok (-1) st /\ FindTextureSlot t st = Ok (-1) st).
Proof.
  intros Hfit. unfold registry_fits in Hfit.
  unfold FindTextureID, FindTextureSlot, bind, gets, registry_entry.
  destruct (FindTexture_from_scan t (Z.to_nat (m_loadedTextures (sm st))) 0 st)
    as [(k & e1 & Hk & He1 & Ht & Hfirst & HID & Hslot) | (Hnone & HID & Hslot)];
    [lia | lia | |].
  - split.
    + intros i e [Hi He] Hte Hmin.
      assert (i = k).
      { destruct (Z.lt_trichotomy i k) as [Hlt | [Heq | Hgt]]; [|exact Heq|].
        - exfalso. apply (Hfirst i e); [lia | exact He | exact Hte].
        - exfalso. apply (Hmin k e1); [lia | split; [lia | exact He1] | exact Ht]. }
      subst i. rewrite He1 in He. inversion He; subst e1.
      split; [exact HID|]. split; [|exact Hslot].
      intros Hsmall. rewrite HID. now rewrite GLuint_to_int_small.
    + intros Hno. exfalso. apply (Hno k e1); [split; [lia | exact He1] | exact Ht].
  - split.
    + intros i e [Hi He] Hte _. exfalso. apply (Hnone i e); [lia | exact He | exact Hte].
    + intros _. split; assumption.
Qed.

Lemma FindTexture_linear_scan_witness :
  FindTextureID "wall" textures_loaded
    = Ok 8 textures_loaded /\
  FindTextureSlot "wall" textures_loaded
    = Ok 7 textures_loaded /\
  FindTextureID "glass" textures_loaded
    = Ok (-1) textures_loaded.
Proof.
  pose proof (FindTexture_linear_scan "wall"
                textures_loaded) as Hw.
  pose proof (FindTexture_linear_scan "glass"
                textures_loaded) as Hg.
  assert (Hfit : registry_fits (sm textures_loaded))
    by (vm_compute; discriminate).
  destruct (Hw Hfit) as [Hfound _]. destruct (Hg Hfit) as [_ Hmissing].
  destruct (Hfound 7 (mkTEXTURE_INFO 8 "wall")) as (_ & HID & Hslot).
  - split; [split; [vm_compute; discriminate | vm_compute; reflexivity] | reflexivity].
  - reflexivity.
  - intros j e' Hj [Hr He'] Ht.
    assert (Hcases : j = 0 \/ j = 1 \/ j = 2 \/ j = 3 \/ j = 4 \/ j = 5 \/ j = 6) by lia.
    repeat (destruct Hcases as [->|Hcases];
            [vm_compute in He'; inversion He'; subst e'; vm_compute in Ht; discriminate Ht|]).
    subst j. vm_compute in He'; inversion He'; subst e'; vm_compute in Ht; discriminate Ht.
  - split; [|split]; [apply HID; cbn [ID]; lia | exact Hslot |].
    refine (proj1 (Hmissing _)).
    intros i e [Hr He] Ht.
    assert (Hlt : 0 <= i < 13) by exact Hr.
    assert (Hcases : i = 0 \/ i = 1 \/ i = 2 \/ i = 3 \/ i = 4 \/ i = 5 \/ i = 6 \/ i = 7
                     \/ i = 8 \/ i = 9 \/ i = 10 \/ i = 11 \/ i = 12) by lia.
    repeat (destruct Hcases as [->|Hcases];
            [vm_compute in He; inversion He; subst e; vm_compute in Ht; discriminate Ht|]).
    subst i. vm_compute in He; inversion He; subst e; vm_compute in Ht; discriminate Ht.
Defined.

(** ** C3 and C4: FindMaterial and SetShaderMaterial *)

Lemma FindMaterial_from_first tag before m rest material :
  material_tag m = tag ->
  (forall x, In x before -> material_tag x <> tag) ->
  FindMaterial_from tag (before ++ m :: rest) material
  = mkOBJECT_MATERIAL (diffuseColor m) (specularColor m) (shininess m) (material_tag material).
Proof.
  intros Hm Hbefore. induction before as [|x before IH]; cbn [app FindMaterial_from].
  - apply String.eqb_eq in Hm. now rewrite Hm.
  - assert (Hx : material_tag x <> tag) by (apply Hbefore; now left).
    apply String.eqb_neq in Hx. rewrite Hx.
    apply IH. intros y Hy. apply Hbefore. now right.
Qed.

Lemma FindMaterial_from_absent tag materials material :
  (forall x, In x materials -> material_tag x <> tag) ->
  FindMaterial_from tag materials material = material.
Proof.
  induction materials as [|x l IH]; intros H; cbn [FindMaterial_from]; [reflexivity|].
  assert (Hx : material_tag x <> tag) by (apply H; now left).
  apply String.eqb_neq in Hx. rewrite Hx.
  apply IH. intros y Hy. apply H. now right.
Qed.

Lemma FindMaterial_run tag material st :
  FindMaterial tag material st
  = Ok (match m_objectMaterials (sm st) with
        | [] => (false, material)
        | _ :: _ => (true, FindMaterial_from tag (m_objectMaterials (sm st)) material)
        end) st.
Proof.
  unfold FindMaterial, bind, gets, ret.
  destruct (m_objectMaterials (sm st)); reflexivity.
Qed.

(** C3: when some entry of the material registry has the tag, FindMaterial
    copies diffuseColor, specularColor and shininess of the first such entry
    (in insertion order) into the out-parameter, and returns true. *)
Theorem FindMaterial_copies_first_match tag material st before m rest :
  m_objectMaterials (sm st) = before ++ m :: rest ->
  material_tag m = tag ->
  (forall x, In x before -> material_tag x <> tag) ->
  exists material',
    FindMaterial tag material st = Ok (true, material') st /\
    diffuseColor material' = diffuseColor m /\
    specularColor material' = specularColor m /\
    shininess material' = shininess m.
Proof.
  intros Hl Hm Hbefore. rewrite FindMaterial_run, Hl.
  rewrite (FindMaterial_from_first tag before m rest material Hm Hbefore).
  eexists. split.
  - destruct before; reflexivity.
  - repeat split.
Qed.

Lemma FindMaterial_copies_first_match_witness :
  exists material',
    FindMaterial "wood" stale_material
      materials_defined
    = Ok (true, material') materials_defined /\
    diffuseColor material' = diffuseColor woodMaterial /\
    specularColor material' = specularColor woodMaterial /\
    shininess material' = shininess woodMaterial.
Proof.
  apply (FindMaterial_copies_first_match "wood" stale_material
           materials_defined
           [plasticMaterial] woodMaterial
           [woodFloorMaterial; porcelainMaterial; metalMaterial; clothMaterial;
            wallMaterial; bookCoverMaterial]).
  - reflexivity.
  - reflexivity.
  - intros x [<-|[]]. cbn. discriminate.
Defined.

Lemma shader_call_present st p e :
  m_pShaderManager (sm st) = Some p -> shader_call e st = Ok tt (logged st [e]).
Proof. intros H. unfold shader_call. now rewrite H. Qed.

Lemma logged_logged st es1 es2 : logged (logged st es1) es2 = logged st (es1 ++ es2).
Proof. unfold logged; cbn. now rewrite app_assoc. Qed.

(** C4: FindMaterial returns false exactly when the material registry is
    empty.  With a non-empty registry and no entry of the given tag it still
    returns true and leaves the out-parameter as it was, and
    SetShaderMaterial then sets the three material uniforms from its local
    [material], which nothing has assigned. *)
Theorem FindMaterial_false_iff_empty tag material st :
  (exists b material',
     FindMaterial tag material st = Ok (b, material') st /\
     (b = false <-> m_objectMaterials (sm st) = [])) /\
  (m_objectMaterials (sm st) <> [] ->
   (forall x, In x (m_objectMaterials (sm st)) -> material_tag x <> tag) ->
   FindMaterial tag material st = Ok (true, material) st /\
   forall p, m_pShaderManager (sm st) = Some p ->
     SetShaderMaterial tag st
     = Ok tt (logged st (material_uniforms (uninit_material (world st))))).
Proof.
  split.
  - rewrite FindMaterial_run.
    destruct (m_objectMaterials (sm st)) as [|m l]; eexists _, _; split; try reflexivity;
      split; congruence.
  - intros Hne Habsent.
    assert (Hfind : forall mat, FindMaterial tag mat st = Ok (true, mat) st).
    { intros mat. rewrite FindMaterial_run.
      rewrite (FindMaterial_from_absent _ _ _ Habsent).
      destruct (m_objectMaterials (sm st)); [congruence | reflexivity]. }
    split; [apply Hfind|].
    intros p Hp. unfold SetShaderMaterial, bind at 1, gets at 1.
    destruct (m_objectMaterials (sm st)) as [|m l] eqn:Hl; [congruence|].
    cbn [List.length Z.of_nat Z.ltb Z.compare].
    unfold bind at 1, gets at 1. unfold bind at 1.
    rewrite Hfind.
    unfold setVec3Value, setFloatValue, bind.
    rewrite (shader_call_present st p) by exact Hp.
    rewrite (shader_call_present _ p) by exact Hp.
    rewrite (shader_call_present _ p) by exact Hp.
    now rewrite !logged_logged.
Qed.

Lemma FindMaterial_false_iff_empty_witness :
  FindMaterial "glass" stale_material
    materials_defined
  = Ok (true, stale_material) materials_defined /\
  SetShaderMaterial "glass" materials_defined
  = Ok tt (logged materials_defined
             (material_uniforms stale_material)).
Proof.
  destruct (proj2 (FindMaterial_false_iff_empty "glass" stale_material
                     materials_defined))
    as [Hfind Hset].
  - vm_compute. discriminate.
  - intros x Hx. vm_compute in Hx.
    repeat (destruct Hx as [<-|Hx]; [vm_compute; discriminate|]). destruct Hx.
  - split; [exact Hfind|]. apply (Hset 1%positive). reflexivity.
Defined.

(** ** C5: SetupSceneLights *)

(** C5: with a shader manager, SetupSceneLights pushes its constants to the
    shader once: it switches lighting on and sets position, ambient, diffuse,
    specular and the active flag of point lights 0, 1 and 2, sixteen
    assignments to sixteen different uniforms, each a literal; three slots,
    which is within the four there are, and no uniform of a slot 3. *)
Theorem SetupSceneLights_three_point_lights st p :
  m_pShaderManager (sm st) = Some p ->
  SetupSceneLights st = Ok tt (logged st SceneLights) /\
  List.length SceneLights = 16%nat /\
  NoDup (map uniform_name SceneLights) /\
  filter (in_light_slot "0") SceneLights ++ filter (in_light_slot "1") SceneLights
    ++ filter (in_light_slot "2") SceneLights
    = tl SceneLights /\
  hd_error SceneLights = Some (Ev_setBoolValue "bUseLighting" true) /\
  filter (in_light_slot "3") SceneLights = [] /\
  Forall (fun slot => In (Ev_setBoolValue (light_uniform slot "bActive") true) SceneLights)
         ["0"; "1"; "2"]%string.
Proof.
  intros Hp. split.
  - unfold SetupSceneLights, setBoolValue, setVec3Value, bind.
    repeat (rewrite (shader_call_present _ p) by exact Hp).
    rewrite !logged_logged. reflexivity.
  - split; [reflexivity|]. split.
    + cbv [SceneLights point_light map app uniform_name light_uniform g_UseLightingName
           String.append].
      repeat constructor; cbn [In]; intuition discriminate.
    + repeat split; try reflexivity.
      repeat constructor; vm_compute; tauto.
Qed.

Lemma SetupSceneLights_three_point_lights_witness :
  SetupSceneLights (constructed 16 blank_material)
  = Ok tt (logged (constructed 16 blank_material) SceneLights).
Proof.
  apply (proj1 (SetupSceneLights_three_point_lights
                  (constructed 16 blank_material) 1%positive eq_refl)).
Defined.

(** ** The monad laws, state by state *)

Lemma bind_assoc_at {A B C} (m : M A) (f : A -> M B) (g : B -> M C) st :
  bind (bind m f) g st = bind m (fun a => bind (f a) g) st.
Proof. unfold bind. destruct (m st); reflexivity. Qed.

Lemma bind_ret_at {A B} (a : A) (f : A -> M B) st : bind (ret a) f st = f a st.
Proof. reflexivity. Qed.

Lemma bind_unit_at (m : M unit) st : bind m (fun _ => ret tt) st = m st.
Proof. unfold bind, ret. destruct (m st) as [[] ?|]; reflexivity. Qed.

Lemma bind_head_at {A B} (m : M A) (f g : A -> M B) st :
  (forall a st', f a st' = g a st') -> bind m f st = bind m g st.
Proof. intros H. unfold bind. destruct (m st); [apply H | reflexivity]. Qed.

(** Both sides are sequences of the same calls, grouped differently. *)
Ltac same_calls :=
  repeat lazymatch goal with
    | |- bind (bind _ _) _ _ = _ => refine (eq_trans (bind_assoc_at _ _ _ _) _)
    | |- _ = bind (bind _ _) _ _ => refine (eq_trans _ (eq_sym (bind_assoc_at _ _ _ _)))
    | |- bind (ret _) _ _ = _ => refine (eq_trans (bind_ret_at _ _ _) _); cbv beta iota
    | |- _ = bind (ret _) _ _ => refine (eq_trans _ (eq_sym (bind_ret_at _ _ _))); cbv beta iota
    | |- bind _ _ _ = bind _ _ _ => refine (bind_head_at _ _ _ _ _); intros ? ?
    | |- _ = bind _ (fun _ => ret tt) _ => refine (eq_trans _ (eq_sym (bind_unit_at _ _)))
    | |- bind _ (fun _ => ret tt) _ = _ => refine (eq_trans (bind_unit_at _ _) _)
    end;
  reflexivity.

Ltac unfold_parts :=
  cbv [draw_all draw_part map app place place_rotated place_key plus_offset set_surface
       part_scale part_Xrotation part_Yrotation part_Zrotation part_x part_y part_z
       part_u part_v part_surface part_material part_mesh
       placed_scale placed_Xrotation placed_Yrotation placed_Zrotation placed_position
       placed_u placed_v placed_surface placed_material placed_mesh
       DrawPlaneMesh DrawTaperedCylinderMesh DrawTorusMesh DrawHalfTorusMesh DrawBoxMesh
       DrawBoxMeshSide DrawCylinderMesh DrawSphereMesh].

(** ** The placement routines draw their tables *)

Lemma LoadLamp_draws x y z st :
  LoadLamp x y z st = draw_all (map (place x y z) LampParts) st.
Proof. cbv [LoadLamp LampParts]. unfold_parts. same_calls. Qed.

Lemma LoadMonitor_draws x y z st :
  LoadMonitor x y z st = draw_all (map (place x y z) MonitorParts) st.
Proof. cbv [LoadMonitor MonitorParts]. unfold_parts. same_calls. Qed.

Lemma LoadMouse_draws x y z st :
  LoadMouse x y z st = draw_all (map (place x y z) MouseParts) st.
Proof. cbv [LoadMouse MouseParts]. unfold_parts. same_calls. Qed.

Lemma LoadPhone_draws x y z st :
  LoadPhone x y z st = draw_all (map (place x y z) PhoneParts) st.
Proof. cbv [LoadPhone PhoneParts]. unfold_parts. same_calls. Qed.

Lemma LoadBook_draws x y z xRotation yRotation zRotation st :
  LoadBook x y z xRotation yRotation zRotation st
  = draw_all (map (place_rotated x y z xRotation yRotation zRotation) BookParts) st.
Proof. cbv [LoadBook BookParts]. unfold_parts. same_calls. Qed.

Lemma GenerateKeyCap_draws x y z st :
  GenerateKeyCap x y z st = draw_all [place x y z KeyCapPart] st.
Proof. cbv [GenerateKeyCap KeyCapPart]. unfold_parts. same_calls. Qed.

Lemma LoadKeyboard_draws x y z st :
  LoadKeyboard x y z st = draw_all (KeyboardDrawn x y z) st.
Proof.
  cbv [LoadKeyboard GenerateKeyCap for_loop KeyboardDrawn KeySpacing iterate flat_map
       next_keySpace next_row fst snd KeyboardCasePart KeyCapPart KeyboardFrontPart].
  unfold_parts. same_calls.
Qed.


(** ** C7: the placement routines *)

Lemma draw_all_bare ps : forall st p,
  m_pShaderManager (sm st) = Some p ->
  m_loadedTextures (sm st) = 0 ->
  m_objectMaterials (sm st) = [] ->
  draw_all ps st = Ok tt (logged st (flat_map part_events_bare ps)).
Proof.
  induction ps as [|q ps IH]; intros st p Hp Hn Hm.
  - cbn. unfold ret, logged. rewrite app_nil_r. now destruct st.
  - cbn [draw_all flat_map]. unfold bind at 1.
    assert (Hq : draw_part q st = Ok tt (logged st (part_events_bare q))).
    { unfold draw_part, SetTransformations, SetTextureUVScale, SetShaderMaterial,
        setMat4Value, setVec2Value.
      unfold bind, pShaderManager_not_NULL, gets. rewrite Hp.
      rewrite (shader_call_present _ p) by exact Hp.
      cbn [sm logged]. rewrite Hp.
      rewrite (shader_call_present _ p) by exact Hp.
      unfold part_events_bare.
      destruct (placed_surface q) as [textureTag | r g b a]; cbn [set_surface].
      - unfold SetShaderTexture, bind, pShaderManager_not_NULL, gets, setIntValue,
          setSampler2DValue, FindTextureSlot.
        cbn [sm logged]. rewrite Hp.
        rewrite (shader_call_present _ p) by exact Hp.
        unfold bind, gets. cbn [sm logged]. rewrite Hn.
        cbn [Z.to_nat FindTextureSlot_from]. unfold ret.
        rewrite (shader_call_present _ p) by exact Hp.
        cbn [sm logged]. rewrite Hm. cbn [List.length Z.of_nat Z.ltb Z.compare].
        unfold ret, emit, modify. cbn [sm world log logged].
        unfold logged. cbn [sm world log]. now rewrite <- !app_assoc.
      - unfold SetShaderColor, bind, pShaderManager_not_NULL, gets, setIntValue,
          setVec4Value.
        cbn [sm logged]. rewrite Hp.
        rewrite (shader_call_present _ p) by exact Hp.
        rewrite (shader_call_present _ p) by exact Hp.
        cbn [sm logged]. rewrite Hm. cbn [List.length Z.of_nat Z.ltb Z.compare].
        unfold ret, emit, modify. cbn [sm world log logged].
        unfold logged. cbn [sm world log]. now rewrite <- !app_assoc. }
    rewrite Hq. rewrite (IH _ p) by assumption.
    now rewrite logged_logged.
Qed.

(** C7, as stated, fails for LoadKeyboard: no table of parts with constant
    float base positions is drawn "at base plus offset" by LoadKeyboard for
    every offset.  The base of the third part drawn (the second key cap) is
    fixed by the offset (0, 0, 0), where the key cap is at
    x = -0.9f + (0 + 0.1f); with the offset x = 4194304 the key cap is at
    -0.9f + (4194304 + 0.1f) = 4194303, and that base plus 4194304 is
    4194303.25. *)
Lemma LoadKeyboard_not_base_plus_offset :
  ~ (exists table : list part,
       Forall float_based table /\
       forall x y z st, LoadKeyboard x y z st = draw_all (map (place x y z) table) st).
Proof.
  intros (table & Hfb & H).
  pose proof (H (i2f 0) (i2f 0) (i2f 0) (constructed 16 blank_material)) as H0.
  pose proof (H (i2f 4194304) (i2f 0) (i2f 0) (constructed 16 blank_material)) as H1.
  rewrite (draw_all_bare _ _ 1%positive) in H0 by reflexivity.
  rewrite (draw_all_bare _ _ 1%positive) in H1 by reflexivity.
  apply (f_equal (fun r => position_x_at r 10)) in H0, H1.
  (* what LoadKeyboard does at the two offsets *)
  assert (E0 : position_x_at
                 (LoadKeyboard (i2f 0) (i2f 0) (i2f 0) (constructed 16 blank_material)) 10
               = Some (Float (S754_finite true 13421772 (-24)))) by (vm_compute; reflexivity).
  assert (E1 : position_x_at
                 (LoadKeyboard (i2f 4194304) (i2f 0) (i2f 0) (constructed 16 blank_material)) 10
               = Some (Float (S754_finite false 16777212 (-2)))) by (vm_compute; reflexivity).
  rewrite E0 in H0. rewrite E1 in H1. clear E0 E1 H.
  destruct table as [|t0 [|t1 [|t2 rest]]]; try discriminate H0.
  inversion Hfb as [|? ? _ Hfb1]; subst.
  inversion Hfb1 as [|? ? _ Hfb2]; subst.
  inversion Hfb2 as [|? ? ((c & Hc) & _) _]; subst.
  cbv [position_x_at logged_at logged log map flat_map part_events_bare app nth_error
       place placed_position placed_scale placed_Xrotation placed_Yrotation placed_Zrotation
       mv_translation v3x] in H0, H1.
  rewrite Hc in H0, H1. cbn [plus_offset] in H0, H1.
  injection H0 as H0. injection H1 as H1.
  destruct c as [[[] | [] | | s m e]]; try discriminate H0.
  cbv [fadd float_bits i2f binary_normalize SFadd] in H0.
  injection H0 as Hs Hm He. subst.
  vm_compute in H1. discriminate H1.
Qed.

(** C7, amended: every placement routine draws a table of constant parts.
    For all offsets, LoadLamp, LoadMonitor, LoadMouse and LoadPhone draw the
    parts of their table, each with the scale, rotation, UV scale, texture
    (or colour), material and mesh of the table and at the base position of
    the table plus the offset, component by component; LoadBook does the
    same and adds its rotation arguments to the rotation literals;
    LoadKeyboard draws its case and its front edge that way, and between
    them its 57 key caps, all with the constants of the one key-cap part,
    each at the key-cap base plus the sum of the offset and the spacing of
    that key (keySpace, yMod, zMod as the loops accumulate them, the same
    for all offsets). *)
Theorem placement_routines_draw_constant_parts x y z st :
  LoadLamp x y z st = draw_all (map (place x y z) LampParts) st /\
  LoadMonitor x y z st = draw_all (map (place x y z) MonitorParts) st /\
  LoadMouse x y z st = draw_all (map (place x y z) MouseParts) st /\
  LoadPhone x y z st = draw_all (map (place x y z) PhoneParts) st /\
  (forall xRotation yRotation zRotation,
     LoadBook x y z xRotation yRotation zRotation st
     = draw_all (map (place_rotated x y z xRotation yRotation zRotation) BookParts) st) /\
  LoadKeyboard x y z st = draw_all (KeyboardDrawn x y z) st /\
  List.length KeySpacing = 57%nat.
Proof.
  repeat split.
  - apply LoadLamp_draws.
  - apply LoadMonitor_draws.
  - apply LoadMouse_draws.
  - apply LoadPhone_draws.
  - intros. apply LoadBook_draws.
  - apply LoadKeyboard_draws.
Qed.

(** ** What a run adds to the log *)

Section Steps.
Variable ok : Event -> bool.

Lemma changes_refl st : changes ok st st.
Proof. split; [reflexivity|]. exists []. now rewrite app_nil_r. Qed.

Lemma changes_trans st1 st2 st3 :
  changes ok st1 st2 -> changes ok st2 st3 -> changes ok st1 st3.
Proof.
  intros [Hm1 (es1 & Hl1 & Ho1)] [Hm2 (es2 & Hl2 & Ho2)]. split; [congruence|].
  exists (es1 ++ es2). rewrite Hl2, Hl1, app_assoc. split; [reflexivity|].
  rewrite forallb_app. now rewrite Ho1, Ho2.
Qed.

Lemma steps_ret {A} (a : A) : steps ok (ret a).
Proof. intros st a' st' H. inversion H; subst. apply changes_refl. Qed.

Lemma steps_bind {A B} (m : M A) (k : A -> M B) :
  steps ok m -> (forall a, steps ok (k a)) -> steps ok (bind m k).
Proof.
  intros Hm Hk st b st' H. unfold bind in H.
  destruct (m st) as [a st1|] eqn:E; [|discriminate].
  eapply changes_trans; [eapply Hm; exact E | eapply Hk; exact H].
Qed.

Lemma steps_gets {A} (f : State -> A) : steps ok (gets f).
Proof. intros st a st' H. inversion H; subst. apply changes_refl. Qed.

Lemma steps_emit e : ok e = true -> steps ok (emit e).
Proof.
  intros He st a st' H. inversion H; subst. split; [reflexivity|].
  exists [e]. cbn. now rewrite He.
Qed.

Lemma steps_shader_call e : ok e = true -> steps ok (shader_call e).
Proof.
  intros He st a st' H. unfold shader_call in H.
  destruct (m_pShaderManager (sm st)); [|discriminate].
  eapply steps_emit; eauto.
Qed.

Lemma steps_texture_at i : steps ok (texture_at i).
Proof.
  intros st a st' H. unfold texture_at in H.
  destruct (in_bounds _ _); [|discriminate].
  destruct (nth_error _ _); inversion H; subst. apply changes_refl.
Qed.

Lemma steps_modify_textures (f : State -> list TEXTURE_INFO) (g : State -> Z) :
  steps ok (modify (fun st =>
    set_sm (mkSceneManager (m_pShaderManager (sm st)) (f st) (g st)
              (m_objectMaterials (sm st))) st)).
Proof.
  intros st a st' H. inversion H; subst. split; [reflexivity|].
  exists []. cbn. now rewrite app_nil_r.
Qed.

Lemma steps_store_texture i f : steps ok (store_texture i f).
Proof.
  unfold store_texture. apply steps_bind; [apply steps_texture_at|].
  intros e. apply (steps_modify_textures
                     (fun st => list_update (m_textureIDs (sm st)) (Z.to_nat i) (f e))
                     (fun st => m_loadedTextures (sm st))).
Qed.

Lemma steps_set_m_loadedTextures n : steps ok (set_m_loadedTextures n).
Proof.
  apply (steps_modify_textures (fun st => m_textureIDs (sm st)) (fun _ => n)).
Qed.

Lemma steps_glGenTextures : ok (Ev_glGenTextures 0) = true ->
  (forall n, ok (Ev_glGenTextures n) = ok (Ev_glGenTextures 0)) ->
  steps ok glGenTextures.
Proof.
  intros H0 Hn st a st' H. unfold glGenTextures in H. run_prims. cbn in H.
  inversion H; subst. split; [reflexivity|].
  eexists [_]. cbn. split; [reflexivity|]. now rewrite Hn, H0.
Qed.

Lemma steps_for_int n : forall i (body : Z -> M unit),
  (forall i, steps ok (body i)) -> steps ok (for_int n i body).
Proof.
  induction n as [|n IH]; intros i body Hb; cbn [for_int].
  - apply steps_ret.
  - apply steps_bind; [apply Hb | intros _; now apply IH].
Qed.

Lemma steps_for_loop {S : Type} n : forall (body : S -> M S) s,
  (forall s, steps ok (body s)) -> steps ok (for_loop n body s).
Proof.
  induction n as [|n IH]; intros body s Hb; cbn [for_loop].
  - apply steps_ret.
  - apply steps_bind; [apply Hb | intros s'; now apply IH].
Qed.
End Steps.

(** Going through a function body call by call. *)
Ltac steps_prim :=
  lazymatch goal with
  | |- steps _ (bind _ _) => apply steps_bind; [|intros ?]
  | |- steps _ (ret _) => apply steps_ret
  | |- steps _ (gets _) => apply steps_gets
  | |- steps _ (emit _) => apply steps_emit; reflexivity
  | |- steps _ (shader_call _) => apply steps_shader_call; reflexivity
  | |- steps _ (texture_at _) => apply steps_texture_at
  | |- steps _ (store_texture _ _) => apply steps_store_texture
  | |- steps _ (set_m_loadedTextures _) => apply steps_set_m_loadedTextures
  | |- steps _ glGenTextures => apply steps_glGenTextures; [reflexivity | intros; reflexivity]
  | |- steps _ (for_int _ _ _) => apply steps_for_int; intros ?
  | |- steps _ (for_loop _ _ _) => apply steps_for_loop; intros ?
  | |- steps _ (if ?b then _ else _) => destruct b
  | |- steps _ (match ?x with _ => _ end) => destruct x
  end.

Ltac steps_unfold :=
  cbv [cout stbi_set_flip_vertically_on_load stbi_load stbi_image_free glBindTexture
       glTexParameteri glTexImage2D glGenerateMipmap glActiveTexture
       setMat4Value setIntValue setBoolValue setFloatValue setVec2Value setVec3Value
       setVec4Value setSampler2DValue pShaderManager_not_NULL
       LoadPlaneMesh LoadTaperedCylinderMesh LoadTorusMesh LoadBoxMesh LoadCylinderMesh
       LoadSphereMesh DrawPlaneMesh DrawTaperedCylinderMesh DrawTorusMesh DrawHalfTorusMesh
       DrawBoxMesh DrawBoxMeshSide DrawCylinderMesh DrawSphereMesh].

Ltac steps_known := fail.

Ltac steps_body := steps_unfold; repeat first [steps_known | steps_prim].

Lemma steps_FindTextureSlot ok t : steps ok (FindTextureSlot t).
Proof.
  unfold FindTextureSlot. apply steps_bind; [apply steps_gets|]. intros n.
  generalize 0 as index. induction (Z.to_nat n) as [|r IH]; intros index;
    cbn [FindTextureSlot_from]; repeat steps_prim. apply IH.
Qed.

Lemma steps_FindTextureID ok t : steps ok (FindTextureID t).
Proof.
  unfold FindTextureID. apply steps_bind; [apply steps_gets|]. intros n.
  generalize 0 as index. induction (Z.to_nat n) as [|r IH]; intros index;
    cbn [FindTextureID_from]; repeat steps_prim. apply IH.
Qed.

Lemma steps_FindMaterial ok t material : steps ok (FindMaterial t material).
Proof. unfold FindMaterial. repeat steps_prim. Qed.

(** Calls that touch no mesh. *)
Section NoMesh.
Variable ok : Event -> bool.
Hypothesis ok_no_mesh : forall e, no_mesh_call e = true -> ok e = true.

Lemma steps_weaken {A} (m : M A) : steps no_mesh_call m -> steps ok m.
Proof.
  intros H st a st' E. destruct (H st a st' E) as [Hm (es & Hl & Ho)].
  split; [exact Hm|]. exists es. split; [exact Hl|].
  rewrite forallb_forall in *. auto.
Qed.
End NoMesh.

Lemma steps_SetTransformations s X Y Z p : steps no_mesh_call (SetTransformations s X Y Z p).
Proof. unfold SetTransformations. steps_body. Qed.

Lemma steps_SetShaderColor r g b a : steps no_mesh_call (SetShaderColor r g b a).
Proof. unfold SetShaderColor. steps_body. Qed.

Lemma steps_SetShaderTexture t : steps no_mesh_call (SetShaderTexture t).
Proof.
  unfold SetShaderTexture. steps_unfold.
  repeat first [ lazymatch goal with
                 | |- steps _ (FindTextureSlot _) => apply steps_FindTextureSlot
                 end
               | steps_prim ].
Qed.

Lemma steps_SetTextureUVScale u v : steps no_mesh_call (SetTextureUVScale u v).
Proof. unfold SetTextureUVScale. steps_body. Qed.

Lemma steps_SetShaderMaterial t : steps no_mesh_call (SetShaderMaterial t).
Proof.
  unfold SetShaderMaterial. steps_unfold.
  repeat first [ lazymatch goal with
                 | |- steps _ (FindMaterial _ _) => apply steps_FindMaterial
                 end
               | steps_prim ].
Qed.

Lemma steps_CreateGLTexture filename tag : steps no_mesh_call (CreateGLTexture filename tag).
Proof. unfold CreateGLTexture. steps_body. Qed.

Lemma steps_BindGLTextures : steps no_mesh_call BindGLTextures.
Proof. unfold BindGLTextures. steps_body. Qed.

Lemma steps_DestroyGLTextures : steps no_mesh_call DestroyGLTextures.
Proof. unfold DestroyGLTextures. steps_body. Qed.

Lemma steps_LoadSceneTextures : steps no_mesh_call LoadSceneTextures.
Proof.
  unfold LoadSceneTextures.
  repeat first [ lazymatch goal with
                 | |- steps _ (CreateGLTexture _ _) => apply steps_CreateGLTexture
                 | |- steps _ BindGLTextures => apply steps_BindGLTextures
                 end
               | steps_prim ].
Qed.

Lemma steps_SetupSceneLights : steps no_mesh_call SetupSceneLights.
Proof. unfold SetupSceneLights. steps_body. Qed.

Lemma no_mesh_no_load e :
  no_mesh_call e = true -> no_load_call e = true.
Proof. destruct e; cbn; intros H; try reflexivity; discriminate H. Qed.

Ltac render_known :=
  lazymatch goal with
  | |- steps _ (SetTransformations _ _ _ _ _) =>
      apply steps_weaken; [exact no_mesh_no_load | apply steps_SetTransformations]
  | |- steps _ (SetShaderColor _ _ _ _) =>
      apply steps_weaken; [exact no_mesh_no_load | apply steps_SetShaderColor]
  | |- steps _ (SetShaderTexture _) =>
      apply steps_weaken; [exact no_mesh_no_load | apply steps_SetShaderTexture]
  | |- steps _ (SetTextureUVScale _ _) =>
      apply steps_weaken; [exact no_mesh_no_load | apply steps_SetTextureUVScale]
  | |- steps _ (SetShaderMaterial _) =>
      apply steps_weaken; [exact no_mesh_no_load | apply steps_SetShaderMaterial]
  end.

Ltac render_body := steps_unfold; cbv zeta; repeat first [render_known | steps_prim].

(** A placement routine makes no load call. *)
Lemma steps_draw_all ps :
  Forall (fun p => no_load_call (placed_mesh p) = true) ps ->
  steps no_load_call (draw_all ps).
Proof.
  induction 1 as [|p ps Hp _ IH]; cbn [draw_all]; [apply steps_ret|].
  apply steps_bind; [|intros _; exact IH].
  unfold draw_part.
  repeat first [render_known | steps_prim].
  - destruct (placed_surface p); cbn [set_surface]; render_known.
  - now apply steps_emit.
Qed.

Lemma steps_LoadLamp x y z : steps no_load_call (LoadLamp x y z).
Proof. unfold LoadLamp. render_body. Qed.

Lemma steps_LoadMonitor x y z : steps no_load_call (LoadMonitor x y z).
Proof. unfold LoadMonitor. render_body. Qed.

Lemma steps_GenerateKeyCap x y z : steps no_load_call (GenerateKeyCap x y z).
Proof. unfold GenerateKeyCap. render_body. Qed.

Lemma steps_LoadKeyboard x y z : steps no_load_call (LoadKeyboard x y z).
Proof.
  unfold LoadKeyboard. steps_unfold; cbv zeta.
  repeat first [ lazymatch goal with
                 | |- steps _ (GenerateKeyCap _ _ _) => apply steps_GenerateKeyCap
                 end
               | render_known | steps_prim ].
Qed.

Lemma steps_LoadMouse x y z : steps no_load_call (LoadMouse x y z).
Proof. unfold LoadMouse. render_body. Qed.

Lemma steps_LoadPhone x y z : steps no_load_call (LoadPhone x y z).
Proof. unfold LoadPhone. render_body. Qed.

Lemma steps_LoadBook x y z xr yr zr :
  steps no_load_call (LoadBook x y z xr yr zr).
Proof. unfold LoadBook. render_body. Qed.

Lemma steps_RenderScene : steps no_load_call RenderScene.
Proof.
  unfold RenderScene. steps_unfold; cbv zeta.
  repeat first [ lazymatch goal with
                 | |- steps _ (LoadLamp _ _ _) => apply steps_LoadLamp
                 | |- steps _ (LoadMonitor _ _ _) => apply steps_LoadMonitor
                 | |- steps _ (LoadKeyboard _ _ _) => apply steps_LoadKeyboard
                 | |- steps _ (LoadMouse _ _ _) => apply steps_LoadMouse
                 | |- steps _ (LoadPhone _ _ _) => apply steps_LoadPhone
                 | |- steps _ (LoadBook _ _ _ _ _ _) => apply steps_LoadBook
                 end
               | render_known | steps_prim ].
Qed.

(** PrepareScene, when it returns: the textures, then the eight materials,
    then the lights, then the six load calls. *)
Lemma DefineObjectMaterials_run st :
  DefineObjectMaterials st
  = Ok tt (set_sm (mkSceneManager (m_pShaderManager (sm st)) (m_textureIDs (sm st))
                     (m_loadedTextures (sm st)) (m_objectMaterials (sm st) ++ SceneMaterials))
                  st).
Proof.
  unfold DefineObjectMaterials. run_prims.
  unfold set_sm, SceneMaterials. cbn [sm world log m_pShaderManager m_textureIDs
    m_loadedTextures m_objectMaterials]. now rewrite <- !app_assoc.
Qed.

Lemma PrepareScene_run st st' :
  PrepareScene st = Ok tt st' ->
  m_objectMaterials (sm st') = m_objectMaterials (sm st) ++ SceneMaterials /\
  exists es, log st' = log st ++ es ++ PreparedLoads /\ forallb no_mesh_call es = true.
Proof.
  unfold PrepareScene. unfold bind at 1.
  destruct (LoadSceneTextures st) as [[] st1|] eqn:E1; [|discriminate].
  destruct (steps_LoadSceneTextures _ _ _ E1) as [Hm1 (es1 & Hl1 & Ho1)].
  unfold bind at 1. rewrite DefineObjectMaterials_run.
  set (st2 := set_sm _ st1).
  unfold bind at 1.
  destruct (SetupSceneLights st2) as [[] st3|] eqn:E3; [|discriminate].
  destruct (steps_SetupSceneLights _ _ _ E3) as [Hm3 (es3 & Hl3 & Ho3)].
  cbv [LoadPlaneMesh LoadTaperedCylinderMesh LoadTorusMesh LoadBoxMesh LoadCylinderMesh
       LoadSphereMesh]. run_prims.
  intros H. inversion H; subst st'. cbn [sm log].
  split.
  - rewrite Hm3. subst st2. cbn. now rewrite Hm1.
  - exists (es1 ++ es3). rewrite forallb_app, Ho1, Ho3. split; [|reflexivity].
    rewrite Hl3. subst st2. cbn. rewrite Hl1. unfold PreparedLoads.
    now rewrite <- !app_assoc.
Qed.

(** ** Filters *)

Lemma filter_none {A} (f : A -> bool) l : forallb (fun x => negb (f x)) l = true -> filter f l = [].
Proof.
  induction l as [|x l IH]; cbn; [reflexivity|].
  destruct (f x); cbn; [discriminate | exact IH].
Qed.

Lemma forallb_impl {A} (f g : A -> bool) l :
  (forall x, f x = true -> g x = true) -> forallb f l = true -> forallb g l = true.
Proof. intros H. rewrite !forallb_forall. auto. Qed.

(** ** C8: RenderScene is determined by the registry state *)

Lemma det_ret {A} (a : A) : registry_determined (ret a).
Proof.
  intros st1 st2 _ _. cbn. repeat split. exists []. now rewrite !app_nil_r.
Qed.

Lemma det_bind {A B} (m : M A) (k : A -> M B) :
  registry_determined m -> (forall a, registry_determined (k a)) ->
  registry_determined (bind m k).
Proof.
  intros Hm Hk st1 st2 Hsm Hres. specialize (Hm st1 st2 Hsm Hres).
  unfold bind, same_outcome in *.
  destruct (m st1) as [a1 s1|f1], (m st2) as [a2 s2|f2]; try contradiction; [|exact Hm].
  destruct Hm as (-> & H1 & H2 & es & Hl1 & Hl2).
  assert (Hsm' : sm s1 = sm s2) by congruence.
  assert (Hres' : materials_resolve (sm s1)) by (rewrite H1; exact Hres).
  specialize (Hk a2 s1 s2 Hsm' Hres'). unfold same_outcome in Hk.
  destruct (k a2 s1) as [b1 t1|g1], (k a2 s2) as [b2 t2|g2]; try contradiction; [|exact Hk].
  destruct Hk as (-> & K1 & K2 & es' & Kl1 & Kl2).
  repeat split; try congruence.
  exists (es ++ es'). rewrite Kl1, Kl2, Hl1, Hl2, !app_assoc. split; reflexivity.
Qed.

Lemma det_gets {A} (f : State -> A) :
  (forall st1 st2, sm st1 = sm st2 -> f st1 = f st2) -> registry_determined (gets f).
Proof.
  intros Hf st1 st2 Hsm _. cbn. repeat split; auto.
  exists []. now rewrite !app_nil_r.
Qed.

Lemma det_emit e : registry_determined (emit e).
Proof. intros st1 st2 _ _. cbn. repeat split. now exists [e]. Qed.

Lemma det_shader_call e : registry_determined (shader_call e).
Proof.
  intros st1 st2 Hsm Hres. unfold shader_call. rewrite <- Hsm.
  destruct (m_pShaderManager (sm st1)); [now apply det_emit | reflexivity].
Qed.

Lemma det_texture_at i : registry_determined (texture_at i).
Proof.
  intros st1 st2 Hsm _. unfold texture_at. rewrite <- Hsm.
  destruct (in_bounds _ _); [|reflexivity].
  destruct (nth_error _ _); [|reflexivity].
  cbn. repeat split; auto. exists []. now rewrite !app_nil_r.
Qed.

Lemma det_for_loop {S : Type} n : forall (body : S -> M S) s,
  (forall s, registry_determined (body s)) -> registry_determined (for_loop n body s).
Proof.
  induction n as [|n IH]; intros body s Hb; cbn [for_loop].
  - apply det_ret.
  - apply det_bind; [apply Hb | intros s'; now apply IH].
Qed.

Ltac det_prim :=
  lazymatch goal with
  | |- registry_determined (bind _ _) => apply det_bind; [|intros ?]
  | |- registry_determined (ret _) => apply det_ret
  | |- registry_determined (gets _) =>
      apply det_gets; let E := fresh in intros ? ? E; rewrite E; reflexivity
  | |- registry_determined (emit _) => apply det_emit
  | |- registry_determined (shader_call _) => apply det_shader_call
  | |- registry_determined (texture_at _) => apply det_texture_at
  | |- registry_determined (for_loop _ _ _) => apply det_for_loop; intros ?
  | |- registry_determined (if ?b then _ else _) => destruct b
  | |- registry_determined (match ?x with _ => _ end) => destruct x
  end.

Lemma det_FindTextureSlot t : registry_determined (FindTextureSlot t).
Proof.
  unfold FindTextureSlot. apply det_bind; [det_prim|]. intros n.
  generalize 0 as index. induction (Z.to_nat n) as [|r IH]; intros index;
    cbn [FindTextureSlot_from]; repeat det_prim. apply IH.
Qed.

Lemma det_SetTransformations s X Y Z p : registry_determined (SetTransformations s X Y Z p).
Proof. unfold SetTransformations. steps_unfold. repeat det_prim. Qed.

Lemma det_SetShaderColor r g b a : registry_determined (SetShaderColor r g b a).
Proof. unfold SetShaderColor. steps_unfold. repeat det_prim. Qed.

Lemma det_SetShaderTexture t : registry_determined (SetShaderTexture t).
Proof.
  unfold SetShaderTexture. steps_unfold.
  repeat first [ lazymatch goal with
                 | |- registry_determined (FindTextureSlot _) => apply det_FindTextureSlot
                 end
               | det_prim ].
Qed.

Lemma det_SetTextureUVScale u v : registry_determined (SetTextureUVScale u v).
Proof. unfold SetTextureUVScale. steps_unfold. repeat det_prim. Qed.

(** The first entry with a given tag, when there is one. *)
Lemma first_with_tag t (l : list OBJECT_MATERIAL) :
  (exists m, In m l /\ material_tag m = t) ->
  exists before m rest,
    l = before ++ m :: rest /\ material_tag m = t /\
    forall x, In x before -> material_tag x <> t.
Proof.
  induction l as [|x l IH]; intros (m & Hin & Ht); [destruct Hin|].
  destruct (String.string_dec (material_tag x) t) as [Hx|Hx].
  - exists [], x, l. repeat split; auto.
  - destruct IH as (before & m' & rest & -> & Hm' & Hb).
    + destruct Hin as [->|Hin]; [congruence | eauto].
    + exists (x :: before), m', rest. repeat split; auto.
      intros y [<-|Hy]; auto.
Qed.

Lemma SetShaderMaterial_run t st :
  SetShaderMaterial t st
  = match m_objectMaterials (sm st) with
    | [] => Ok tt st
    | _ :: _ =>
        let material :=
          FindMaterial_from t (m_objectMaterials (sm st)) (uninit_material (world st)) in
        (setVec3Value "material.diffuseColor" (diffuseColor material) ;;
         setVec3Value "material.specularColor" (specularColor material) ;;
         setFloatValue "material.shininess" (shininess material)) st
    end.
Proof.
  unfold SetShaderMaterial. unfold bind at 1, gets at 1.
  destruct (m_objectMaterials (sm st)) as [|m l] eqn:Hl; [reflexivity|].
  cbn [List.length Z.of_nat Z.ltb Z.compare].
  unfold bind at 1, gets at 1. unfold bind at 1.
  rewrite FindMaterial_run, Hl. reflexivity.
Qed.

(** With the tag defined, what SetShaderMaterial sets does not depend on the
    uninitialised local. *)
Lemma det_SetShaderMaterial t :
  In t scene_material_tags -> registry_determined (SetShaderMaterial t).
Proof.
  intros Ht st1 st2 Hsm Hres.
  rewrite !SetShaderMaterial_run. rewrite <- Hsm.
  destruct (m_objectMaterials (sm st1)) as [|m0 l0] eqn:Hl.
  { cbn. repeat split; auto. exists []. now rewrite !app_nil_r. }
  destruct Hres as [Hempty | Hall]; [congruence|].
  destruct (first_with_tag t _ (Hall t Ht)) as (before & m & rest & Hdec & Hm & Hb).
  cbv zeta. rewrite <- Hl, Hdec.
  rewrite !(FindMaterial_from_first t before m rest _ Hm Hb).
  cbn [diffuseColor specularColor shininess].
  assert (D : registry_determined
                (setVec3Value "material.diffuseColor" (diffuseColor m) ;;
                 setVec3Value "material.specularColor" (specularColor m) ;;
                 setFloatValue "material.shininess" (shininess m))).
  { steps_unfold. repeat det_prim. }
  apply D; [exact Hsm|]. right. exact Hall.
Qed.

Ltac in_scene_tags :=
  cbv [scene_material_tags In]; repeat first [left; reflexivity | right].

Ltac det_known :=
  lazymatch goal with
  | |- registry_determined (SetTransformations _ _ _ _ _) => apply det_SetTransformations
  | |- registry_determined (SetShaderColor _ _ _ _) => apply det_SetShaderColor
  | |- registry_determined (SetShaderTexture _) => apply det_SetShaderTexture
  | |- registry_determined (SetTextureUVScale _ _) => apply det_SetTextureUVScale
  | |- registry_determined (SetShaderMaterial _) =>
      apply det_SetShaderMaterial; in_scene_tags
  end.

Ltac det_body := steps_unfold; cbv zeta; repeat first [det_known | det_prim].

Lemma det_LoadLamp x y z : registry_determined (LoadLamp x y z).
Proof. unfold LoadLamp. det_body. Qed.

Lemma det_LoadMonitor x y z : registry_determined (LoadMonitor x y z).
Proof. unfold LoadMonitor. det_body. Qed.

Lemma det_GenerateKeyCap x y z : registry_determined (GenerateKeyCap x y z).
Proof. unfold GenerateKeyCap. det_body. Qed.

Lemma det_LoadKeyboard x y z : registry_determined (LoadKeyboard x y z).
Proof.
  unfold LoadKeyboard. steps_unfold; cbv zeta.
  repeat first [ lazymatch goal with
                 | |- registry_determined (GenerateKeyCap _ _ _) => apply det_GenerateKeyCap
                 end
               | det_known | det_prim ].
Qed.

Lemma det_LoadMouse x y z : registry_determined (LoadMouse x y z).
Proof. unfold LoadMouse. det_body. Qed.

Lemma det_LoadPhone x y z : registry_determined (LoadPhone x y z).
Proof. unfold LoadPhone. det_body. Qed.

Lemma det_LoadBook x y z xr yr zr : registry_determined (LoadBook x y z xr yr zr).
Proof. unfold LoadBook. det_body. Qed.

Lemma det_RenderScene : registry_determined RenderScene.
Proof.
  unfold RenderScene. steps_unfold; cbv zeta.
  repeat first [ lazymatch goal with
                 | |- registry_determined (LoadLamp _ _ _) => apply det_LoadLamp
                 | |- registry_determined (LoadMonitor _ _ _) => apply det_LoadMonitor
                 | |- registry_determined (LoadKeyboard _ _ _) => apply det_LoadKeyboard
                 | |- registry_determined (LoadMouse _ _ _) => apply det_LoadMouse
                 | |- registry_determined (LoadPhone _ _ _) => apply det_LoadPhone
                 | |- registry_determined (LoadBook _ _ _ _ _ _) => apply det_LoadBook
                 end
               | det_known | det_prim ].
Qed.

(** The materials of the scene are all defined once DefineObjectMaterials has
    run, whatever was defined before. *)
Lemma SceneMaterials_resolve before t :
  In t scene_material_tags ->
  exists m, In m (before ++ SceneMaterials) /\ material_tag m = t.
Proof.
  intros Ht.
  assert (H : forallb (fun t => existsb (fun m => String.eqb (material_tag m) t) SceneMaterials)
                scene_material_tags = true) by (vm_compute; reflexivity).
  rewrite forallb_forall in H. specialize (H t Ht).
  apply existsb_exists in H. destruct H as (m & Hm & E).
  exists m. split; [apply in_or_app; now right | now apply String.eqb_eq].
Qed.

Lemma materials_resolve_same s s' :
  m_objectMaterials s' = m_objectMaterials s -> materials_resolve s -> materials_resolve s'.
Proof. unfold materials_resolve, defines. intros ->. tauto. Qed.

Lemma steps_keeps_resolve ok {A} (m : M A) st a st' :
  steps ok m -> m st = Ok a st' -> materials_resolve (sm st) -> materials_resolve (sm st').
Proof.
  intros Hs E. destruct (Hs _ _ _ E) as [Hm _]. now apply materials_resolve_same.
Qed.

(** In every state the object can be in, no material is defined or all the
    materials of the scene are. *)
Lemma reachable_materials_resolve st : reachable st -> materials_resolve (sm st).
Proof.
  induction 1 as [st Hnil | st c st' _ IH E | st w _ IH].
  - now left.
  - destruct c; cbn [exec] in E.
    all: try (eapply (steps_keeps_resolve no_mesh_call); [|exact E|exact IH];
              repeat first
                [ lazymatch goal with
                  | |- steps _ (CreateGLTexture _ _) => apply steps_CreateGLTexture
                  | |- steps _ BindGLTextures => apply steps_BindGLTextures
                  | |- steps _ DestroyGLTextures => apply steps_DestroyGLTextures
                  | |- steps _ (FindTextureID _) => apply steps_FindTextureID
                  | |- steps _ (FindTextureSlot _) => apply steps_FindTextureSlot
                  | |- steps _ (FindMaterial _ _) => apply steps_FindMaterial
                  | |- steps _ (SetTransformations _ _ _ _ _) => apply steps_SetTransformations
                  | |- steps _ (SetShaderColor _ _ _ _) => apply steps_SetShaderColor
                  | |- steps _ (SetShaderTexture _) => apply steps_SetShaderTexture
                  | |- steps _ (SetTextureUVScale _ _) => apply steps_SetTextureUVScale
                  | |- steps _ (SetShaderMaterial _) => apply steps_SetShaderMaterial
                  | |- steps _ LoadSceneTextures => apply steps_LoadSceneTextures
                  | |- steps _ SetupSceneLights => apply steps_SetupSceneLights
                  end
                | steps_prim ]; fail).
    all: try (eapply (steps_keeps_resolve no_load_call); [|exact E|exact IH];
              lazymatch goal with
              | |- steps _ (LoadLamp _ _ _) => apply steps_LoadLamp
              | |- steps _ (LoadMonitor _ _ _) => apply steps_LoadMonitor
              | |- steps _ (LoadKeyboard _ _ _) => apply steps_LoadKeyboard
              | |- steps _ (GenerateKeyCap _ _ _) => apply steps_GenerateKeyCap
              | |- steps _ (LoadMouse _ _ _) => apply steps_LoadMouse
              | |- steps _ (LoadPhone _ _ _) => apply steps_LoadPhone
              | |- steps _ (LoadBook _ _ _ _ _ _) => apply steps_LoadBook
              | |- steps _ RenderScene => apply steps_RenderScene
              end; fail).
    + (* DefineObjectMaterials *)
      rewrite DefineObjectMaterials_run in E. inversion E; subst st'.
      right. intros t Ht. apply SceneMaterials_resolve, Ht.
    + (* PrepareScene *)
      destruct (PrepareScene_run _ _ E) as [Hm _].
      right. intros t Ht. unfold defines. rewrite Hm. apply SceneMaterials_resolve, Ht.
  - exact IH.
Qed.

(** C8: the scene is static.  Two executions of RenderScene from states the
    object can be in, with the same registry state (the SceneManager fields:
    texture registry, material registry, shader pointer), end the same way
    whatever else differs (the files, the OpenGL names, the contents of
    uninitialised memory, what was logged before): if one returns, so does
    the other, and both have made the same sequence of shader-uniform
    assignments and mesh draw calls and have left the registry as it was; if
    one faults, the other faults alike. *)
Theorem RenderScene_deterministic st1 st2 :
  reachable st1 -> reachable st2 -> sm st1 = sm st2 ->
  (forall st1', RenderScene st1 = Ok tt st1' ->
     exists st2' es,
       RenderScene st2 = Ok tt st2' /\
       emitted st1 st1' es /\ emitted st2 st2' es /\
       sm st1' = sm st1 /\ sm st2' = sm st2) /\
  (forall f, RenderScene st1 = Fault f -> RenderScene st2 = Fault f).
Proof.
  intros R1 _ Hsm.
  pose proof (det_RenderScene st1 st2 Hsm (reachable_materials_resolve _ R1)) as H.
  unfold same_outcome in H.
  destruct (RenderScene st1) as [[] s1|f1], (RenderScene st2) as [[] s2|f2];
    try contradiction.
  - destruct H as (_ & H1 & H2 & es & Hl1 & Hl2). split; [|discriminate].
    intros st1' E. inversion E; subst st1'. exists s2, es. repeat split; assumption.
  - split; [discriminate|]. intros f E. inversion E; subst. reflexivity.
Qed.

Lemma scene_prepared_reachable : reachable scene_prepared.
Proof.
  apply (reach_call (constructed 16 stale_material) call_PrepareScene).
  - apply reach_constructed. reflexivity.
  - vm_compute. reflexivity.
Qed.

Lemma RenderScene_deterministic_witness :
  exists st2' es,
    RenderScene (set_world other_world scene_prepared) = Ok tt st2' /\
    emitted scene_prepared scene_rendered es /\
    emitted (set_world other_world scene_prepared) st2' es.
Proof.
  destruct (RenderScene_deterministic scene_prepared (set_world other_world scene_prepared)
              scene_prepared_reachable
              (reach_world _ other_world scene_prepared_reachable)
              eq_refl) as [H _].
  destruct (H scene_rendered) as (st2' & es & E & H1 & H2 & _).
  - vm_compute. reflexivity.
  - exists st2', es. repeat split; assumption.
Defined.

(** Reachability matters: in a state where plastic is the only material
    defined (no sequence of calls leads there), the material uniforms
    RenderScene sets for the floor are the contents of the uninitialised
    local. *)
Remark RenderScene_only_plastic :
  logged_at (RenderScene (only_plastic blank_material)) 6
  = Some (Ev_setVec3Value "material.diffuseColor" (diffuseColor blank_material)) /\
  logged_at (RenderScene (only_plastic stale_material)) 6
  = Some (Ev_setVec3Value "material.diffuseColor" (diffuseColor stale_material)).
Proof. split; vm_compute; reflexivity. Qed.

(** * Further properties *)

(** ** Lookup in the texture registry *)

Lemma skipn_cons_nth {A} (l : list A) i e :
  nth_error l i = Some e -> skipn i l = e :: skipn (S i) l.
Proof.
  revert i; induction l as [|x l IH]; intros [|i] H; cbn in *; try discriminate.
  - now inversion H.
  - now apply IH.
Qed.

Lemma lookup_texture_range t entries : forall index k e,
  lookup_texture t entries index = Some (k, e) ->
  index <= k < index + Z.of_nat (List.length entries) /\
  nth_error entries (Z.to_nat (k - index)) = Some e /\ tag e = t.
Proof.
  induction entries as [|x l IH]; intros index k e H; cbn in H; [discriminate|].
  destruct (String.eqb_spec (tag x) t) as [Hx|Hx].
  - inversion H; subst. cbn [List.length]. replace (k - k) with 0 by lia.
    repeat split; auto; lia.
  - destruct (IH _ _ _ H) as (Hr & Hn & Ht). cbn [List.length].
    split; [lia|]. split; [|exact Ht].
    replace (Z.to_nat (k - index)) with (S (Z.to_nat (k - (index + 1)))) by lia.
    exact Hn.
Qed.

Lemma lookup_texture_none t entries index :
  lookup_texture t entries index = None <-> forall e, In e entries -> tag e <> t.
Proof.
  revert index; induction entries as [|x l IH]; intros index; cbn.
  - split; [intros _ ? [] | reflexivity].
  - destruct (String.eqb_spec (tag x) t) as [Hx|Hx].
    + split; [discriminate|]. intros H. exfalso. apply (H x); auto.
    + rewrite IH. split.
      * intros H e [<-|He]; auto.
      * intros H e He. apply H. now right.
Qed.

Lemma lookup_texture_app t l1 l2 index :
  lookup_texture t (l1 ++ l2) index
  = match lookup_texture t l1 index with
    | Some r => Some r
    | None => lookup_texture t l2 (index + Z.of_nat (List.length l1))
    end.
Proof.
  revert index; induction l1 as [|x l IH]; intros index; cbn [app lookup_texture List.length].
  - now replace (index + Z.of_nat 0) with index by lia.
  - destruct (String.eqb (tag x) t); [reflexivity|].
    rewrite IH. destruct (lookup_texture t l (index + 1)); [reflexivity|].
    f_equal. lia.
Qed.

(** The slot found depends on the tags only. *)
Lemma lookup_texture_tags t l1 : forall l2 index,
  map tag l1 = map tag l2 ->
  option_map fst (lookup_texture t l1 index) = option_map fst (lookup_texture t l2 index).
Proof.
  induction l1 as [|x l1 IH]; intros [|y l2] index H; cbn in H; try discriminate;
    [reflexivity|].
  inversion H as [[Hxy Hrest]]. cbn [lookup_texture]. rewrite Hxy.
  destruct (String.eqb (tag y) t); [reflexivity | now apply IH].
Qed.

(** The two loops, while they stay inside the array. *)
Lemma FindTexture_from_lookup t r : forall index st,
  0 <= index ->
  index + Z.of_nat r <= Z.of_nat (List.length (m_textureIDs (sm st))) ->
  FindTextureSlot_from t r index st
  = Ok (match lookup_texture t (firstn r (skipn (Z.to_nat index) (m_textureIDs (sm st)))) index
        with Some (k, _) => k | None => -1 end) st /\
  FindTextureID_from t r index st
  = Ok (match lookup_texture t (firstn r (skipn (Z.to_nat index) (m_textureIDs (sm st)))) index
        with Some (_, e) => GLuint_to_int (ID e) | None => -1 end) st.
Proof.
  induction r as [|r IH]; intros index st Hi Hlen.
  - split; reflexivity.
  - assert (Hb : in_bounds (m_textureIDs (sm st)) index = true) by (apply in_bounds_spec; lia).
    destruct (in_bounds_nth _ _ Hb) as [e He].
    cbn [FindTextureID_from FindTextureSlot_from]. unfold bind.
    rewrite (texture_at_ok _ _ _ Hi He). unfold tag_of.
    rewrite (skipn_cons_nth _ _ _ He). cbn [firstn lookup_texture].
    destruct (String.eqb (tag e) t); [split; reflexivity|].
    replace (S (Z.to_nat index)) with (Z.to_nat (index + 1)) by lia.
    apply IH; lia.
Qed.

(** The two loops, when the count runs beyond the array. *)
Lemma FindTexture_from_beyond t r : forall index st,
  0 <= index <= Z.of_nat (List.length (m_textureIDs (sm st))) ->
  Z.of_nat (List.length (m_textureIDs (sm st))) < index + Z.of_nat r ->
  FindTextureSlot_from t r index st
  = match lookup_texture t (skipn (Z.to_nat index) (m_textureIDs (sm st))) index with
    | Some (k, _) => Ok k st
    | None => Fault (OutOfBounds (Z.of_nat (List.length (m_textureIDs (sm st)))))
    end /\
  FindTextureID_from t r index st
  = match lookup_texture t (skipn (Z.to_nat index) (m_textureIDs (sm st))) index with
    | Some (_, e) => Ok (GLuint_to_int (ID e)) st
    | None => Fault (OutOfBounds (Z.of_nat (List.length (m_textureIDs (sm st)))))
    end.
Proof.
  induction r as [|r IH]; intros index st Hi Hlen; [lia|].
  cbn [FindTextureID_from FindTextureSlot_from]. unfold bind.
  destruct (Z.eq_dec index (Z.of_nat (List.length (m_textureIDs (sm st))))) as [Heq|Hne].
  - rewrite texture_at_out by (unfold in_bounds; apply andb_false_iff; right;
                               apply Z.ltb_ge; lia).
    rewrite skipn_all2 by lia. cbn. rewrite Heq. split; reflexivity.
  - assert (Hb : in_bounds (m_textureIDs (sm st)) index = true) by (apply in_bounds_spec; lia).
    destruct (in_bounds_nth _ _ Hb) as [e He].
    rewrite (texture_at_ok _ _ _ (proj1 Hi) He). unfold tag_of.
    rewrite (skipn_cons_nth _ _ _ He). cbn [lookup_texture].
    destruct (String.eqb (tag e) t); [split; reflexivity|].
    replace (S (Z.to_nat index)) with (Z.to_nat (index + 1)) by lia.
    apply IH; lia.
Qed.

Lemma FindTexture_run t st :
  registry_fits (sm st) ->
  FindTextureSlot t st
  = Ok (match lookup_texture t (loaded_textures (sm st)) 0 with
        | Some (k, _) => k | None => -1 end) st /\
  FindTextureID t st
  = Ok (match lookup_texture t (loaded_textures (sm st)) 0 with
        | Some (_, e) => GLuint_to_int (ID e) | None => -1 end) st.
Proof.
  intros Hfit. unfold registry_fits in Hfit.
  unfold FindTextureSlot, FindTextureID, bind, gets, loaded_textures.
  apply (FindTexture_from_lookup t (Z.to_nat (m_loadedTextures (sm st))) 0 st); lia.
Qed.

Lemma loaded_textures_entry s i e :
  registry_fits s ->
  registry_entry s i e <->
  0 <= i /\ nth_error (loaded_textures s) (Z.to_nat i) = Some e.
Proof.
  intros Hfit. unfold registry_entry, loaded_textures, registry_fits in *.
  split.
  - intros [Hi He]. split; [lia|].
    rewrite nth_error_firstn.
    destruct (Nat.ltb_spec (Z.to_nat i) (Z.to_nat (m_loadedTextures s))); [exact He | lia].
  - intros [Hi He]. rewrite nth_error_firstn in He.
    destruct (Nat.ltb_spec (Z.to_nat i) (Z.to_nat (m_loadedTextures s)));
      [|discriminate]. split; [lia | exact He].
Qed.

Lemma loaded_textures_In s e :
  registry_fits s ->
  In e (loaded_textures s) <-> exists i, registry_entry s i e.
Proof.
  intros Hfit. split.
  - intros H. apply In_nth_error in H. destruct H as [n Hn].
    exists (Z.of_nat n). apply loaded_textures_entry; [exact Hfit|].
    split; [lia|]. now rewrite Nat2Z.id.
  - intros [i H]. apply loaded_textures_entry in H; [|exact Hfit].
    eapply nth_error_In. exact (proj2 H).
Qed.

(** X3: for a registry that fits its array, FindTextureSlot returns and
    changes nothing; the result is -1 exactly when no loaded texture has the
    tag, and otherwise it is the index of a loaded texture with the tag. *)
Theorem FindTextureSlot_minus_one_iff_absent t st :
  registry_fits (sm st) ->
  exists k,
    FindTextureSlot t st = Ok k st /\
    (k = -1 <-> forall i e, registry_entry (sm st) i e -> tag e <> t) /\
    (k <> -1 -> exists e, registry_entry (sm st) k e /\ tag e = t).
Proof.
  intros Hfit. destruct (FindTexture_run t st Hfit) as [Hslot _].
  destruct (lookup_texture t (loaded_textures (sm st)) 0) as [[k e]|] eqn:El.
  - exists k. split; [exact Hslot|].
    destruct (lookup_texture_range _ _ _ _ _ El) as (Hr & Hn & Ht).
    replace (k - 0) with k in Hn by lia.
    assert (He : registry_entry (sm st) k e)
      by (apply loaded_textures_entry; [exact Hfit | split; [lia | exact Hn]]).
    split.
    + split; [lia|]. intros Hno. exfalso. exact (Hno k e He Ht).
    + intros _. exists e. split; assumption.
  - exists (-1). split; [exact Hslot|]. split; [|congruence].
    split; [|reflexivity]. intros _ i e He.
    apply (proj1 (lookup_texture_none _ _ _) El).
    apply loaded_textures_In; [exact Hfit | eauto].
Qed.

Lemma FindTextureSlot_minus_one_iff_absent_witness :
  exists k,
    FindTextureSlot "Pages" textures_loaded = Ok k textures_loaded /\
    (k <> -1 -> exists e, registry_entry (sm textures_loaded) k e /\ tag e = "Pages"%string).
Proof.
  destruct (FindTextureSlot_minus_one_iff_absent "Pages" textures_loaded) as (k & E & _ & H).
  - vm_compute. discriminate.
  - exists k. split; [exact E | exact H].
Defined.

(** X4: FindTextureID returns the ID through an [int]: for the first loaded
    texture with the tag, an ID from 2^31 on comes back negative, as
    ID - 2^32, and the ID 4294967295 comes back as -1, the value that also
    says "not found". *)
Theorem FindTextureID_wraps_large_ID t st k e :
  registry_fits (sm st) ->
  lookup_texture t (loaded_textures (sm st)) 0 = Some (k, e) ->
  2 ^ 31 <= ID e < 2 ^ 32 ->
  FindTextureID t st = Ok (ID e - 2 ^ 32) st /\
  (ID e = 4294967295 -> FindTextureID t st = Ok (-1) st).
Proof.
  intros Hfit El Hid. destruct (FindTexture_run t st Hfit) as [_ HID].
  rewrite El in HID.
  assert (Hw : GLuint_to_int (ID e) = ID e - 2 ^ 32).
  { unfold GLuint_to_int.
    replace (ID e + 2 ^ 31) with ((ID e - 2 ^ 31) + 1 * 2 ^ 32) by lia.
    rewrite Z.mod_add by lia. rewrite Z.mod_small by lia. lia. }
  rewrite Hw in HID. split; [exact HID|]. intros E. rewrite HID, E. reflexivity.
Qed.

Lemma FindTextureID_wraps_large_ID_witness :
  FindTextureID "sky" large_ID_registry = Ok (-1) large_ID_registry.
Proof.
  apply (proj2 (FindTextureID_wraps_large_ID "sky" large_ID_registry 0
                  (mkTEXTURE_INFO 4294967295 "sky")
                  ltac:(vm_compute; discriminate) eq_refl
                  ltac:(cbn [ID]; lia))).
  reflexivity.
Defined.

(** X5: with a count beyond the array, FindTextureSlot and FindTextureID
    still return when an entry of the array has the tag (the first such
    entry); when none has, the scan runs off the array and faults at the
    index just past it. *)
Theorem FindTexture_count_beyond_array t st :
  Z.of_nat (List.length (m_textureIDs (sm st))) < m_loadedTextures (sm st) ->
  FindTextureSlot t st
  = match lookup_texture t (m_textureIDs (sm st)) 0 with
    | Some (k, _) => Ok k st
    | None => Fault (OutOfBounds (Z.of_nat (List.length (m_textureIDs (sm st)))))
    end /\
  FindTextureID t st
  = match lookup_texture t (m_textureIDs (sm st)) 0 with
    | Some (_, e) => Ok (GLuint_to_int (ID e)) st
    | None => Fault (OutOfBounds (Z.of_nat (List.length (m_textureIDs (sm st)))))
    end.
Proof.
  intros H. unfold FindTextureSlot, FindTextureID, bind, gets.
  apply (FindTexture_from_beyond t (Z.to_nat (m_loadedTextures (sm st))) 0 st); lia.
Qed.

Lemma FindTexture_count_beyond_array_witness :
  FindTextureSlot "wall" count_beyond_array = Ok 7 count_beyond_array /\
  FindTextureSlot "glass" count_beyond_array = Fault (OutOfBounds 16).
Proof.
  split.
  - apply (proj1 (FindTexture_count_beyond_array "wall" count_beyond_array
                    ltac:(vm_compute; reflexivity))).
  - apply (proj1 (FindTexture_count_beyond_array "glass" count_beyond_array
                    ltac:(vm_compute; reflexivity))).
Defined.

(** ** BindGLTextures *)

Lemma BindGLTextures_loop n : forall i st,
  0 <= i -> i + Z.of_nat n <= Z.of_nat (List.length (m_textureIDs (sm st))) ->
  for_int n i (fun i => glActiveTexture (GL_TEXTURE0_plus i) ;;
                        e <- texture_at i ;; glBindTexture GL_TEXTURE_2D (ID e)) st
  = Ok tt (logged st (bound_units (firstn n (skipn (Z.to_nat i) (m_textureIDs (sm st)))) i)).
Proof.
  induction n as [|n IH]; intros i st Hi Hlen.
  - cbn. unfold ret, logged. rewrite app_nil_r. now destruct st.
  - assert (Hb : in_bounds (m_textureIDs (sm st)) i = true) by (apply in_bounds_spec; lia).
    destruct (in_bounds_nth _ _ Hb) as [e He].
    cbn [for_int]. unfold bind at 1. unfold bind at 1.
    unfold glActiveTexture at 1, emit at 1, modify at 1.
    unfold bind at 1.
    rewrite (texture_at_ok _ i e Hi) by (cbn [sm]; exact He).
    unfold glBindTexture at 1, emit at 1, modify at 1. cbn [sm world log].
    rewrite IH by (cbn [sm]; lia). cbn [sm].
    rewrite (skipn_cons_nth _ _ _ He). cbn [firstn bound_units].
    replace (S (Z.to_nat i)) with (Z.to_nat (i + 1)) by lia.
    unfold logged. cbn [sm world log]. rewrite <- !app_assoc. reflexivity.
Qed.

Lemma BindGLTextures_loop_beyond n : forall i st,
  0 <= i <= Z.of_nat (List.length (m_textureIDs (sm st))) ->
  Z.of_nat (List.length (m_textureIDs (sm st))) < i + Z.of_nat n ->
  for_int n i (fun i => glActiveTexture (GL_TEXTURE0_plus i) ;;
                        e <- texture_at i ;; glBindTexture GL_TEXTURE_2D (ID e)) st
  = Fault (OutOfBounds (Z.of_nat (List.length (m_textureIDs (sm st))))).
Proof.
  induction n as [|n IH]; intros i st Hi Hlen; [lia|].
  cbn [for_int]. unfold bind at 1. unfold bind at 1.
  unfold glActiveTexture at 1, emit at 1, modify at 1.
  unfold bind at 1.
  destruct (Z.eq_dec i (Z.of_nat (List.length (m_textureIDs (sm st))))) as [Heq|Hne].
  - rewrite texture_at_out
      by (cbn [sm]; unfold in_bounds; apply andb_false_iff; right; apply Z.ltb_ge; lia).
    now rewrite Heq.
  - assert (Hb : in_bounds (m_textureIDs (sm st)) i = true) by (apply in_bounds_spec; lia).
    destruct (in_bounds_nth _ _ Hb) as [e He].
    rewrite (texture_at_ok _ i e (proj1 Hi)) by (cbn [sm]; exact He).
    unfold glBindTexture at 1, emit at 1, modify at 1. cbn [sm world log].
    rewrite IH by (cbn [sm]; lia). reflexivity.
Qed.

(** X1: for a registry that fits its array, BindGLTextures returns, changes
    nothing but the log, and what it logs is, for each loaded texture in slot
    order, glActiveTexture(GL_TEXTURE0 + slot) followed by
    glBindTexture(GL_TEXTURE_2D, ID of the slot): texture unit i gets the
    texture of slot i.  With no texture loaded (a count of 0 or below) it
    does nothing. *)
Theorem BindGLTextures_binds_slot_to_unit st :
  registry_fits (sm st) ->
  BindGLTextures st = Ok tt (logged st (bound_units (loaded_textures (sm st)) 0)) /\
  (m_loadedTextures (sm st) <= 0 -> BindGLTextures st = Ok tt (logged st [])).
Proof.
  intros Hfit. unfold registry_fits in Hfit.
  assert (H : BindGLTextures st
              = Ok tt (logged st (bound_units (loaded_textures (sm st)) 0))).
  { unfold BindGLTextures, bind at 1, gets, loaded_textures.
    rewrite BindGLTextures_loop by lia. reflexivity. }
  split; [exact H|]. intros Hz. rewrite H. unfold loaded_textures.
  replace (Z.to_nat (m_loadedTextures (sm st))) with 0%nat by lia. reflexivity.
Qed.

Lemma BindGLTextures_binds_slot_to_unit_witness :
  BindGLTextures registry_full
  = Ok tt (logged registry_full (bound_units (loaded_textures (sm registry_full)) 0)).
Proof.
  apply (proj1 (BindGLTextures_binds_slot_to_unit registry_full
                  ltac:(vm_compute; discriminate))).
Defined.

(** X2: nothing in BindGLTextures checks the count against the array: with a
    count beyond the array it binds the slots of the array and then reads
    the entry just past it, a fault. *)
Theorem BindGLTextures_count_beyond_array st :
  Z.of_nat (List.length (m_textureIDs (sm st))) < m_loadedTextures (sm st) ->
  BindGLTextures st = Fault (OutOfBounds (Z.of_nat (List.length (m_textureIDs (sm st))))).
Proof.
  intros H. unfold BindGLTextures, bind at 1, gets.
  apply BindGLTextures_loop_beyond; lia.
Qed.

Lemma BindGLTextures_count_beyond_array_witness :
  BindGLTextures count_beyond_array = Fault (OutOfBounds 16).
Proof.
  apply (BindGLTextures_count_beyond_array count_beyond_array ltac:(vm_compute; reflexivity)).
Defined.

(** ** CreateGLTexture and the lookups *)

Lemma firstn_list_update_last {A} (l : list A) n v :
  (n < List.length l)%nat -> firstn (S n) (list_update l n v) = firstn n l ++ [v].
Proof.
  revert n; induction l as [|x l IH]; intros [|n] H; cbn in *; try lia; [reflexivity|].
  f_equal. apply IH. lia.
Qed.

Lemma firstn_length_le {A} (l : list A) n : (n <= List.length l)%nat -> List.length (firstn n l) = n.
Proof. intros H. rewrite length_firstn. lia. Qed.

(** X6: a texture that CreateGLTexture has stored is found again, unless its
    tag was loaded before.  After a call that returns true: a tag that no
    loaded texture had is found at the old count, with the new OpenGL name as
    ID; every tag that was found before is found as before, at the same slot
    and with the same ID, also the tag just loaded (the second texture of a
    tag is never found); and a tag that was not found and is not the new tag
    is still not found. *)
Theorem CreateGLTexture_then_lookup filename tag st st' :
  CreateGLTexture filename tag st = Ok true st' ->
  (FindTextureSlot tag st = Ok (-1) st ->
   FindTextureSlot tag st' = Ok (m_loadedTextures (sm st)) st' /\
   FindTextureID tag st'
   = Ok (GLuint_to_int (fresh_name (gl_textures (world st)))) st') /\
  (forall t k, FindTextureSlot t st = Ok k st -> k <> -1 ->
     FindTextureSlot t st' = Ok k st' /\
     forall id, FindTextureID t st = Ok id st -> FindTextureID t st' = Ok id st') /\
  (forall t, t <> tag -> FindTextureSlot t st = Ok (-1) st ->
     FindTextureSlot t st' = Ok (-1) st').
Proof.
  intros E.
  destruct (CreateGLTexture_cases filename tag st)
    as [(_ & s & E' & _) | [(_ & Hb & s & E' & Hs & _) | (_ & _ & E')]]; try congruence.
  assert (s = st') by congruence. subst s. clear E'.
  apply in_bounds_spec in Hb.
  assert (Hfit : registry_fits (sm st)) by (unfold registry_fits; lia).
  assert (Hfit' : registry_fits (sm st')).
  { unfold registry_fits. rewrite Hs. cbn. rewrite list_update_length. lia. }
  destruct (FindTexture_run tag st Hfit) as [Hslot0 _].
  assert (Hloaded : loaded_textures (sm st')
                    = loaded_textures (sm st)
                      ++ [mkTEXTURE_INFO (fresh_name (gl_textures (world st))) tag]).
  { unfold loaded_textures. rewrite Hs. cbn [m_loadedTextures m_textureIDs].
    replace (Z.to_nat (m_loadedTextures (sm st) + 1))
      with (S (Z.to_nat (m_loadedTextures (sm st)))) by lia.
    apply firstn_list_update_last. lia. }
  assert (Hlen : Z.of_nat (List.length (loaded_textures (sm st))) = m_loadedTextures (sm st)).
  { unfold loaded_textures. rewrite firstn_length_le; lia. }
  assert (Hlook : forall t,
            lookup_texture t (loaded_textures (sm st')) 0
            = match lookup_texture t (loaded_textures (sm st)) 0 with
              | Some r => Some r
              | None => if String.eqb tag t
                        then Some (m_loadedTextures (sm st),
                                   mkTEXTURE_INFO (fresh_name (gl_textures (world st))) tag)
                        else None
              end).
  { intros t. rewrite Hloaded, lookup_texture_app, Hlen.
    destruct (lookup_texture t (loaded_textures (sm st)) 0); [reflexivity|].
    cbn. reflexivity. }
  assert (Hneg : forall t k e, lookup_texture t (loaded_textures (sm st)) 0 = Some (k, e) ->
                               k <> -1).
  { intros t k e H. apply lookup_texture_range in H. lia. }
  split; [|split].
  - intros H. destruct (FindTexture_run tag st' Hfit') as [Hslot HID].
    rewrite Hlook in Hslot, HID.
    destruct (lookup_texture tag (loaded_textures (sm st)) 0) as [[k e]|] eqn:El.
    + exfalso. rewrite Hslot0 in H. inversion H. eapply Hneg; eauto.
    + rewrite String.eqb_refl in Hslot, HID. split; assumption.
  - intros t k H Hk.
    destruct (FindTexture_run t st Hfit) as [Hslot1 HID1].
    destruct (FindTexture_run t st' Hfit') as [Hslot HID].
    rewrite Hlook in Hslot, HID.
    destruct (lookup_texture t (loaded_textures (sm st)) 0) as [[k1 e1]|] eqn:El.
    + rewrite Hslot1 in H. inversion H; subst k1. split; [exact Hslot|].
      intros id Hid. rewrite HID1 in Hid. inversion Hid; subst. exact HID.
    + rewrite Hslot1 in H. inversion H. congruence.
  - intros t Hne H.
    destruct (FindTexture_run t st Hfit) as [Hslot1 _].
    destruct (FindTexture_run t st' Hfit') as [Hslot _].
    rewrite Hlook in Hslot.
    destruct (lookup_texture t (loaded_textures (sm st)) 0) as [[k1 e1]|] eqn:El.
    + exfalso. rewrite Hslot1 in H. inversion H. eapply Hneg; eauto.
    + apply not_eq_sym in Hne. apply String.eqb_neq in Hne. rewrite Hne in Hslot.
      exact Hslot.
Qed.

Lemma CreateGLTexture_then_lookup_witness :
  FindTextureSlot "sky" sky_added = Ok 13 sky_added /\
  FindTextureSlot "wall" wall_again = Ok 7 wall_again.
Proof.
  split.
  - refine (proj1 (proj1 (CreateGLTexture_then_lookup "./textures/Sky.jpg" "sky"
                            textures_loaded sky_added _) _)).
    + vm_compute. reflexivity.
    + vm_compute. reflexivity.
  - refine (proj1 (proj1 (proj2 (CreateGLTexture_then_lookup "./textures/Wall2.jpg" "wall"
                                   textures_loaded wall_again _)) "wall"%string 7 _ _)).
    + vm_compute. reflexivity.
    + vm_compute. reflexivity.
    + discriminate.
Defined.

(** ** CreateGLTexture: what the three ways out leave behind *)

Lemma fresh_name_positive used : 0 < fresh_name used.
Proof.
  unfold fresh_name.
  assert (0 <= fold_right Z.max 0 used) by (induction used; cbn; lia). lia.
Qed.

(** X7: the two ways CreateGLTexture returns false differ in what they leave
    behind.  For a file that cannot be read the call makes no OpenGL call and
    changes nothing but the log.  For an image whose channel count is neither
    3 nor 4 the registry is unchanged too, but a texture name has been
    generated (it is in use from then on), that texture is still bound to
    GL_TEXTURE_2D when the call returns, and the image is not freed; whereas
    a call that returns true frees the image and leaves texture 0 bound. *)
Theorem CreateGLTexture_failure_leaves_texture_bound filename tag st :
  (files (world st) filename = None ->
   exists es, CreateGLTexture filename tag st = Ok false (logged st es) /\
              existsb is_gl_call es = false) /\
  (forall image, files (world st) filename = Some image ->
     img_channels image <> 3 -> img_channels image <> 4 ->
     exists st' es,
       CreateGLTexture filename tag st = Ok false st' /\
       sm st' = sm st /\ emitted st st' es /\
       gl_textures (world st')
       = fresh_name (gl_textures (world st)) :: gl_textures (world st) /\
       (forall bound, bound_after es bound = Some (fresh_name (gl_textures (world st)))) /\
       fresh_name (gl_textures (world st)) <> 0 /\
       existsb is_image_free es = false) /\
  (forall st', CreateGLTexture filename tag st = Ok true st' ->
     exists es, emitted st st' es /\
                (forall bound, bound_after es bound = Some 0) /\
                existsb is_image_free es = true).
Proof.
  split; [|split].
  - intros H. unfold CreateGLTexture. run_prims. rewrite H. run_prims.
    eexists. split.
    + unfold logged. rewrite <- !app_assoc. reflexivity.
    + reflexivity.
  - intros image H H3 H4. unfold CreateGLTexture. run_prims. rewrite H. run_prims.
    apply Z.eqb_neq in H3, H4. rewrite H3, H4. run_prims.
    eexists. eexists. split; [reflexivity|]. cbn [sm world log gl_textures].
    split; [reflexivity|]. split.
    + unfold emitted. cbn [log]. rewrite <- !app_assoc. reflexivity.
    + split; [reflexivity|]. split; [intros bound; reflexivity|]. split.
      * pose proof (fresh_name_positive (gl_textures (world st))). lia.
      * reflexivity.
  - intros st' E.
    destruct (files (world st) filename) as [image|] eqn:H.
    2:{ revert E. unfold CreateGLTexture. run_prims. rewrite H. run_prims. discriminate. }
    revert E. unfold CreateGLTexture. run_prims. rewrite H. run_prims.
    destruct (img_channels image =? 3) eqn:H3; [|destruct (img_channels image =? 4) eqn:H4].
    3:{ run_prims. discriminate. }
    all: run_prims.
    all: destruct (in_bounds (m_textureIDs (sm st)) (m_loadedTextures (sm st))) eqn:Hb;
      [|rewrite store_texture_out by (cbn [sm]; exact Hb); discriminate].
    all: destruct (in_bounds_nth _ _ Hb) as [e He];
      pose proof (proj1 (in_bounds_spec _ _) Hb) as [H0 Hlt].
    all: rewrite (store_texture_ok _ _ _ e H0) by (cbn [sm]; exact He).
    all: unfold with_texture, set_sm; cbn [sm world log m_textureIDs m_pShaderManager
           m_loadedTextures m_objectMaterials].
    all: erewrite store_texture_ok;
      [ | exact H0
        | cbn [sm m_textureIDs]; apply nth_error_list_update_eq; lia ].
    all: unfold with_texture, set_sm; cbn [sm world log m_textureIDs m_pShaderManager
           m_loadedTextures m_objectMaterials gl_textures].
    all: intros E; inversion E; subst st'; clear E.
    all: eexists; split;
      [unfold emitted; cbn [log]; rewrite <- !app_assoc; reflexivity|].
    all: split; [intros bound; reflexivity | reflexivity].
Qed.

Lemma CreateGLTexture_failure_leaves_texture_bound_witness :
  exists st' es,
    CreateGLTexture "gray.png" "gray" textures_loaded = Ok false st' /\
    sm st' = sm textures_loaded /\ emitted textures_loaded st' es /\
    gl_textures (world st') = 14 :: gl_textures (world textures_loaded) /\
    bound_after es None = Some 14.
Proof.
  destruct (proj1 (proj2 (CreateGLTexture_failure_leaves_texture_bound
                            "gray.png" "gray" textures_loaded)) gray_image)
    as (st' & es & E & Hs & He & Hg & Hb & _).
  - reflexivity.
  - vm_compute. discriminate.
  - vm_compute. discriminate.
  - exists st', es. repeat split; try assumption. apply Hb.
Defined.

(** ** DestroyGLTextures and the lookups *)

(** X8: DestroyGLTextures leaves every texture findable.  For a registry
    that fits its array: after the call each tag is found at the slot it was
    found at before (and a tag that was not found is still not found), but
    the ID found for it is a texture name that was not in use before the
    call, not the name the image was loaded under. *)
Theorem DestroyGLTextures_keeps_slots st :
  registry_fits (sm st) ->
  exists st',
    DestroyGLTextures st = Ok tt st' /\
    forall t k, FindTextureSlot t st = Ok k st ->
      FindTextureSlot t st' = Ok k st' /\
      (k <> -1 ->
       exists e', registry_entry (sm st') k e' /\
                  FindTextureID t st' = Ok (GLuint_to_int (ID e')) st' /\
                  ~ In (ID e') (gl_textures (world st))).
Proof.
  intros Hfit. pose proof Hfit as Hfit0. unfold registry_fits in Hfit.
  unfold DestroyGLTextures, bind at 1, gets.
  destruct (DestroyGLTextures_loop (Z.to_nat (m_loadedTextures (sm st))) 0 st)
    as (st' & E & Hc & _ & _ & Ht & _ & Hin & _); [lia | lia |].
  exists st'. split; [exact E|].
  assert (Hlen : List.length (m_textureIDs (sm st')) = List.length (m_textureIDs (sm st))).
  { rewrite <- (length_map tag (m_textureIDs (sm st'))), Ht. apply length_map. }
  assert (Hfit' : registry_fits (sm st')).
  { unfold registry_fits. rewrite Hc, Hlen. exact Hfit. }
  assert (Htags : map tag (loaded_textures (sm st)) = map tag (loaded_textures (sm st'))).
  { unfold loaded_textures. rewrite Hc, <- !firstn_map, Ht. reflexivity. }
  intros t k Hk.
  destruct (FindTexture_run t st Hfit0) as [Hslot _].
  destruct (FindTexture_run t st' Hfit') as [Hslot' HID'].
  pose proof (lookup_texture_tags t _ _ 0 Htags) as Hsame.
  rewrite Hslot in Hk. inversion Hk as [Hk']. clear Hk.
  destruct (lookup_texture t (loaded_textures (sm st)) 0) as [[k0 e0]|];
    destruct (lookup_texture t (loaded_textures (sm st')) 0) as [[k1 e1]|] eqn:El;
    cbn in Hsame; try discriminate.
  - inversion Hsame; subst k1. split; [exact Hslot'|]. intros _.
    destruct (lookup_texture_range _ _ _ _ _ El) as (Hr & Hn & _).
    replace (k0 - 0) with k0 in Hn by lia.
    assert (He : registry_entry (sm st') k0 e1)
      by (apply loaded_textures_entry; [exact Hfit' | split; [lia | exact Hn]]).
    exists e1. split; [exact He|]. split; [exact HID'|].
    destruct He as [Hi He]. rewrite Hc in Hi.
    apply (Hin (Z.to_nat k0) e1); [lia | exact He].
  - split; [exact Hslot'|]. intros H. now elim H.
Qed.

Lemma DestroyGLTextures_keeps_slots_witness :
  exists st',
    DestroyGLTextures textures_loaded = Ok tt st' /\
    FindTextureSlot "wall" st' = Ok 7 st' /\
    exists e', registry_entry (sm st') 7 e' /\ ~ In (ID e') (gl_textures (world textures_loaded)).
Proof.
  destruct (DestroyGLTextures_keeps_slots textures_loaded) as (st' & E & H).
  - vm_compute. discriminate.
  - destruct (H "wall"%string 7) as [Hs Hid]; [vm_compute; reflexivity|].
    destruct Hid as (e' & He & _ & Hn); [discriminate|].
    exists st'. split; [exact E|]. split; [exact Hs|]. exists e'. split; assumption.
Defined.

(** ** SetShaderTexture *)

Lemma bound_units_at entries : forall index j e,
  nth_error entries j = Some e ->
  exists before rest,
    bound_units entries index
    = before ++ Ev_glActiveTexture (GL_TEXTURE0_plus (index + Z.of_nat j))
             :: Ev_glBindTexture GL_TEXTURE_2D (ID e) :: rest.
Proof.
  induction entries as [|x l IH]; intros index [|j] e H; cbn in H; try discriminate.
  - inversion H; subst. exists [], (bound_units l (index + 1)).
    cbn. now replace (index + 0) with index by lia.
  - destruct (IH (index + 1) j e H) as (before & rest & E).
    exists (Ev_glActiveTexture (GL_TEXTURE0_plus index)
            :: Ev_glBindTexture GL_TEXTURE_2D (ID x) :: before), rest.
    cbn [bound_units]. rewrite E. cbn [app].
    now replace (index + 1 + Z.of_nat j) with (index + Z.of_nat (S j)) by lia.
Qed.

Lemma SetShaderTexture_run t st p :
  m_pShaderManager (sm st) = Some p -> registry_fits (sm st) ->
  SetShaderTexture t st
  = Ok tt (logged st [Ev_setIntValue g_UseTextureName 1;
                      Ev_setSampler2DValue g_TextureValueName
                        (match lookup_texture t (loaded_textures (sm st)) 0 with
                         | Some (k, _) => k
                         | None => -1
                         end)]).
Proof.
  intros Hp Hfit.
  unfold SetShaderTexture, pShaderManager_not_NULL, bind at 1, gets. rewrite Hp.
  unfold bind at 1, setIntValue. rewrite (shader_call_present _ p) by exact Hp.
  unfold bind at 1.
  rewrite (proj1 (FindTexture_run t (logged st _) Hfit)).
  unfold setSampler2DValue. rewrite (shader_call_present _ p) by exact Hp.
  rewrite logged_logged. reflexivity.
Qed.

(** X9: the sampler SetShaderTexture selects is the texture unit
    BindGLTextures binds the texture to.  With a shader manager and a
    registry that fits its array, for a tag that the first loaded texture [e]
    carrying it has at slot [k]: SetShaderTexture switches texturing on and
    sets the sampler "objectTexture" to [k], and BindGLTextures binds the ID
    of [e] right after making GL_TEXTURE0 + k the active unit.  For a tag no
    loaded texture has, SetShaderTexture still switches texturing on and
    sets the sampler to -1. *)
Theorem SetShaderTexture_sampler_is_bound_unit t st p :
  m_pShaderManager (sm st) = Some p -> registry_fits (sm st) ->
  (forall k e,
     registry_entry (sm st) k e -> tag e = t ->
     (forall j e', j < k -> registry_entry (sm st) j e' -> tag e' <> t) ->
     SetShaderTexture t st
     = Ok tt (logged st [Ev_setIntValue "bUseTexture" 1;
                         Ev_setSampler2DValue "objectTexture" k]) /\
     exists before rest,
       BindGLTextures st
       = Ok tt (logged st (before ++ Ev_glActiveTexture (GL_TEXTURE0_plus k)
                                  :: Ev_glBindTexture GL_TEXTURE_2D (ID e) :: rest))) /\
  ((forall i e, registry_entry (sm st) i e -> tag e <> t) ->
   SetShaderTexture t st
   = Ok tt (logged st [Ev_setIntValue "bUseTexture" 1;
                       Ev_setSampler2DValue "objectTexture" (-1)])).
Proof.
  intros Hp Hfit. pose proof (SetShaderTexture_run t st p Hp Hfit) as Hrun.
  split.
  - intros k e He Ht Hfirst.
    assert (Hl : lookup_texture t (loaded_textures (sm st)) 0 = Some (k, e)).
    { destruct (lookup_texture t (loaded_textures (sm st)) 0) as [[k1 e1]|] eqn:El.
      - destruct (lookup_texture_range _ _ _ _ _ El) as (Hr & Hn & Ht1).
        replace (k1 - 0) with k1 in Hn by lia.
        assert (He1 : registry_entry (sm st) k1 e1)
          by (apply loaded_textures_entry; [exact Hfit | split; [lia | exact Hn]]).
        destruct (Z.lt_trichotomy k1 k) as [Hlt | [Heq | Hgt]].
        + exfalso. exact (Hfirst k1 e1 Hlt He1 Ht1).
        + subst k1. destruct He as [_ He], He1 as [_ He1]. congruence.
        + exfalso. assert (Hk0 : 0 <= k) by (destruct He; lia).
          assert (Hpre : exists l1 l2, loaded_textures (sm st) = l1 ++ e :: l2 /\
                                       List.length l1 = Z.to_nat k).
          { apply (proj1 (loaded_textures_entry _ _ _ Hfit)) in He. destruct He as [H0 He].
            destruct (nth_error_split _ _ He) as (l1 & l2 & E1 & E2). eauto. }
          destruct Hpre as (l1 & l2 & E1 & E2).
          rewrite E1, lookup_texture_app in El.
          destruct (lookup_texture t l1 0) as [[k2 e2]|] eqn:El1.
          * inversion El; subst. apply lookup_texture_range in El1. lia.
          * cbn in El. rewrite <- Ht, String.eqb_refl in El. inversion El. lia.
      - exfalso. apply (proj1 (lookup_texture_none _ _ _) El e); [|exact Ht].
        apply loaded_textures_In; [exact Hfit | eauto]. }
    rewrite Hl in Hrun. split; [exact Hrun|].
    apply (proj1 (loaded_textures_entry _ _ _ Hfit)) in He. destruct He as [H0 He].
    destruct (bound_units_at _ 0 _ _ He) as (before & rest & E).
    exists before, rest. unfold BindGLTextures, bind at 1, gets.
    unfold registry_fits in Hfit.
    rewrite BindGLTextures_loop by lia. cbn [Z.to_nat skipn].
    fold (loaded_textures (sm st)). rewrite E.
    now replace (0 + Z.of_nat (Z.to_nat k)) with k by lia.
  - intros Habs.
    assert (Hl : lookup_texture t (loaded_textures (sm st)) 0 = None).
    { apply lookup_texture_none. intros e He.
      apply (loaded_textures_In _ _ Hfit) in He. destruct He as [i He]. eauto. }
    rewrite Hl in Hrun. exact Hrun.
Qed.

Lemma SetShaderTexture_sampler_is_bound_unit_witness :
  SetShaderTexture "wall" textures_loaded
  = Ok tt (logged textures_loaded [Ev_setIntValue "bUseTexture" 1;
                                   Ev_setSampler2DValue "objectTexture" 7]) /\
  SetShaderTexture "glass" textures_loaded
  = Ok tt (logged textures_loaded [Ev_setIntValue "bUseTexture" 1;
                                   Ev_setSampler2DValue "objectTexture" (-1)]).
Proof.
  assert (Hp : m_pShaderManager (sm textures_loaded) = Some 1%positive) by reflexivity.
  assert (Hfit : registry_fits (sm textures_loaded)) by (vm_compute; discriminate).
  split.
  - refine (proj1 (proj1 (SetShaderTexture_sampler_is_bound_unit "wall" textures_loaded
                            1%positive Hp Hfit) 7 (mkTEXTURE_INFO 8 "wall") _ _ _)).
    + split; [split; [vm_compute; discriminate | vm_compute; reflexivity] | reflexivity].
    + reflexivity.
    + intros j e' Hj [Hr He'] Ht.
      assert (Hcases : j = 0 \/ j = 1 \/ j = 2 \/ j = 3 \/ j = 4 \/ j = 5 \/ j = 6) by lia.
      repeat (destruct Hcases as [->|Hcases];
              [vm_compute in He'; inversion He'; subst e'; vm_compute in Ht; discriminate Ht|]).
      subst j. vm_compute in He'; inversion He'; subst e'; vm_compute in Ht; discriminate Ht.
  - refine (proj2 (SetShaderTexture_sampler_is_bound_unit "glass" textures_loaded
                     1%positive Hp Hfit) _).
    intros i e [Hr He] Ht.
    assert (Hlt : 0 <= i < 13) by exact Hr.
    assert (Hcases : i = 0 \/ i = 1 \/ i = 2 \/ i = 3 \/ i = 4 \/ i = 5 \/ i = 6 \/ i = 7
                     \/ i = 8 \/ i = 9 \/ i = 10 \/ i = 11 \/ i = 12) by lia.
    repeat (destruct Hcases as [->|Hcases];
            [vm_compute in He; inversion He; subst e; vm_compute in Ht; discriminate Ht|]).
    subst i. vm_compute in He; inversion He; subst e; vm_compute in Ht; discriminate Ht.
Defined.

(** ** Materials *)

Lemma material_uniforms_run st p material :
  m_pShaderManager (sm st) = Some p ->
  (setVec3Value "material.diffuseColor" (diffuseColor material) ;;
   setVec3Value "material.specularColor" (specularColor material) ;;
   setFloatValue "material.shininess" (shininess material)) st
  = Ok tt (logged st (material_uniforms material)).
Proof.
  intros Hp. unfold setVec3Value, setFloatValue.
  unfold bind at 1. rewrite (shader_call_present _ p) by exact Hp.
  unfold bind at 1. rewrite (shader_call_present _ p) by exact Hp.
  rewrite (shader_call_present _ p) by exact Hp.
  rewrite !logged_logged. reflexivity.
Qed.

(** X10: SetShaderMaterial sets the three material uniforms from the first
    material with the tag: with a shader manager and a registry in which [m]
    is the first material tagged [t], it logs exactly the diffuse colour, the
    specular colour and the shininess of [m], whatever the uninitialised
    local held; with an empty registry it does nothing at all, with or
    without a shader manager. *)
Theorem SetShaderMaterial_sets_first_match t st :
  (forall p before m rest,
     m_pShaderManager (sm st) = Some p ->
     m_objectMaterials (sm st) = before ++ m :: rest ->
     material_tag m = t ->
     (forall x, In x before -> material_tag x <> t) ->
     SetShaderMaterial t st = Ok tt (logged st (material_uniforms m))) /\
  (m_objectMaterials (sm st) = [] -> SetShaderMaterial t st = Ok tt st).
Proof.
  split.
  - intros p before m rest Hp Hl Hm Hb.
    rewrite SetShaderMaterial_run.
    destruct (m_objectMaterials (sm st)) as [|m0 l0] eqn:E.
    { destruct before; discriminate. }
    cbv zeta. rewrite Hl, (FindMaterial_from_first t before m rest _ Hm Hb).
    cbn [diffuseColor specularColor shininess].
    apply (material_uniforms_run st p); exact Hp.
  - intros Hl. rewrite SetShaderMaterial_run, Hl. reflexivity.
Qed.

Lemma SetShaderMaterial_sets_first_match_witness :
  SetShaderMaterial "wood" materials_defined
  = Ok tt (logged materials_defined (material_uniforms woodMaterial)).
Proof.
  apply (proj1 (SetShaderMaterial_sets_first_match "wood" materials_defined)
           1%positive [plasticMaterial] woodMaterial
           [woodFloorMaterial; porcelainMaterial; metalMaterial; clothMaterial;
            wallMaterial; bookCoverMaterial]).
  - reflexivity.
  - reflexivity.
  - reflexivity.
  - intros x [<-|[]]. vm_compute. discriminate.
Defined.

(** ** A NULL shader manager *)

Lemma shader_call_absent st e :
  m_pShaderManager (sm st) = None -> shader_call e st = Fault NullPointer.
Proof. intros H. unfold shader_call. now rewrite H. Qed.

Section WithoutShader.
Variable st : State.
Hypothesis no_shader : m_pShaderManager (sm st) = None.

Lemma SetTransformations_without_shader s X Y Z p : SetTransformations s X Y Z p st = Ok tt st.
Proof. unfold SetTransformations, pShaderManager_not_NULL, bind, gets. now rewrite no_shader. Qed.

Lemma SetShaderColor_without_shader r g b a : SetShaderColor r g b a st = Ok tt st.
Proof.
  unfold SetShaderColor, pShaderManager_not_NULL, bind at 1, gets. now rewrite no_shader.
Qed.

Lemma SetShaderTexture_without_shader t : SetShaderTexture t st = Ok tt st.
Proof.
  unfold SetShaderTexture, pShaderManager_not_NULL, bind at 1, gets. now rewrite no_shader.
Qed.

Lemma SetTextureUVScale_without_shader u v : SetTextureUVScale u v st = Ok tt st.
Proof. unfold SetTextureUVScale, pShaderManager_not_NULL, bind, gets. now rewrite no_shader. Qed.

Lemma SetShaderMaterial_without_shader t :
  SetShaderMaterial t st
  = match m_objectMaterials (sm st) with
    | [] => Ok tt st
    | _ :: _ => Fault NullPointer
    end.
Proof.
  rewrite SetShaderMaterial_run.
  destruct (m_objectMaterials (sm st)); [reflexivity|].
  cbv zeta. unfold bind at 1, setVec3Value at 1. now rewrite shader_call_absent.
Qed.

Lemma SetupSceneLights_without_shader : SetupSceneLights st = Fault NullPointer.
Proof.
  unfold SetupSceneLights, bind at 1, setBoolValue at 1. now rewrite shader_call_absent.
Qed.

End WithoutShader.

(** X11: only some of the member functions guard against a NULL shader
    manager.  With m_pShaderManager NULL, SetTransformations, SetShaderColor,
    SetShaderTexture and SetTextureUVScale return without any effect
    (SetShaderTexture does not even look the tag up); SetShaderMaterial
    returns without effect only while no material is defined and otherwise
    calls through the NULL pointer, as SetupSceneLights always does. *)
Theorem NULL_shader_manager_guards st :
  m_pShaderManager (sm st) = None ->
  (forall s X Y Z p, SetTransformations s X Y Z p st = Ok tt st) /\
  (forall r g b a, SetShaderColor r g b a st = Ok tt st) /\
  (forall t, SetShaderTexture t st = Ok tt st) /\
  (forall u v, SetTextureUVScale u v st = Ok tt st) /\
  (forall t, SetShaderMaterial t st
             = match m_objectMaterials (sm st) with
               | [] => Ok tt st
               | _ :: _ => Fault NullPointer
               end) /\
  SetupSceneLights st = Fault NullPointer.
Proof.
  intros H.
  split; [|split; [|split; [|split; [|split]]]]; intros.
  - now apply SetTransformations_without_shader.
  - now apply SetShaderColor_without_shader.
  - now apply SetShaderTexture_without_shader.
  - now apply SetTextureUVScale_without_shader.
  - now apply SetShaderMaterial_without_shader.
  - now apply SetupSceneLights_without_shader.
Qed.

Lemma NULL_shader_manager_guards_witness :
  SetShaderTexture "wall" scene_without_shader = Ok tt scene_without_shader /\
  SetShaderMaterial "wall" scene_without_shader = Fault NullPointer /\
  SetupSceneLights scene_without_shader = Fault NullPointer.
Proof.
  pose proof (NULL_shader_manager_guards scene_without_shader eq_refl)
    as (_ & _ & Ht & _ & Hm & Hl).
  split; [apply Ht|]. split; [apply Hm | exact Hl].
Defined.

(** ** DefineObjectMaterials *)

Lemma FindMaterial_from_app t l1 l2 material :
  FindMaterial_from t (l1 ++ l2) material
  = if existsb (fun x => String.eqb (material_tag x) t) l1
    then FindMaterial_from t l1 material
    else FindMaterial_from t l2 material.
Proof.
  induction l1 as [|x l IH]; cbn; [reflexivity|].
  destruct (String.eqb (material_tag x) t); [reflexivity | exact IH].
Qed.

Lemma FindMaterial_from_unique t l material m :
  NoDup (map material_tag l) -> In m l -> material_tag m = t ->
  FindMaterial_from t l material = copied_into material m.
Proof.
  intros Hnd Hin Ht.
  destruct (in_split _ _ Hin) as (before & rest & ->).
  apply FindMaterial_from_first; [exact Ht|].
  intros x Hx Hxt. rewrite map_app in Hnd. cbn in Hnd.
  apply NoDup_remove_2 in Hnd. apply Hnd. apply in_or_app. left.
  rewrite Ht, <- Hxt. now apply in_map.
Qed.

Lemma existsb_tag_false t (l : list OBJECT_MATERIAL) :
  existsb (fun x => String.eqb (material_tag x) t) l = false <->
  forall x, In x l -> material_tag x <> t.
Proof.
  induction l as [|x l IH]; cbn.
  - split; [intros _ ? [] | reflexivity].
  - rewrite orb_false_iff, IH. split.
    + intros [Hx Hl] y [<-|Hy]; [now apply String.eqb_neq | auto].
    + intros H. split; [apply String.eqb_neq | intros y Hy]; apply H; auto.
Qed.

Lemma SceneMaterials_NoDup : NoDup (map material_tag SceneMaterials).
Proof.
  change (map material_tag SceneMaterials)
    with ["plastic"; "wood"; "woodFloor"; "porcelain"; "metal"; "cloth"; "wall";
          "BookCover"]%string.
  repeat constructor; cbn; intuition discriminate.
Qed.

Lemma FindMaterial_nonempty t material st m l :
  m_objectMaterials (sm st) = m :: l ->
  FindMaterial t material st
  = Ok (true, FindMaterial_from t (m_objectMaterials (sm st)) material) st.
Proof. intros H. rewrite FindMaterial_run, H. reflexivity. Qed.

(** X12: DefineObjectMaterials appends the eight scene materials and never
    replaces a definition.  After the call, a tag that had a material before
    still resolves to that earlier material (FindMaterial copies the fields
    of the first match), also when it is the tag of a scene material; a tag
    that had none resolves to the scene material with that tag. *)
Theorem DefineObjectMaterials_earlier_definition_wins st :
  exists st',
    DefineObjectMaterials st = Ok tt st' /\
    m_objectMaterials (sm st') = m_objectMaterials (sm st) ++ SceneMaterials /\
    (forall t material before m rest,
       m_objectMaterials (sm st) = before ++ m :: rest ->
       material_tag m = t ->
       (forall x, In x before -> material_tag x <> t) ->
       FindMaterial t material st' = Ok (true, copied_into material m) st') /\
    (forall t material m,
       (forall x, In x (m_objectMaterials (sm st)) -> material_tag x <> t) ->
       In m SceneMaterials -> material_tag m = t ->
       FindMaterial t material st' = Ok (true, copied_into material m) st').
Proof.
  eexists. split; [apply DefineObjectMaterials_run|].
  cbn [sm set_sm m_objectMaterials]. split; [reflexivity|]. split.
  - intros t material before m rest Hl Hm Hb.
    rewrite FindMaterial_run. cbn [sm set_sm m_objectMaterials].
    rewrite Hl, <- app_assoc. cbn [app].
    destruct (before ++ m :: rest ++ SceneMaterials) as [|m0 l0] eqn:E.
    { destruct before; discriminate. }
    rewrite <- E. rewrite (FindMaterial_from_first t before m _ _ Hm Hb). reflexivity.
  - intros t material m Hnone Hin Hm.
    rewrite FindMaterial_run. cbn [sm set_sm m_objectMaterials].
    destruct (m_objectMaterials (sm st) ++ SceneMaterials) as [|m0 l0] eqn:E.
    { destruct (m_objectMaterials (sm st)); discriminate. }
    rewrite <- E, FindMaterial_from_app.
    rewrite (proj2 (existsb_tag_false t _) Hnone).
    rewrite (FindMaterial_from_unique t SceneMaterials material m SceneMaterials_NoDup Hin Hm).
    reflexivity.
Qed.

Lemma DefineObjectMaterials_earlier_definition_wins_witness :
  exists st',
    DefineObjectMaterials (only_plastic stale_material) = Ok tt st' /\
    FindMaterial "wall" stale_material st' = Ok (true, copied_into stale_material wallMaterial) st'.
Proof.
  destruct (DefineObjectMaterials_earlier_definition_wins (only_plastic stale_material))
    as (st' & E & _ & _ & H).
  exists st'. split; [exact E|].
  apply H.
  - intros x [<-|[]]. vm_compute. discriminate.
  - vm_compute. tauto.
  - reflexivity.
Defined.

(** X13: a second DefineObjectMaterials grows the vector and changes no
    lookup.  Two calls in a row return, the vector is sixteen entries longer
    than before the first, and FindMaterial gives for every tag and
    out-parameter the same result after the second call as after the
    first. *)
Theorem DefineObjectMaterials_again_changes_no_lookup st :
  exists st1 st2,
    DefineObjectMaterials st = Ok tt st1 /\
    DefineObjectMaterials st1 = Ok tt st2 /\
    List.length (m_objectMaterials (sm st2))
    = (List.length (m_objectMaterials (sm st)) + 16)%nat /\
    forall t material,
      exists r, FindMaterial t material st1 = Ok r st1 /\
                FindMaterial t material st2 = Ok r st2.
Proof.
  eexists. eexists. split; [apply DefineObjectMaterials_run|].
  split; [apply DefineObjectMaterials_run|].
  cbn [sm set_sm m_objectMaterials m_pShaderManager m_textureIDs m_loadedTextures].
  split.
  - rewrite !length_app. cbn [SceneMaterials List.length]. lia.
  - intros t material. rewrite !FindMaterial_run.
    cbn [sm set_sm m_objectMaterials m_pShaderManager m_textureIDs m_loadedTextures].
    set (l := m_objectMaterials (sm st) ++ SceneMaterials).
    assert (Hl : exists m0 l0, l = m0 :: l0).
    { unfold l. destruct (m_objectMaterials (sm st)); cbn [app]; unfold SceneMaterials;
      eexists; eexists; reflexivity. }
    destruct Hl as (m0 & l0 & Hl).
    assert (Hl2 : exists m1 l1, l ++ SceneMaterials = m1 :: l1).
    { rewrite Hl. cbn [app]. eexists; eexists; reflexivity. }
    destruct Hl2 as (m1 & l1 & Hl2).
    eexists. split.
    + rewrite Hl, <- Hl. reflexivity.
    + rewrite Hl2, <- Hl2. f_equal. f_equal.
      rewrite FindMaterial_from_app.
      destruct (existsb (fun x => String.eqb (material_tag x) t) l) eqn:Ex; [reflexivity|].
      rewrite (FindMaterial_from_absent t l)
        by (apply existsb_tag_false; exact Ex).
      apply FindMaterial_from_absent. intros x Hx.
      apply (proj1 (existsb_tag_false t l) Ex). unfold l. apply in_or_app. now right.
Qed.

(** ** Rendering returns *)

Lemma logged_nil st : logged st [] = st.
Proof. unfold logged. rewrite app_nil_r. now destruct st. Qed.

Section Runs.
Variable pre : SceneManager -> Prop.
Variable ok : Event -> bool.

Lemma runs_ret {A} (a : A) : runs pre ok (ret a).
Proof. intros st _. exists a, []. now rewrite logged_nil. Qed.

Lemma runs_bind {A B} (m : M A) (k : A -> M B) :
  runs pre ok m -> (forall a, runs pre ok (k a)) -> runs pre ok (bind m k).
Proof.
  intros Hm Hk st Hpre. destruct (Hm st Hpre) as (a & es1 & E1 & H1).
  destruct (Hk a (logged st es1) Hpre) as (b & es2 & E2 & H2).
  exists b, (es1 ++ es2). unfold bind. rewrite E1, E2, logged_logged.
  split; [reflexivity|]. rewrite forallb_app, H1, H2. reflexivity.
Qed.

Lemma runs_gets {A} (f : State -> A) : runs pre ok (gets f).
Proof. intros st _. exists (f st), []. now rewrite logged_nil. Qed.

Lemma runs_emit e : ok e = true -> runs pre ok (emit e).
Proof. intros H st _. exists tt, [e]. split; [reflexivity|]. cbn. now rewrite H. Qed.

Lemma runs_for_loop {S : Type} n : forall (body : S -> M S) s,
  (forall s, runs pre ok (body s)) -> runs pre ok (for_loop n body s).
Proof.
  induction n as [|n IH]; intros body s Hb; cbn [for_loop]; [apply runs_ret|].
  apply runs_bind; [apply Hb|]. intros s'. now apply IH.
Qed.

End Runs.

Ltac runs_prim :=
  lazymatch goal with
  | |- runs _ _ (bind _ _) => apply runs_bind; [|intros ?]
  | |- runs _ _ (ret _) => apply runs_ret
  | |- runs _ _ (gets _) => apply runs_gets
  | |- runs _ _ (emit _) => apply runs_emit; reflexivity
  | |- runs _ _ (for_loop _ _ _) => apply runs_for_loop; intros ?
  | |- runs _ _ (match ?x with _ => _ end) => destruct x
  end.

Ltac runs_draws :=
  cbv [DrawPlaneMesh DrawTaperedCylinderMesh DrawTorusMesh DrawHalfTorusMesh
       DrawBoxMesh DrawBoxMeshSide DrawCylinderMesh DrawSphereMesh].

(** With a shader manager and a registry that fits. *)
Lemma runs_shader_call ok e :
  ok e = true -> runs ready_to_render ok (shader_call e).
Proof.
  intros H st [Hp _]. destruct (m_pShaderManager (sm st)) as [p|] eqn:E; [|congruence].
  exists tt, [e]. split; [apply (shader_call_present st p e E)|].
  cbn. now rewrite H.
Qed.

Lemma runs_stronger (pre pre' : SceneManager -> Prop) ok {A} (m : M A) :
  (forall s, pre' s -> pre s) -> runs pre ok m -> runs pre' ok m.
Proof. intros Hpre H st Hst. apply H. now apply Hpre. Qed.

(** The calls of rendering, for a condition [pre] on the state that makes it
    ready to render, events [ok] that comprise the uniforms other than the
    sampler and the draw calls, and texture tags [used] whose lookup passes
    [ok]. *)
Section Rendering.
Variable pre : SceneManager -> Prop.
Variable ok : Event -> bool.
Variable used : string -> bool.
Hypothesis pre_ready : forall s, pre s -> ready_to_render s.
Hypothesis ok_uniform : forall e, is_uniform e = true -> is_sampler e = false -> ok e = true.
Hypothesis ok_draw : forall e, is_draw e = true -> ok e = true.
Hypothesis ok_used : forall t, used t = true -> runs pre ok (SetShaderTexture t).
Hypothesis used_scene : forall t, In t scene_texture_tags -> used t = true.

Lemma runs_uniform e :
  is_uniform e = true -> is_sampler e = false -> runs pre ok (shader_call e).
Proof.
  intros Hu Hs. apply (runs_stronger ready_to_render); [exact pre_ready|].
  apply runs_shader_call. now apply ok_uniform.
Qed.

Lemma runs_draw e : is_draw e = true -> runs pre ok (emit e).
Proof. intros H. apply runs_emit. now apply ok_draw. Qed.

Lemma runs_SetTransformations s X Y Z p : runs pre ok (SetTransformations s X Y Z p).
Proof.
  unfold SetTransformations, pShaderManager_not_NULL, setMat4Value.
  repeat first [apply runs_uniform; reflexivity | runs_prim].
Qed.

Lemma runs_SetShaderColor r g b a : runs pre ok (SetShaderColor r g b a).
Proof.
  unfold SetShaderColor, pShaderManager_not_NULL, setIntValue, setVec4Value.
  repeat first [apply runs_uniform; reflexivity | runs_prim].
Qed.

Lemma runs_SetTextureUVScale u v : runs pre ok (SetTextureUVScale u v).
Proof.
  unfold SetTextureUVScale, pShaderManager_not_NULL, setVec2Value.
  repeat first [apply runs_uniform; reflexivity | runs_prim].
Qed.

Lemma runs_SetShaderTexture t : In t scene_texture_tags -> runs pre ok (SetShaderTexture t).
Proof. intros H. apply ok_used. now apply used_scene. Qed.

Lemma runs_SetShaderMaterial t : runs pre ok (SetShaderMaterial t).
Proof.
  intros st Hpre. destruct (pre_ready _ Hpre) as [Hp Hfit].
  destruct (m_pShaderManager (sm st)) as [p|] eqn:E; [|congruence].
  rewrite SetShaderMaterial_run.
  destruct (m_objectMaterials (sm st)) as [|m0 l0].
  - exists tt, []. now rewrite logged_nil.
  - cbv zeta. exists tt. eexists.
    split; [apply (material_uniforms_run st p); exact E|].
    cbn [material_uniforms forallb]. rewrite !ok_uniform by reflexivity. reflexivity.
Qed.

Ltac runs_known :=
  lazymatch goal with
  | |- runs _ _ (SetTransformations _ _ _ _ _) => apply runs_SetTransformations
  | |- runs _ _ (SetShaderColor _ _ _ _) => apply runs_SetShaderColor
  | |- runs _ _ (SetShaderTexture _) =>
      apply runs_SetShaderTexture; cbv [scene_texture_tags SceneTextures map snd In]; tauto
  | |- runs _ _ (SetTextureUVScale _ _) => apply runs_SetTextureUVScale
  | |- runs _ _ (SetShaderMaterial _) => apply runs_SetShaderMaterial
  | |- runs _ _ (emit _) => apply runs_draw; reflexivity
  end.

Ltac runs_body := runs_draws; cbv zeta; repeat first [runs_known | runs_prim].

Lemma runs_LoadLamp x y z : runs pre ok (LoadLamp x y z).
Proof. unfold LoadLamp. runs_body. Qed.

Lemma runs_LoadMonitor x y z : runs pre ok (LoadMonitor x y z).
Proof. unfold LoadMonitor. runs_body. Qed.

Lemma runs_GenerateKeyCap x y z : runs pre ok (GenerateKeyCap x y z).
Proof. unfold GenerateKeyCap. runs_body. Qed.

Lemma runs_LoadKeyboard x y z : runs pre ok (LoadKeyboard x y z).
Proof.
  unfold LoadKeyboard. runs_draws; cbv zeta.
  repeat first [ lazymatch goal with
                 | |- runs _ _ (GenerateKeyCap _ _ _) => apply runs_GenerateKeyCap
                 end
               | runs_known | runs_prim ].
Qed.

Lemma runs_LoadMouse x y z : runs pre ok (LoadMouse x y z).
Proof. unfold LoadMouse. runs_body. Qed.

Lemma runs_LoadPhone x y z : runs pre ok (LoadPhone x y z).
Proof. unfold LoadPhone. runs_body. Qed.

Lemma runs_LoadBook x y z xr yr zr : runs pre ok (LoadBook x y z xr yr zr).
Proof. unfold LoadBook. runs_body. Qed.

Lemma runs_RenderScene : runs pre ok RenderScene.
Proof.
  unfold RenderScene. runs_draws; cbv zeta.
  repeat first [ lazymatch goal with
                 | |- runs _ _ (LoadLamp _ _ _) => apply runs_LoadLamp
                 | |- runs _ _ (LoadMonitor _ _ _) => apply runs_LoadMonitor
                 | |- runs _ _ (LoadKeyboard _ _ _) => apply runs_LoadKeyboard
                 | |- runs _ _ (LoadMouse _ _ _) => apply runs_LoadMouse
                 | |- runs _ _ (LoadPhone _ _ _) => apply runs_LoadPhone
                 | |- runs _ _ (LoadBook _ _ _ _ _ _) => apply runs_LoadBook
                 end
               | runs_known | runs_prim ].
Qed.

End Rendering.

(** Whatever the tags: uniforms and draw calls. *)
Lemma runs_any_SetShaderTexture t :
  runs ready_to_render uniform_or_draw (SetShaderTexture t).
Proof.
  intros st [Hp Hfit]. destruct (m_pShaderManager (sm st)) as [p|] eqn:E; [|congruence].
  exists tt. eexists. split; [apply (SetShaderTexture_run t st p E Hfit)|]. reflexivity.
Qed.

Lemma any_uniform e : is_uniform e = true -> is_sampler e = false -> uniform_or_draw e = true.
Proof. intros H _. unfold uniform_or_draw. now rewrite H. Qed.

Lemma any_draw e : is_draw e = true -> uniform_or_draw e = true.
Proof. intros H. unfold uniform_or_draw. rewrite H. apply orb_true_r. Qed.

Lemma any_used t :
  any_tag t = true -> runs ready_to_render uniform_or_draw (SetShaderTexture t).
Proof. intros _. apply runs_any_SetShaderTexture. Qed.

Lemma any_scene t : In t scene_texture_tags -> any_tag t = true.
Proof. reflexivity. Qed.

Ltac any_tags :=
  first [ exact any_uniform | exact any_draw | exact any_used | exact any_scene
        | exact (fun s (H : ready_to_render s) => H) ].

Lemma returns_RenderScene : runs ready_to_render uniform_or_draw RenderScene.
Proof. eapply runs_RenderScene; any_tags. Qed.

Lemma returns_LoadLamp x y z : runs ready_to_render uniform_or_draw (LoadLamp x y z).
Proof. eapply runs_LoadLamp; any_tags. Qed.

Lemma returns_LoadMonitor x y z : runs ready_to_render uniform_or_draw (LoadMonitor x y z).
Proof. eapply runs_LoadMonitor; any_tags. Qed.

Lemma returns_LoadKeyboard x y z : runs ready_to_render uniform_or_draw (LoadKeyboard x y z).
Proof. eapply runs_LoadKeyboard; any_tags. Qed.

Lemma returns_GenerateKeyCap x y z :
  runs ready_to_render uniform_or_draw (GenerateKeyCap x y z).
Proof. eapply runs_GenerateKeyCap; any_tags. Qed.

Lemma returns_LoadMouse x y z : runs ready_to_render uniform_or_draw (LoadMouse x y z).
Proof. eapply runs_LoadMouse; any_tags. Qed.

Lemma returns_LoadPhone x y z : runs ready_to_render uniform_or_draw (LoadPhone x y z).
Proof. eapply runs_LoadPhone; any_tags. Qed.

Lemma returns_LoadBook x y z xr yr zr :
  runs ready_to_render uniform_or_draw (LoadBook x y z xr yr zr).
Proof. eapply runs_LoadBook; any_tags. Qed.

(** X14: RenderScene cannot fail once there is a shader manager and the
    loaded textures fit the array.  From every such state it returns, it
    changes nothing but the log (registry, materials and world stay as they
    were), and what it logs are uniform assignments and draw calls only: no
    OpenGL call, no load call, no output. *)
Theorem RenderScene_returns st :
  m_pShaderManager (sm st) <> None -> registry_fits (sm st) ->
  exists es, RenderScene st = Ok tt (logged st es) /\
             forallb uniform_or_draw es = true.
Proof.
  intros Hp Hfit. destruct (returns_RenderScene st (conj Hp Hfit)) as ([] & es & E & H).
  exists es. split; assumption.
Qed.

Lemma RenderScene_returns_witness :
  exists es, RenderScene scene_prepared = Ok tt (logged scene_prepared es) /\
             forallb uniform_or_draw es = true.
Proof.
  refine (RenderScene_returns scene_prepared _ _).
  - discriminate.
  - vm_compute. discriminate.
Defined.

(** X15: the same holds for each placement routine on its own, whatever the
    offset (and, for LoadBook, the rotation): with a shader manager and a
    registry that fits, it returns, changes nothing but the log, and logs
    uniform assignments and draw calls only. *)
Theorem placement_routines_return st x y z :
  m_pShaderManager (sm st) <> None -> registry_fits (sm st) ->
  (exists es, LoadLamp x y z st = Ok tt (logged st es) /\ forallb uniform_or_draw es = true) /\
  (exists es, LoadMonitor x y z st = Ok tt (logged st es) /\ forallb uniform_or_draw es = true) /\
  (exists es, LoadKeyboard x y z st = Ok tt (logged st es) /\ forallb uniform_or_draw es = true) /\
  (exists es, GenerateKeyCap x y z st = Ok tt (logged st es) /\ forallb uniform_or_draw es = true) /\
  (exists es, LoadMouse x y z st = Ok tt (logged st es) /\ forallb uniform_or_draw es = true) /\
  (exists es, LoadPhone x y z st = Ok tt (logged st es) /\ forallb uniform_or_draw es = true) /\
  (forall xRotation yRotation zRotation,
     exists es, LoadBook x y z xRotation yRotation zRotation st = Ok tt (logged st es) /\
                forallb uniform_or_draw es = true).
Proof.
  intros Hp Hfit. pose proof (conj Hp Hfit : ready_to_render (sm st)) as Hr.
  repeat split; intros.
  - destruct (returns_LoadLamp x y z st Hr) as ([] & es & E & H). eauto.
  - destruct (returns_LoadMonitor x y z st Hr) as ([] & es & E & H). eauto.
  - destruct (returns_LoadKeyboard x y z st Hr) as ([] & es & E & H). eauto.
  - destruct (returns_GenerateKeyCap x y z st Hr) as ([] & es & E & H). eauto.
  - destruct (returns_LoadMouse x y z st Hr) as ([] & es & E & H). eauto.
  - destruct (returns_LoadPhone x y z st Hr) as ([] & es & E & H). eauto.
  - destruct (returns_LoadBook x y z xRotation yRotation zRotation st Hr) as ([] & es & E & H).
    eauto.
Qed.

Lemma placement_routines_return_witness :
  exists es, LoadKeyboard (i2f 0) (i2f 0) (i2f 0) textures_loaded
             = Ok tt (logged textures_loaded es) /\
             forallb uniform_or_draw es = true.
Proof.
  refine (proj1 (proj2 (proj2 (placement_routines_return textures_loaded
                                 (i2f 0) (i2f 0) (i2f 0) _ _)))).
  - discriminate.
  - vm_compute. discriminate.
Defined.

(** ** Rendering without a shader manager *)

Lemma bind_ok_at {A B} (m : M A) (k : A -> M B) st a st' :
  m st = Ok a st' -> bind m k st = k a st'.
Proof. intros H. unfold bind. now rewrite H. Qed.

Lemma bind_fault_at {A B} (m : M A) (k : A -> M B) st f :
  m st = Fault f -> bind m k st = Fault f.
Proof. intros H. unfold bind. now rewrite H. Qed.

Lemma runs_quiet pre ok (m : M unit) :
  (forall st, pre (sm st) -> m st = Ok tt st) -> runs pre ok m.
Proof. intros H st Hpre. exists tt, []. rewrite logged_nil. split; [now apply H | reflexivity]. Qed.

Ltac quiet_known :=
  lazymatch goal with
  | |- runs _ _ (SetTransformations _ _ _ _ _) =>
      apply runs_quiet; intros ? [? ?]; now apply SetTransformations_without_shader
  | |- runs _ _ (SetShaderColor _ _ _ _) =>
      apply runs_quiet; intros ? [? ?]; now apply SetShaderColor_without_shader
  | |- runs _ _ (SetShaderTexture _) =>
      apply runs_quiet; intros ? [? ?]; now apply SetShaderTexture_without_shader
  | |- runs _ _ (SetTextureUVScale _ _) =>
      apply runs_quiet; intros ? [? ?]; now apply SetTextureUVScale_without_shader
  | |- runs _ _ (SetShaderMaterial _) =>
      apply runs_quiet;
      let H := fresh in let Hm := fresh in
      intros ? [H Hm]; rewrite (SetShaderMaterial_without_shader _ H), Hm; reflexivity
  end.

Ltac quiet_body := runs_draws; cbv zeta; repeat first [quiet_known | runs_prim].

Lemma quiet_LoadLamp x y z : runs no_shader_no_material is_draw (LoadLamp x y z).
Proof. unfold LoadLamp. quiet_body. Qed.

Lemma quiet_LoadMonitor x y z : runs no_shader_no_material is_draw (LoadMonitor x y z).
Proof. unfold LoadMonitor. quiet_body. Qed.

Lemma quiet_GenerateKeyCap x y z : runs no_shader_no_material is_draw (GenerateKeyCap x y z).
Proof. unfold GenerateKeyCap. quiet_body. Qed.

Lemma quiet_LoadKeyboard x y z : runs no_shader_no_material is_draw (LoadKeyboard x y z).
Proof.
  unfold LoadKeyboard. runs_draws; cbv zeta.
  repeat first [ lazymatch goal with
                 | |- runs _ _ (GenerateKeyCap _ _ _) => apply quiet_GenerateKeyCap
                 end
               | quiet_known | runs_prim ].
Qed.

Lemma quiet_LoadMouse x y z : runs no_shader_no_material is_draw (LoadMouse x y z).
Proof. unfold LoadMouse. quiet_body. Qed.

Lemma quiet_LoadPhone x y z : runs no_shader_no_material is_draw (LoadPhone x y z).
Proof. unfold LoadPhone. quiet_body. Qed.

Lemma quiet_LoadBook x y z xr yr zr :
  runs no_shader_no_material is_draw (LoadBook x y z xr yr zr).
Proof. unfold LoadBook. quiet_body. Qed.

Lemma quiet_RenderScene : runs no_shader_no_material is_draw RenderScene.
Proof.
  unfold RenderScene. runs_draws; cbv zeta.
  repeat first [ lazymatch goal with
                 | |- runs _ _ (LoadLamp _ _ _) => apply quiet_LoadLamp
                 | |- runs _ _ (LoadMonitor _ _ _) => apply quiet_LoadMonitor
                 | |- runs _ _ (LoadKeyboard _ _ _) => apply quiet_LoadKeyboard
                 | |- runs _ _ (LoadMouse _ _ _) => apply quiet_LoadMouse
                 | |- runs _ _ (LoadPhone _ _ _) => apply quiet_LoadPhone
                 | |- runs _ _ (LoadBook _ _ _ _ _ _) => apply quiet_LoadBook
                 end
               | quiet_known | runs_prim ].
Qed.

Lemma RenderScene_NullPointer st m l :
  m_pShaderManager (sm st) = None -> m_objectMaterials (sm st) = m :: l ->
  RenderScene st = Fault NullPointer.
Proof.
  intros H Hm. unfold RenderScene. cbv zeta.
  refine (eq_trans (bind_ok_at _ _ _ _ _ (SetTransformations_without_shader st H _ _ _ _ _)) _).
  refine (eq_trans (bind_ok_at _ _ _ _ _ (SetShaderColor_without_shader st H _ _ _ _)) _).
  refine (eq_trans (bind_ok_at _ _ _ _ _ (SetShaderTexture_without_shader st H _)) _).
  refine (eq_trans (bind_ok_at _ _ _ _ _ (SetTextureUVScale_without_shader st H _ _)) _).
  refine (bind_fault_at _ _ _ _ _).
  rewrite (SetShaderMaterial_without_shader st H), Hm. reflexivity.
Qed.

(** X16: RenderScene is written for a NULL shader manager only in part.
    With m_pShaderManager NULL and no material defined it returns, sets no
    uniform and logs nothing but its draw calls; with m_pShaderManager NULL
    and at least one material defined it calls through the NULL pointer, at
    the material of the first object (the floor). *)
Theorem RenderScene_without_shader st :
  m_pShaderManager (sm st) = None ->
  (m_objectMaterials (sm st) = [] ->
   exists es, RenderScene st = Ok tt (logged st es) /\ forallb is_draw es = true) /\
  (m_objectMaterials (sm st) <> [] -> RenderScene st = Fault NullPointer).
Proof.
  intros H. split.
  - intros Hm. destruct (quiet_RenderScene st (conj H Hm)) as ([] & es & E & Hd). eauto.
  - intros Hm. destruct (m_objectMaterials (sm st)) as [|m l] eqn:E; [congruence|].
    now apply (RenderScene_NullPointer st m l).
Qed.

Lemma RenderScene_without_shader_witness :
  (exists es, RenderScene constructed_without_shader = Ok tt (logged constructed_without_shader es)
              /\ forallb is_draw es = true) /\
  RenderScene scene_without_shader = Fault NullPointer.
Proof.
  split.
  - refine (proj1 (RenderScene_without_shader constructed_without_shader eq_refl) _).
    reflexivity.
  - refine (proj2 (RenderScene_without_shader scene_without_shader eq_refl) _).
    vm_compute. discriminate.
Defined.

(** ** LoadSceneTextures *)

Lemma LoadSceneTextures_load_all st :
  LoadSceneTextures st = (load_all SceneTextures ;; BindGLTextures) st.
Proof. unfold LoadSceneTextures. cbn [load_all SceneTextures]. same_calls. Qed.

Lemma loadable_spec w f : loadable w f = true <-> loads_as_RGB_or_RGBA w (fst f).
Proof.
  unfold loadable, loads_as_RGB_or_RGBA. destruct (files w (fst f)) as [image|].
  - rewrite orb_true_iff, !Z.eqb_eq. split.
    + intros H. exists image. now split.
    + intros (image' & E & H). now inversion E.
  - split; [discriminate | intros (image & E & _); discriminate].
Qed.

(** CreateGLTexture leaves the files and the uninitialised memory alone. *)
Lemma CreateGLTexture_world filename tag st b st' :
  CreateGLTexture filename tag st = Ok b st' ->
  files (world st') = files (world st) /\
  uninit_material (world st') = uninit_material (world st).
Proof.
  unfold CreateGLTexture. run_prims.
  destruct (files (world st) filename) as [image|] eqn:H; run_prims.
  2:{ intros E; inversion E; subst; cbn. now split. }
  destruct (img_channels image =? 3) eqn:H3; [|destruct (img_channels image =? 4) eqn:H4].
  3:{ run_prims. intros E; inversion E; subst; cbn. now split. }
  all: run_prims.
  all: destruct (in_bounds (m_textureIDs (sm st)) (m_loadedTextures (sm st))) eqn:Hb;
    [|rewrite store_texture_out by (cbn [sm]; exact Hb); discriminate].
  all: destruct (in_bounds_nth _ _ Hb) as [e He];
    pose proof (proj1 (in_bounds_spec _ _) Hb) as [H0 Hlt].
  all: rewrite (store_texture_ok _ _ _ e H0) by (cbn [sm]; exact He).
  all: unfold with_texture, set_sm; cbn [sm world log m_textureIDs m_pShaderManager
         m_loadedTextures m_objectMaterials].
  all: erewrite store_texture_ok;
    [ | exact H0
      | cbn [sm m_textureIDs]; apply nth_error_list_update_eq; lia ].
  all: unfold with_texture, set_sm; cbn [sm world log m_textureIDs m_pShaderManager
         m_loadedTextures m_objectMaterials gl_textures].
  all: intros E; inversion E; subst st'; cbn; now split.
Qed.

(** What a run of CreateGLTexture calls keeps, when it returns. *)
Lemma load_all_keeps l : forall st st',
  load_all l st = Ok tt st' ->
  m_pShaderManager (sm st') = m_pShaderManager (sm st) /\
  m_objectMaterials (sm st') = m_objectMaterials (sm st) /\
  List.length (m_textureIDs (sm st')) = List.length (m_textureIDs (sm st)).
Proof.
  induction l as [|[filename tag] l IH]; intros st st' E; cbn [load_all] in E.
  - inversion E; subst. repeat split.
  - unfold bind at 1 in E.
    destruct (CreateGLTexture_cases filename tag st)
      as [(_ & s & E' & Hs) | [(_ & _ & s & E' & Hs & _) | (_ & _ & E')]];
      rewrite E' in E; [| |discriminate].
    + destruct (IH _ _ E) as (Hp & Hm & Hl). rewrite Hp, Hm, Hl, Hs. repeat split.
    + destruct (IH _ _ E) as (Hp & Hm & Hl). rewrite Hp, Hm, Hl, Hs. cbn.
      rewrite list_update_length. repeat split.
Qed.

Lemma load_all_run l : forall st,
  0 <= m_loadedTextures (sm st) ->
  m_loadedTextures (sm st) + Z.of_nat (List.length l)
  <= Z.of_nat (List.length (m_textureIDs (sm st))) ->
  exists st',
    load_all l st = Ok tt st' /\
    m_loadedTextures (sm st')
    = m_loadedTextures (sm st) + Z.of_nat (List.length (filter (loadable (world st)) l)) /\
    map tag (loaded_textures (sm st'))
    = map tag (loaded_textures (sm st)) ++ map snd (filter (loadable (world st)) l).
Proof.
  induction l as [|[filename tag] l IH]; intros st H0 Hroom; cbn [load_all].
  - exists st. cbn. rewrite app_nil_r, Z.add_0_r. repeat split.
  - cbn [List.length] in Hroom. unfold bind at 1.
    destruct (CreateGLTexture_cases filename tag st)
      as [(Hno & s & E' & Hs) | [(Hyes & Hb & s & E' & Hs & _) | (_ & Hb & _)]].
    + destruct (CreateGLTexture_world _ _ _ _ _ E') as [Hf _].
      rewrite E'. destruct (IH s) as (st' & E & Hc & Ht); [rewrite Hs; lia | rewrite Hs; lia |].
      exists st'. split; [exact E|].
      assert (Hl : loadable (world st) (filename, tag) = false).
      { destruct (loadable (world st) (filename, tag)) eqn:El; [|reflexivity].
        apply loadable_spec in El. contradiction. }
      assert (Hsame : filter (loadable (world s)) l = filter (loadable (world st)) l).
      { apply filter_ext. intros f. unfold loadable. now rewrite Hf. }
      cbn [filter]. rewrite Hl. rewrite Hc, Ht, Hsame, Hs. split; reflexivity.
    + destruct (CreateGLTexture_world _ _ _ _ _ E') as [Hf _].
      apply in_bounds_spec in Hb.
      rewrite E'. destruct (IH s) as (st' & E & Hc & Ht).
      { rewrite Hs. cbn. lia. }
      { rewrite Hs. cbn. rewrite list_update_length. lia. }
      exists st'. split; [exact E|].
      assert (Hl : loadable (world st) (filename, tag) = true)
        by (apply loadable_spec; exact Hyes).
      assert (Hsame : filter (loadable (world s)) l = filter (loadable (world st)) l).
      { apply filter_ext. intros f. unfold loadable. now rewrite Hf. }
      cbn [filter]. rewrite Hl. cbn [List.length map snd].
      rewrite Hc, Ht, Hsame. split.
      * rewrite Hs. cbn [m_loadedTextures]. lia.
      * unfold loaded_textures at 1. rewrite Hs. cbn [m_loadedTextures m_textureIDs].
        replace (Z.to_nat (m_loadedTextures (sm st) + 1))
          with (S (Z.to_nat (m_loadedTextures (sm st)))) by lia.
        rewrite firstn_list_update_last by lia.
        fold (loaded_textures (sm st)).
        rewrite map_app, <- app_assoc. reflexivity.
    + exfalso. assert (Hin : in_bounds (m_textureIDs (sm st)) (m_loadedTextures (sm st)) = true)
        by (apply in_bounds_spec; lia).
      congruence.
Qed.

Lemma filter_length_le {A} (f : A -> bool) l : (List.length (filter f l) <= List.length l)%nat.
Proof. induction l as [|x l IH]; cbn; [lia|]. destruct (f x); cbn; lia. Qed.

(** X17: LoadSceneTextures skips what it cannot load and numbers the rest
    consecutively.  From a state with room for thirteen more textures it
    returns whatever the files are; the count grows by the number of the
    thirteen files that are images of 3 or 4 channels, and the tags of the
    loaded textures are those before followed by the tags of exactly these
    files, in the order of the calls: so the slot of a scene texture is the
    number of files before it that loaded, not its place in the list. *)
Theorem LoadSceneTextures_appends_what_loads st :
  0 <= m_loadedTextures (sm st) ->
  m_loadedTextures (sm st) + 13 <= Z.of_nat (List.length (m_textureIDs (sm st))) ->
  exists st',
    LoadSceneTextures st = Ok tt st' /\
    m_loadedTextures (sm st')
    = m_loadedTextures (sm st)
      + Z.of_nat (List.length (filter (loadable (world st)) SceneTextures)) /\
    map tag (loaded_textures (sm st'))
    = map tag (loaded_textures (sm st))
      ++ map snd (filter (loadable (world st)) SceneTextures) /\
    registry_fits (sm st').
Proof.
  intros H0 Hroom. rewrite LoadSceneTextures_load_all.
  destruct (load_all_run SceneTextures st H0) as (s & E & Hc & Ht).
  { cbn [SceneTextures List.length]. lia. }
  destruct (load_all_keeps _ _ _ E) as (_ & _ & Hlen).
  pose proof (filter_length_le (loadable (world st)) SceneTextures) as Hle.
  cbn [SceneTextures List.length] in Hle. fold SceneTextures in Hle.
  assert (Hfit : registry_fits (sm s)).
  { unfold registry_fits. rewrite Hc, Hlen. lia. }
  unfold bind at 1. rewrite E.
  exists (logged s (bound_units (loaded_textures (sm s)) 0)). split.
  - unfold BindGLTextures, bind at 1, gets, loaded_textures.
    unfold registry_fits in Hfit. rewrite BindGLTextures_loop by lia. reflexivity.
  - cbn [logged sm]. repeat split; assumption.
Qed.

Lemma LoadSceneTextures_appends_what_loads_witness :
  exists st',
    LoadSceneTextures constructed_with_two_files = Ok tt st' /\
    m_loadedTextures (sm st') = 2 /\
    map tag (loaded_textures (sm st')) = ["wall"; "BookBack"]%string.
Proof.
  destruct (LoadSceneTextures_appends_what_loads constructed_with_two_files)
    as (st' & E & Hc & Ht & _).
  - vm_compute. discriminate.
  - vm_compute. discriminate.
  - exists st'. split; [exact E|]. split; [exact Hc | exact Ht].
Defined.

(** ** PrepareScene *)

Lemma BindGLTextures_returned st st' :
  BindGLTextures st = Ok tt st' ->
  registry_fits (sm st) /\ st' = logged st (bound_units (loaded_textures (sm st)) 0).
Proof.
  intros E.
  destruct (Z_le_gt_dec (m_loadedTextures (sm st)) (Z.of_nat (List.length (m_textureIDs (sm st)))))
    as [Hle|Hgt].
  - split; [exact Hle|].
    revert E. unfold BindGLTextures, bind at 1, gets, loaded_textures.
    rewrite BindGLTextures_loop by lia. intros E. now inversion E.
  - exfalso. revert E. unfold BindGLTextures, bind at 1, gets.
    rewrite BindGLTextures_loop_beyond by lia. discriminate.
Qed.

Lemma PrepareScene_tail_runs :
  runs ready_to_render (fun _ => true)
    (SetupSceneLights ;; LoadPlaneMesh ;; LoadTaperedCylinderMesh ;; LoadTorusMesh ;;
     LoadBoxMesh ;; LoadCylinderMesh ;; LoadSphereMesh).
Proof.
  unfold SetupSceneLights, setBoolValue, setVec3Value, LoadPlaneMesh,
    LoadTaperedCylinderMesh, LoadTorusMesh, LoadBoxMesh, LoadCylinderMesh, LoadSphereMesh.
  repeat first [ lazymatch goal with
                 | |- runs _ _ (shader_call _) => apply runs_shader_call; reflexivity
                 end
               | runs_prim ].
Qed.

Lemma PrepareScene_returned st st' :
  PrepareScene st = Ok tt st' ->
  exists p, m_pShaderManager (sm st) = Some p /\
  m_pShaderManager (sm st') = m_pShaderManager (sm st) /\
  registry_fits (sm st') /\
  m_objectMaterials (sm st') = m_objectMaterials (sm st) ++ SceneMaterials /\
  exists s1, LoadSceneTextures st = Ok tt s1 /\
             m_textureIDs (sm st') = m_textureIDs (sm s1) /\
             m_loadedTextures (sm st') = m_loadedTextures (sm s1).
Proof.
  intros E. unfold PrepareScene in E. unfold bind at 1 in E.
  destruct (LoadSceneTextures st) as [[] s1|] eqn:E1; [|discriminate].
  pose proof E1 as E1'.
  rewrite LoadSceneTextures_load_all in E1. unfold bind at 1 in E1.
  destruct (load_all SceneTextures st) as [[] s0|] eqn:E0; [|discriminate].
  destruct (load_all_keeps _ _ _ E0) as (Hp0 & Hm0 & Hl0).
  destruct (BindGLTextures_returned _ _ E1) as [Hfit0 ->].
  unfold bind at 1 in E. rewrite DefineObjectMaterials_run in E.
  set (s2 := set_sm _ _) in E.
  assert (Hsm2 : sm s2 = mkSceneManager (m_pShaderManager (sm s0)) (m_textureIDs (sm s0))
                           (m_loadedTextures (sm s0))
                           (m_objectMaterials (sm s0) ++ SceneMaterials)) by reflexivity.
  destruct (m_pShaderManager (sm st)) as [p|] eqn:Hp.
  - assert (Hr : ready_to_render (sm s2)).
    { rewrite Hsm2. split; [cbn; rewrite Hp0; discriminate | exact Hfit0]. }
    destruct (PrepareScene_tail_runs s2 Hr) as ([] & es & Et & _).
    rewrite Et in E. inversion E; subst st'. cbn [logged sm]. rewrite Hsm2. cbn.
    exists p. rewrite Hp0, Hm0. repeat split; [exact Hfit0|].
    eexists. split; [reflexivity|]. split; reflexivity.
  - exfalso. revert E.
    rewrite (bind_fault_at _ _ s2 NullPointer); [discriminate|].
    apply SetupSceneLights_without_shader. rewrite Hsm2. cbn. exact Hp0.
Qed.

(** X18: whenever PrepareScene returns, RenderScene can follow.  A
    PrepareScene that returned was given a shader manager (with a NULL one it
    never returns), has left the loaded textures within the array, has
    appended the eight scene materials to those defined before, and
    RenderScene called on the state it leaves returns, changing nothing but
    the log. *)
Theorem PrepareScene_then_RenderScene st st' :
  PrepareScene st = Ok tt st' ->
  m_pShaderManager (sm st) <> None /\
  m_pShaderManager (sm st') = m_pShaderManager (sm st) /\
  registry_fits (sm st') /\
  m_objectMaterials (sm st') = m_objectMaterials (sm st) ++ SceneMaterials /\
  exists es, RenderScene st' = Ok tt (logged st' es).
Proof.
  intros E. destruct (PrepareScene_returned st st' E) as (p & Hp & Hp' & Hfit & Hm & _).
  split; [congruence|]. split; [exact Hp'|]. split; [exact Hfit|]. split; [exact Hm|].
  destruct (returns_RenderScene st') as ([] & es & Er & _).
  - split; [congruence | exact Hfit].
  - exists es. exact Er.
Qed.

Lemma PrepareScene_then_RenderScene_witness :
  exists es, RenderScene scene_prepared = Ok tt (logged scene_prepared es).
Proof.
  refine (proj2 (proj2 (proj2 (proj2
            (PrepareScene_then_RenderScene (constructed 16 stale_material) scene_prepared _))))).
  vm_compute. reflexivity.
Defined.

(** X19: what PrepareScene needs in order to return is a shader manager and
    room for thirteen textures; the files do not matter.  From a state with
    a count of at least 0 and at least thirteen free slots it returns when
    m_pShaderManager is not NULL, and calls through the NULL pointer (in
    SetupSceneLights, after the textures and the materials) when it is. *)
Theorem PrepareScene_needs_shader_and_room st :
  0 <= m_loadedTextures (sm st) ->
  m_loadedTextures (sm st) + 13 <= Z.of_nat (List.length (m_textureIDs (sm st))) ->
  (m_pShaderManager (sm st) <> None -> exists st', PrepareScene st = Ok tt st') /\
  (m_pShaderManager (sm st) = None -> PrepareScene st = Fault NullPointer).
Proof.
  intros H0 Hroom.
  assert (Hload : exists s1, LoadSceneTextures st = Ok tt s1 /\
                             m_pShaderManager (sm s1) = m_pShaderManager (sm st) /\
                             registry_fits (sm s1)).
  { rewrite LoadSceneTextures_load_all.
    destruct (load_all_run SceneTextures st H0) as (s & E & Hc & _).
    { cbn [SceneTextures List.length]. lia. }
    destruct (load_all_keeps _ _ _ E) as (Hp & _ & Hlen).
    pose proof (filter_length_le (loadable (world st)) SceneTextures) as Hle.
    cbn [SceneTextures List.length] in Hle. fold SceneTextures in Hle.
    assert (Hfit : registry_fits (sm s)) by (unfold registry_fits; rewrite Hc, Hlen; lia).
    exists (logged s (bound_units (loaded_textures (sm s)) 0)).
    unfold bind at 1. rewrite E. split; [|split; [exact Hp | exact Hfit]].
    unfold BindGLTextures, bind at 1, gets, loaded_textures.
    unfold registry_fits in Hfit. rewrite BindGLTextures_loop by lia. reflexivity. }
  destruct Hload as (s1 & E1 & Hp1 & Hfit1).
  set (s2 := set_sm (mkSceneManager (m_pShaderManager (sm s1)) (m_textureIDs (sm s1))
                       (m_loadedTextures (sm s1))
                       (m_objectMaterials (sm s1) ++ SceneMaterials)) s1).
  assert (Hsm2 : sm s2 = mkSceneManager (m_pShaderManager (sm s1)) (m_textureIDs (sm s1))
                           (m_loadedTextures (sm s1))
                           (m_objectMaterials (sm s1) ++ SceneMaterials)) by reflexivity.
  assert (Hstart : forall k : M unit,
            (LoadSceneTextures ;; DefineObjectMaterials ;; k) st = k s2).
  { intros k. unfold bind at 1. rewrite E1.
    unfold bind at 1. rewrite DefineObjectMaterials_run. reflexivity. }
  unfold PrepareScene. rewrite Hstart.
  split.
  - intros Hp.
    assert (Hr : ready_to_render (sm s2)).
    { rewrite Hsm2. split; [cbn; rewrite Hp1; exact Hp | exact Hfit1]. }
    destruct (PrepareScene_tail_runs s2 Hr) as ([] & es & Et & _).
    rewrite Et. eauto.
  - intros Hp. apply bind_fault_at.
    apply SetupSceneLights_without_shader. rewrite Hsm2. cbn. congruence.
Qed.

Lemma PrepareScene_needs_shader_and_room_witness :
  (exists st', PrepareScene constructed_with_two_files = Ok tt st') /\
  PrepareScene constructed_without_shader = Fault NullPointer.
Proof.
  split.
  - refine (proj1 (PrepareScene_needs_shader_and_room constructed_with_two_files _ _) _).
    + vm_compute. discriminate.
    + vm_compute. discriminate.
    + discriminate.
  - refine (proj2 (PrepareScene_needs_shader_and_room constructed_without_shader _ _) _).
    + vm_compute. discriminate.
    + vm_compute. discriminate.
    + reflexivity.
Defined.

(** ** The texture tags of the scene *)

Lemma all_loadable_filter w (l : list (string * string)) :
  (forall f, In f l -> loadable w f = true) -> filter (loadable w) l = l.
Proof.
  induction l as [|x l IH]; intros H; cbn; [reflexivity|].
  rewrite (H x) by now left. f_equal. apply IH. intros f Hf. apply H. now right.
Qed.

Lemma sampler_below_uniform n e :
  is_uniform e = true -> is_sampler e = false -> sampler_below n e = true.
Proof. destruct e; cbn; intros; try reflexivity; discriminate. Qed.

Lemma sampler_below_draw n e : is_draw e = true -> sampler_below n e = true.
Proof. destruct e; cbn; intros; try reflexivity; discriminate. Qed.

Lemma scene_tag_used t :
  In t scene_texture_tags -> existsb (String.eqb t) scene_texture_tags = true.
Proof. intros H. apply existsb_exists. exists t. split; [exact H | apply String.eqb_refl]. Qed.

Lemma SetShaderTexture_loaded n t :
  existsb (String.eqb t) scene_texture_tags = true ->
  runs (scene_textures_ready n) (sampler_below n) (SetShaderTexture t).
Proof.
  intros Hu st ([Hp Hfit] & Hn & Hloaded).
  destruct (m_pShaderManager (sm st)) as [p|] eqn:E; [|congruence].
  exists tt. eexists. split; [apply (SetShaderTexture_run t st p E Hfit)|].
  apply existsb_exists in Hu. destruct Hu as (t' & Hin & Heq).
  apply String.eqb_eq in Heq. subst t'.
  destruct (Hloaded t Hin) as (i & e & He & Ht).
  destruct (lookup_texture t (loaded_textures (sm st)) 0) as [[k e']|] eqn:El.
  - destruct (lookup_texture_range _ _ _ _ _ El) as (Hr & _).
    assert (Hlen : List.length (loaded_textures (sm st)) = 0%nat \/
                   Z.of_nat (List.length (loaded_textures (sm st))) <= m_loadedTextures (sm st)).
    { unfold loaded_textures. rewrite length_firstn. lia. }
    cbn. rewrite andb_true_r. apply andb_true_intro.
    split; [apply Z.leb_le | apply Z.ltb_lt]; lia.
  - exfalso. apply (proj1 (lookup_texture_none _ _ _) El e); [|exact Ht].
    apply loaded_textures_In; [exact Hfit | eauto].
Qed.

Lemma samplers_RenderScene n :
  runs (scene_textures_ready n) (sampler_below n) RenderScene.
Proof.
  eapply runs_RenderScene;
    first [ exact (sampler_below_uniform n) | exact (sampler_below_draw n)
          | exact (SetShaderTexture_loaded n) | exact scene_tag_used
          | exact (fun s (H : scene_textures_ready n s) => proj1 H) ].
Qed.

Lemma sampler_below_In n es name slot :
  forallb (sampler_below n) es = true -> In (Ev_setSampler2DValue name slot) es ->
  0 <= slot < n.
Proof.
  intros H Hin. rewrite forallb_forall in H. specialize (H _ Hin). cbn in H.
  apply andb_prop in H. destruct H as [H1 H2].
  apply Z.leb_le in H1. apply Z.ltb_lt in H2. lia.
Qed.

(** X20: every texture tag the rendering code uses is a tag LoadSceneTextures
    gives.  With a shader manager, a registry that fits its array and, for
    each of the thirteen tags of LoadSceneTextures, a loaded texture carrying
    it, RenderScene returns and every sampler it sets is the slot of a loaded
    texture: it is never set to -1. *)
Theorem RenderScene_samplers_are_loaded_slots st :
  m_pShaderManager (sm st) <> None -> registry_fits (sm st) ->
  tags_loaded scene_texture_tags (sm st) ->
  exists es,
    RenderScene st = Ok tt (logged st es) /\
    forall name slot, In (Ev_setSampler2DValue name slot) es ->
                      0 <= slot < m_loadedTextures (sm st).
Proof.
  intros Hp Hfit Hl.
  destruct (samplers_RenderScene (m_loadedTextures (sm st)) st) as ([] & es & E & H).
  { split; [split; assumption | split; [reflexivity | exact Hl]]. }
  exists es. split; [exact E|]. intros name slot Hin.
  exact (sampler_below_In _ _ _ _ H Hin).
Qed.

Lemma tags_loaded_from_map tags s :
  registry_fits s -> (forall t, In t tags -> In t (map tag (loaded_textures s))) ->
  tags_loaded tags s.
Proof.
  intros Hfit H t Ht. specialize (H t Ht). apply in_map_iff in H.
  destruct H as (e & He & Hin). apply (loaded_textures_In _ _ Hfit) in Hin.
  destruct Hin as [i Hi]. eauto.
Qed.

Lemma scene_prepared_tags_loaded : tags_loaded scene_texture_tags (sm scene_prepared).
Proof.
  apply tags_loaded_from_map; [vm_compute; discriminate|].
  intros t Ht. vm_compute in Ht |- *. tauto.
Qed.

Lemma RenderScene_samplers_are_loaded_slots_witness :
  exists es,
    RenderScene scene_prepared = Ok tt (logged scene_prepared es) /\
    forall name slot, In (Ev_setSampler2DValue name slot) es -> 0 <= slot < 13.
Proof.
  refine (RenderScene_samplers_are_loaded_slots scene_prepared _ _ _).
  - discriminate.
  - vm_compute. discriminate.
  - exact scene_prepared_tags_loaded.
Defined.

Lemma LoadSceneTextures_all_loaded st :
  0 <= m_loadedTextures (sm st) ->
  m_loadedTextures (sm st) + 13 <= Z.of_nat (List.length (m_textureIDs (sm st))) ->
  (forall f, In f SceneTextures -> loadable (world st) f = true) ->
  exists s s1,
    load_all SceneTextures st = Ok tt s /\
    LoadSceneTextures st = Ok tt s1 /\
    s1 = logged s (bound_units (loaded_textures (sm s)) 0) /\
    m_loadedTextures (sm s1) = m_loadedTextures (sm st) + 13 /\
    map tag (loaded_textures (sm s1))
    = map tag (loaded_textures (sm st)) ++ scene_texture_tags /\
    registry_fits (sm s1).
Proof.
  intros H0 Hroom Hfiles.
  destruct (load_all_run SceneTextures st H0) as (s & E & Hc & Ht).
  { cbn [SceneTextures List.length]. lia. }
  rewrite (all_loadable_filter _ _ Hfiles) in Hc, Ht.
  destruct (load_all_keeps _ _ _ E) as (_ & _ & Hlen).
  assert (Hfit : registry_fits (sm s)).
  { unfold registry_fits. rewrite Hc, Hlen. cbn [SceneTextures List.length]. lia. }
  exists s, (logged s (bound_units (loaded_textures (sm s)) 0)).
  split; [exact E|]. split.
  - rewrite LoadSceneTextures_load_all. unfold bind at 1. rewrite E.
    unfold BindGLTextures, bind at 1, gets, loaded_textures.
    unfold registry_fits in Hfit. rewrite BindGLTextures_loop by lia. reflexivity.
  - split; [reflexivity|]. cbn [logged sm]. split; [exact Hc|]. split; [exact Ht | exact Hfit].
Qed.

(** X21: PrepareScene and RenderScene fit together when the files are there.
    From a state with a shader manager and room for thirteen textures, in a
    world where each of the thirteen texture files is an image of 3 or 4
    channels, PrepareScene returns and the RenderScene that follows returns
    and sets every sampler to the slot of a loaded texture. *)
Theorem PrepareScene_loads_what_RenderScene_uses st :
  m_pShaderManager (sm st) <> None ->
  0 <= m_loadedTextures (sm st) ->
  m_loadedTextures (sm st) + 13 <= Z.of_nat (List.length (m_textureIDs (sm st))) ->
  (forall f, In f SceneTextures -> loadable (world st) f = true) ->
  exists st' es,
    PrepareScene st = Ok tt st' /\
    m_loadedTextures (sm st') = m_loadedTextures (sm st) + 13 /\
    RenderScene st' = Ok tt (logged st' es) /\
    forall name slot, In (Ev_setSampler2DValue name slot) es ->
                      0 <= slot < m_loadedTextures (sm st').
Proof.
  intros Hp H0 Hroom Hfiles.
  destruct (LoadSceneTextures_all_loaded st H0 Hroom Hfiles)
    as (s & s1 & E0 & E1 & Hs1 & Hc1 & Ht1 & Hfit1).
  assert (Hprep : exists st', PrepareScene st = Ok tt st').
  { destruct (load_all_keeps _ _ _ E0) as (Hps & _ & _).
    unfold PrepareScene. unfold bind at 1. rewrite E1.
    unfold bind at 1. rewrite DefineObjectMaterials_run.
    match goal with |- exists st', bind _ _ ?s2 = _ =>
      destruct (PrepareScene_tail_runs s2) as ([] & es & Et & _) end.
    { split; [cbn; rewrite Hs1; cbn; rewrite Hps; exact Hp | exact Hfit1]. }
    rewrite Et. eauto. }
  destruct Hprep as (st' & E).
  destruct (PrepareScene_returned st st' E) as (p & Hp1 & Hp' & Hfit & _ & s1' & E1' & Ha & Hc).
  assert (s1' = s1) by congruence. subst s1'.
  assert (Hloaded : loaded_textures (sm st') = loaded_textures (sm s1)).
  { unfold loaded_textures. now rewrite Ha, Hc. }
  destruct (samplers_RenderScene (m_loadedTextures (sm st')) st') as ([] & es & Er & H).
  { split; [split; [congruence | exact Hfit]|]. split; [reflexivity|].
    apply tags_loaded_from_map; [exact Hfit|].
    intros t Ht. rewrite Hloaded, Ht1. apply in_or_app. now right. }
  exists st', es. split; [exact E|]. split.
  - rewrite Hc, Hc1. reflexivity.
  - split; [exact Er|]. intros name slot Hin. exact (sampler_below_In _ _ _ _ H Hin).
Qed.

Lemma PrepareScene_loads_what_RenderScene_uses_witness :
  exists st' es,
    PrepareScene (constructed 16 stale_material) = Ok tt st' /\
    m_loadedTextures (sm st') = 13 /\
    RenderScene st' = Ok tt (logged st' es) /\
    forall name slot, In (Ev_setSampler2DValue name slot) es ->
                      0 <= slot < m_loadedTextures (sm st').
Proof.
  refine (PrepareScene_loads_what_RenderScene_uses (constructed 16 stale_material) _ _ _ _).
  - discriminate.
  - vm_compute. discriminate.
  - vm_compute. discriminate.
  - intros f Hf. vm_compute in Hf.
    repeat (destruct Hf as [<-|Hf]; [reflexivity|]). destruct Hf.
Defined.

(** ** The OpenGL names in the registry *)

(** The texture names in use only grow in CreateGLTexture. *)
Lemma CreateGLTexture_names filename tag st b st' :
  CreateGLTexture filename tag st = Ok b st' ->
  incl (gl_textures (world st)) (gl_textures (world st')).
Proof.
  unfold CreateGLTexture. run_prims.
  destruct (files (world st) filename) as [image|] eqn:H; run_prims.
  2:{ intros E; inversion E; subst; cbn. apply incl_refl. }
  destruct (img_channels image =? 3) eqn:H3; [|destruct (img_channels image =? 4) eqn:H4].
  3:{ run_prims. intros E; inversion E; subst; cbn. apply incl_tl, incl_refl. }
  all: run_prims.
  all: destruct (in_bounds (m_textureIDs (sm st)) (m_loadedTextures (sm st))) eqn:Hb;
    [|rewrite store_texture_out by (cbn [sm]; exact Hb); discriminate].
  all: destruct (in_bounds_nth _ _ Hb) as [e He];
    pose proof (proj1 (in_bounds_spec _ _) Hb) as [H0 Hlt].
  all: rewrite (store_texture_ok _ _ _ e H0) by (cbn [sm]; exact He).
  all: unfold with_texture, set_sm; cbn [sm world log m_textureIDs m_pShaderManager
         m_loadedTextures m_objectMaterials].
  all: erewrite store_texture_ok;
    [ | exact H0
      | cbn [sm m_textureIDs]; apply nth_error_list_update_eq; lia ].
  all: unfold with_texture, set_sm; cbn [sm world log m_textureIDs m_pShaderManager
         m_loadedTextures m_objectMaterials gl_textures].
  all: intros E; inversion E; subst st'; cbn; apply incl_tl, incl_refl.
Qed.

Lemma CreateGLTexture_keeps_names_distinct filename tag st b st' :
  names_distinct_in_use st ->
  CreateGLTexture filename tag st = Ok b st' ->
  names_distinct_in_use st'.
Proof.
  intros [Hnd Hin] E. pose proof (CreateGLTexture_names _ _ _ _ _ E) as Hincl.
  destruct (CreateGLTexture_cases filename tag st)
    as [(_ & s & E' & Hs) | [(_ & Hb & s & E' & Hs & Hg) | (_ & _ & E')]]; [| |congruence].
  - assert (s = st') by congruence. subst s. unfold names_distinct_in_use.
    rewrite Hs. split; [exact Hnd|]. intros e He. apply Hincl. now apply Hin.
  - assert (s = st') by congruence. subst s. apply in_bounds_spec in Hb.
    assert (Hloaded : loaded_textures (sm st')
                      = loaded_textures (sm st)
                        ++ [mkTEXTURE_INFO (fresh_name (gl_textures (world st))) tag]).
    { unfold loaded_textures. rewrite Hs. cbn [m_loadedTextures m_textureIDs].
      replace (Z.to_nat (m_loadedTextures (sm st) + 1))
        with (S (Z.to_nat (m_loadedTextures (sm st)))) by lia.
      apply firstn_list_update_last. lia. }
    unfold names_distinct_in_use. rewrite Hloaded, map_app. cbn [map ID]. split.
    + apply NoDup_app; [exact Hnd | repeat constructor; intros [] |].
      intros x Hx [<-|[]]. apply in_map_iff in Hx. destruct Hx as (e & He & Hine).
      apply (fresh_name_fresh (gl_textures (world st))). rewrite <- He. now apply Hin.
    + intros e He. apply in_app_or in He. destruct He as [He | [<-|[]]].
      * apply Hincl. now apply Hin.
      * rewrite Hg. now left.
Qed.

Lemma In_firstn_skipn {A} (l : list A) n k x :
  In x (firstn n (skipn k l)) ->
  exists j, (k <= j < k + n)%nat /\ nth_error l j = Some x.
Proof.
  intros H. apply In_nth_error in H. destruct H as [j Hj].
  assert (Hlt : (j < n)%nat).
  { assert (Hs : nth_error (firstn n (skipn k l)) j <> None) by congruence.
    apply nth_error_Some in Hs. rewrite length_firstn in Hs. lia. }
  rewrite nth_error_firstn in Hj.
  destruct (Nat.ltb_spec j n) as [_|Hge]; [|lia].
  rewrite nth_error_skipn in Hj. exists (k + j)%nat. split; [lia | exact Hj].
Qed.

Lemma DestroyGLTextures_loop_distinct n : forall i st st',
  0 <= i -> i + Z.of_nat n <= Z.of_nat (List.length (m_textureIDs (sm st))) ->
  for_int n i (fun i => _ <- texture_at i ;; name <- glGenTextures ;;
                        store_texture i (set_ID name)) st = Ok tt st' ->
  NoDup (map ID (firstn n (skipn (Z.to_nat i) (m_textureIDs (sm st'))))).
Proof.
  induction n as [|n IH]; intros i st st' Hi Hlen E; [constructor|].
  assert (Hb : in_bounds (m_textureIDs (sm st)) i = true) by (apply in_bounds_spec; lia).
  destruct (in_bounds_nth _ _ Hb) as [e He].
  revert E. cbn [for_int]. unfold bind at 1. unfold bind at 1.
  rewrite (texture_at_ok _ _ _ Hi He).
  unfold bind at 1. unfold glGenTextures at 1. run_prims.
  set (name := fresh_name (gl_textures (world st))).
  rewrite (store_texture_ok _ _ _ e Hi) by (cbn [sm]; exact He).
  set (st1 := with_texture _ i _). intros E.
  assert (Hlen1 : List.length (m_textureIDs (sm st1)) = List.length (m_textureIDs (sm st)))
    by (subst st1; cbn; apply list_update_length).
  destruct (DestroyGLTextures_loop n (i + 1) st1)
    as (st'' & E'' & _ & _ & _ & _ & Hout & Hin & _); [lia | rewrite Hlen1; lia |].
  assert (Heq : Ok tt st'' = Ok tt st') by exact (eq_trans (eq_sym E'') E).
  inversion Heq. subst st''.
  assert (Hi' : nth_error (m_textureIDs (sm st')) (Z.to_nat i) = Some (set_ID name e)).
  { rewrite Hout by lia. unfold st1; cbn. apply nth_error_list_update_eq.
    apply nth_error_Some. congruence. }
  rewrite (skipn_cons_nth _ _ _ Hi'). cbn [firstn map ID set_ID].
  replace (S (Z.to_nat i)) with (Z.to_nat (i + 1)) by lia.
  constructor.
  - intros Hx. apply in_map_iff in Hx. destruct Hx as (e' & He' & Hine).
    apply In_firstn_skipn in Hine. destruct Hine as (j & Hj & Hnth).
    destruct (Hin j e') as [Hfresh _]; [lia | exact Hnth |].
    apply Hfresh. rewrite He'. unfold st1; cbn. now left.
  - apply (IH (i + 1) st1 st'); [lia | rewrite Hlen1; lia | exact E].
Qed.

Lemma load_all_keeps_names_distinct l : forall st st',
  names_distinct_in_use st -> load_all l st = Ok tt st' -> names_distinct_in_use st'.
Proof.
  induction l as [|[filename tag] l IH]; intros st st' Hinv E; cbn [load_all] in E.
  - now inversion E; subst.
  - unfold bind at 1 in E.
    destruct (CreateGLTexture filename tag st) as [b s|] eqn:E1; [|discriminate].
    apply (IH s st'); [|exact E].
    exact (CreateGLTexture_keeps_names_distinct _ _ _ _ _ Hinv E1).
Qed.

(** X22: no two loaded textures share an OpenGL name.  If the IDs of the
    loaded textures are pairwise distinct names in use, they still are when
    CreateGLTexture returns (true or false) and when LoadSceneTextures
    returns; and when DestroyGLTextures returns on a registry that fits its
    array they are so even if they were not before. *)
Theorem texture_names_stay_distinct st :
  (forall filename tag b st',
     names_distinct_in_use st -> CreateGLTexture filename tag st = Ok b st' ->
     names_distinct_in_use st') /\
  (forall st',
     names_distinct_in_use st -> LoadSceneTextures st = Ok tt st' ->
     names_distinct_in_use st') /\
  (forall st',
     registry_fits (sm st) -> DestroyGLTextures st = Ok tt st' ->
     names_distinct_in_use st').
Proof.
  split; [|split].
  - intros filename tag b st' Hinv E.
    exact (CreateGLTexture_keeps_names_distinct _ _ _ _ _ Hinv E).
  - intros st' Hinv E. rewrite LoadSceneTextures_load_all in E. unfold bind at 1 in E.
    destruct (load_all SceneTextures st) as [[] s|] eqn:E0; [|discriminate].
    destruct (BindGLTextures_returned _ _ E) as [_ ->].
    exact (load_all_keeps_names_distinct _ _ _ Hinv E0).
  - intros st' Hfit E. unfold registry_fits in Hfit.
    revert E. unfold DestroyGLTextures, bind at 1, gets. intros E.
    destruct (DestroyGLTextures_loop (Z.to_nat (m_loadedTextures (sm st))) 0 st)
      as (st'' & E'' & Hc & _ & _ & _ & _ & Hin & _); [lia | lia |].
    assert (st'' = st') by congruence. subst st''.
    split.
    + unfold loaded_textures. rewrite Hc.
      apply (DestroyGLTextures_loop_distinct _ 0 st st'); [lia | lia | exact E].
    + intros e He. unfold loaded_textures in He. rewrite Hc in He.
      apply (In_firstn_skipn _ _ 0) in He. destruct He as (j & Hj & Hnth).
      apply (Hin j e); [lia | exact Hnth].
Qed.

Lemma texture_names_stay_distinct_witness :
  names_distinct_in_use textures_loaded.
Proof.
  refine (proj1 (proj2 (texture_names_stay_distinct (constructed 16 blank_material)))
            textures_loaded _ _).
  - split; [constructor | intros e []].
  - vm_compute. reflexivity.
Defined.

(** ** The draw calls do not depend on the state *)

Lemma draws_ret {A} (a : A) : draws_exactly [] (ret a).
Proof. intros st a' st' E. inversion E; subst. exists []. now rewrite app_nil_r. Qed.

Lemma draws_bind {A B} ds1 ds2 (m : M A) (k : A -> M B) :
  draws_exactly ds1 m -> (forall a, draws_exactly ds2 (k a)) ->
  draws_exactly (ds1 ++ ds2) (bind m k).
Proof.
  intros Hm Hk st b st' E. unfold bind in E.
  destruct (m st) as [a s|] eqn:Em; [|discriminate].
  destruct (Hm _ _ _ Em) as (es1 & L1 & D1). destruct (Hk a _ _ _ E) as (es2 & L2 & D2).
  exists (es1 ++ es2). rewrite L2, L1, <- app_assoc. split; [reflexivity|].
  rewrite filter_app. now rewrite D1, D2.
Qed.

Lemma draws_emit e : is_draw e = true -> draws_exactly [e] (emit e).
Proof.
  intros H st a st' E. inversion E; subst. exists [e]. cbn. now rewrite H.
Qed.

Lemma draws_none {A} (m : M A) : steps no_mesh_call m -> draws_exactly [] m.
Proof.
  intros H st a st' E. destruct (H st a st' E) as (_ & es & L & Hok).
  exists es. split; [exact L|]. apply filter_none.
  revert Hok. apply forallb_impl. intros e He. unfold no_mesh_call in He.
  now apply andb_prop in He.
Qed.

Lemma draws_same {A} ds (m m' : M A) :
  (forall st, m' st = m st) -> draws_exactly ds m -> draws_exactly ds m'.
Proof. intros Heq H st a st' E. rewrite Heq in E. exact (H st a st' E). Qed.

Lemma draws_draw_all ps :
  Forall (fun p => is_draw (placed_mesh p) = true) ps ->
  draws_exactly (map placed_mesh ps) (draw_all ps).
Proof.
  induction 1 as [|p ps Hp _ IH]; cbn [draw_all map]; [apply draws_ret|].
  change (placed_mesh p :: map placed_mesh ps)
    with (([] ++ [] ++ [] ++ [] ++ [placed_mesh p]) ++ map placed_mesh ps).
  apply draws_bind; [|intros _; exact IH].
  unfold draw_part.
  apply draws_bind; [apply draws_none, steps_SetTransformations | intros _].
  apply draws_bind; [apply draws_none, steps_SetTextureUVScale | intros _].
  apply draws_bind; [|intros _].
  { destruct (placed_surface p); cbn [set_surface]; apply draws_none;
      [apply steps_SetShaderTexture | apply steps_SetShaderColor]. }
  apply draws_bind; [apply draws_none, steps_SetShaderMaterial | intros _].
  now apply draws_emit.
Qed.

Lemma placed_meshes (f : part -> placed) (parts : list part) :
  (forall p, placed_mesh (f p) = part_mesh p) ->
  map placed_mesh (map f parts) = map part_mesh parts.
Proof. intros H. rewrite map_map. now apply map_ext. Qed.

Lemma parts_are_drawn (f : part -> placed) (parts : list part) :
  (forall p, placed_mesh (f p) = part_mesh p) ->
  forallb (fun p => is_draw (part_mesh p)) parts = true ->
  draws_exactly (map part_mesh parts) (draw_all (map f parts)).
Proof.
  intros Hf Hd. rewrite <- (placed_meshes f parts Hf). apply draws_draw_all.
  apply Forall_forall. intros q Hq. apply in_map_iff in Hq. destruct Hq as (p & <- & Hp).
  rewrite Hf. rewrite forallb_forall in Hd. now apply Hd.
Qed.

Lemma draws_LoadLamp x y z : draws_exactly (map part_mesh LampParts) (LoadLamp x y z).
Proof.
  apply (draws_same _ _ _ (LoadLamp_draws x y z)).
  apply parts_are_drawn; reflexivity.
Qed.

Lemma draws_LoadMonitor x y z :
  draws_exactly (map part_mesh MonitorParts) (LoadMonitor x y z).
Proof.
  apply (draws_same _ _ _ (LoadMonitor_draws x y z)).
  apply parts_are_drawn; reflexivity.
Qed.

Lemma draws_LoadMouse x y z : draws_exactly (map part_mesh MouseParts) (LoadMouse x y z).
Proof.
  apply (draws_same _ _ _ (LoadMouse_draws x y z)).
  apply parts_are_drawn; reflexivity.
Qed.

Lemma draws_LoadPhone x y z : draws_exactly (map part_mesh PhoneParts) (LoadPhone x y z).
Proof.
  apply (draws_same _ _ _ (LoadPhone_draws x y z)).
  apply parts_are_drawn; reflexivity.
Qed.

Lemma draws_LoadBook x y z xr yr zr :
  draws_exactly (map part_mesh BookParts) (LoadBook x y z xr yr zr).
Proof.
  apply (draws_same _ _ _ (LoadBook_draws x y z xr yr zr)).
  apply parts_are_drawn; reflexivity.
Qed.

Lemma draws_GenerateKeyCap x y z :
  draws_exactly [Ev_DrawBoxMesh] (GenerateKeyCap x y z).
Proof.
  apply (draws_same _ _ _ (GenerateKeyCap_draws x y z)).
  apply (parts_are_drawn (place x y z) [KeyCapPart]); reflexivity.
Qed.

Lemma draws_LoadKeyboard x y z :
  draws_exactly (repeat Ev_DrawBoxMesh 59) (LoadKeyboard x y z).
Proof.
  apply (draws_same _ _ _ (LoadKeyboard_draws x y z)).
  assert (E : map placed_mesh (KeyboardDrawn x y z) = repeat Ev_DrawBoxMesh 59).
  { unfold KeyboardDrawn. cbn [map]. rewrite map_app, map_map. cbn [map].
    change (placed_mesh (place x y z KeyboardCasePart)) with Ev_DrawBoxMesh.
    change (placed_mesh (place x y z KeyboardFrontPart)) with Ev_DrawBoxMesh.
    rewrite (map_ext _ (fun _ => Ev_DrawBoxMesh)) by reflexivity.
    assert (Hn : forall {A} (l : list A), map (fun _ => Ev_DrawBoxMesh) l
                                              = repeat Ev_DrawBoxMesh (List.length l)).
    { intros A l. induction l; cbn; congruence. }
    rewrite Hn.
    assert (Hlen : List.length KeySpacing = 57%nat) by (vm_compute; reflexivity).
    rewrite Hlen. reflexivity. }
  rewrite <- E. apply draws_draw_all.
  apply Forall_forall. intros q Hq. apply (in_map placed_mesh) in Hq. rewrite E in Hq.
  apply repeat_spec in Hq. now rewrite Hq.
Qed.

Lemma draws_for_loop {S : Type} d n : forall (body : S -> M S) s,
  (forall s, draws_exactly d (body s)) ->
  draws_exactly (List.concat (repeat d n)) (for_loop n body s).
Proof.
  induction n as [|n IH]; intros body s Hb; cbn [for_loop repeat List.concat]; [apply draws_ret|].
  apply draws_bind; [apply Hb|]. intros s'. now apply IH.
Qed.

Ltac draws_step :=
  lazymatch goal with
  | |- draws_exactly _ (bind _ _) => eapply draws_bind; [|intros ?]
  | |- draws_exactly _ (emit _) => apply draws_emit; reflexivity
  | |- draws_exactly _ (ret _) => apply draws_ret
  | |- draws_exactly _ (for_loop _ _ _) => eapply draws_for_loop; intros ?
  | |- draws_exactly _ (SetTransformations _ _ _ _ _) =>
      apply draws_none, steps_SetTransformations
  | |- draws_exactly _ (SetShaderColor _ _ _ _) => apply draws_none, steps_SetShaderColor
  | |- draws_exactly _ (SetShaderTexture _) => apply draws_none, steps_SetShaderTexture
  | |- draws_exactly _ (SetTextureUVScale _ _) => apply draws_none, steps_SetTextureUVScale
  | |- draws_exactly _ (SetShaderMaterial _) => apply draws_none, steps_SetShaderMaterial
  | |- draws_exactly _ (LoadLamp _ _ _) => apply draws_LoadLamp
  | |- draws_exactly _ (LoadMonitor _ _ _) => apply draws_LoadMonitor
  | |- draws_exactly _ (LoadKeyboard _ _ _) => apply draws_LoadKeyboard
  | |- draws_exactly _ (LoadMouse _ _ _) => apply draws_LoadMouse
  | |- draws_exactly _ (LoadPhone _ _ _) => apply draws_LoadPhone
  | |- draws_exactly _ (LoadBook _ _ _ _ _ _) => apply draws_LoadBook
  end.

Lemma RenderScene_draws : exists ds, draws_exactly ds RenderScene.
Proof.
  eexists. unfold RenderScene. runs_draws; cbv zeta.
  repeat draws_step.
Qed.

Lemma RenderScene_prepared : RenderScene scene_prepared = Ok tt scene_rendered.
Proof. vm_compute. reflexivity. Qed.

Lemma skipn_length_app {A} (l1 l2 : list A) : skipn (List.length l1) (l1 ++ l2) = l2.
Proof. induction l1; cbn; auto. Qed.

(** X23: what RenderScene draws does not depend on the state.  Whenever it
    returns (with or without a shader manager, whatever the textures, the
    materials and the world), the draw calls it has logged are the same 147
    calls in the same order: those of the scene as rendered after
    PrepareScene. *)
Theorem RenderScene_draw_calls_fixed st st' :
  RenderScene st = Ok tt st' ->
  exists es, emitted st st' es /\ filter is_draw es = SceneDraws /\
             List.length (filter is_draw es) = 147%nat.
Proof.
  intros E. destruct RenderScene_draws as [ds H].
  assert (Hds : ds = SceneDraws).
  { destruct (H _ _ _ RenderScene_prepared) as (es0 & L0 & D0).
    rewrite <- D0. unfold SceneDraws.
    replace es0 with (skipn (List.length (log scene_prepared)) (log scene_rendered))
      by (rewrite L0; apply skipn_length_app).
    vm_compute. reflexivity. }
  destruct (H _ _ _ E) as (es & L & D).
  exists es. split; [exact L|]. rewrite D, Hds. split; reflexivity.
Qed.

Lemma RenderScene_draw_calls_fixed_witness :
  exists es, emitted constructed_without_shader (after RenderScene constructed_without_shader) es /\
             filter is_draw es = SceneDraws.
Proof.
  destruct (RenderScene_draw_calls_fixed constructed_without_shader
              (after RenderScene constructed_without_shader))
    as (es & L & D & _).
  - vm_compute. reflexivity.
  - exists es. split; assumption.
Defined.

(** X24: each placement routine issues the draw calls of its parts, whatever
    the offset and the state.  Whenever it returns, the draw calls it has
    logged are the meshes of its part table in table order (for LoadBook
    whatever the rotation as well); LoadKeyboard draws 59 boxes, the case,
    the 57 key caps and the front edge. *)
Theorem placement_routines_draw_their_parts x y z st st' :
  (LoadLamp x y z st = Ok tt st' ->
   exists es, emitted st st' es /\ filter is_draw es = map part_mesh LampParts) /\
  (LoadMonitor x y z st = Ok tt st' ->
   exists es, emitted st st' es /\ filter is_draw es = map part_mesh MonitorParts) /\
  (LoadMouse x y z st = Ok tt st' ->
   exists es, emitted st st' es /\ filter is_draw es = map part_mesh MouseParts) /\
  (LoadPhone x y z st = Ok tt st' ->
   exists es, emitted st st' es /\ filter is_draw es = map part_mesh PhoneParts) /\
  (forall xRotation yRotation zRotation,
     LoadBook x y z xRotation yRotation zRotation st = Ok tt st' ->
     exists es, emitted st st' es /\ filter is_draw es = map part_mesh BookParts) /\
  (LoadKeyboard x y z st = Ok tt st' ->
   exists es, emitted st st' es /\ filter is_draw es = repeat Ev_DrawBoxMesh 59).
Proof.
  split; [|split; [|split; [|split; [|split]]]]; intros.
  - now apply (draws_LoadLamp x y z st tt st').
  - now apply (draws_LoadMonitor x y z st tt st').
  - now apply (draws_LoadMouse x y z st tt st').
  - now apply (draws_LoadPhone x y z st tt st').
  - now apply (draws_LoadBook x y z xRotation yRotation zRotation st tt st').
  - now apply (draws_LoadKeyboard x y z st tt st').
Qed.

Lemma placement_routines_draw_their_parts_witness :
  exists es,
    emitted constructed_without_shader
      (after (LoadKeyboard (i2f 1) (i2f 2) (i2f 3)) constructed_without_shader) es /\
    filter is_draw es = repeat Ev_DrawBoxMesh 59.
Proof.
  refine (proj2 (proj2 (proj2 (proj2 (proj2
            (placement_routines_draw_their_parts (i2f 1) (i2f 2) (i2f 3)
               constructed_without_shader
               (after (LoadKeyboard (i2f 1) (i2f 2) (i2f 3)) constructed_without_shader))))))
            _).
  vm_compute. reflexivity.
Defined.

(** * C6: meshes loaded once and drawn many times *)

Lemma shape_eqb_eq a b : shape_eqb a b = true -> a = b.
Proof. destruct a, b; cbn; intros H; try reflexivity; discriminate H. Qed.

Lemma RenderScene_draws_scene : draws_exactly SceneDraws RenderScene.
Proof.
  destruct RenderScene_draws as [ds H].
  assert (Hds : ds = SceneDraws).
  { destruct (H _ _ _ RenderScene_prepared) as (es0 & L0 & D0).
    rewrite <- D0. unfold SceneDraws.
    replace es0 with (skipn (List.length (log scene_prepared)) (log scene_rendered))
      by (rewrite L0; apply skipn_length_app).
    vm_compute. reflexivity. }
  rewrite <- Hds. exact H.
Qed.

(** Each of the seven shapes is among the draw calls of the scene. *)
Lemma SceneDraws_every_shape s :
  exists e, In e SceneDraws /\ drawn_shape e = Some s.
Proof.
  assert (H : existsb (fun e => match drawn_shape e with
                                | Some s' => shape_eqb s' s
                                | None => false
                                end) SceneDraws = true)
    by (destruct s; vm_compute; reflexivity).
  apply existsb_exists in H. destruct H as (e & Hin & He).
  exists e. split; [exact Hin|].
  destruct (drawn_shape e) as [s'|]; [|discriminate He].
  now rewrite (shape_eqb_eq _ _ He).
Qed.

(** Each of the seven shapes is generated by one of the load calls of
    PrepareScene. *)
Lemma PreparedLoads_every_shape s :
  exists l, In l PreparedLoads /\ In s (loaded_shapes l).
Proof.
  destruct s;
    [ exists Ev_LoadBoxMesh | exists Ev_LoadCylinderMesh | exists Ev_LoadTaperedCylinderMesh
    | exists Ev_LoadTorusMesh | exists Ev_LoadTorusMesh | exists Ev_LoadSphereMesh
    | exists Ev_LoadPlaneMesh ];
    cbn; tauto.
Qed.

Lemma PrepareScene_loads st st' :
  PrepareScene st = Ok tt st' ->
  exists es, emitted st st' es /\
             filter is_load es = PreparedLoads /\ filter is_draw es = [].
Proof.
  intros H. destruct (PrepareScene_run _ _ H) as (_ & es & Hl & Ho).
  exists (es ++ PreparedLoads). split; [exact Hl|].
  rewrite !filter_app. split.
  - rewrite (filter_none is_load es); [reflexivity|].
    revert Ho. apply forallb_impl. intros e. unfold no_mesh_call.
    now intros [? _]%andb_prop.
  - rewrite (filter_none is_draw es); [reflexivity|].
    revert Ho. apply forallb_impl. intros e. unfold no_mesh_call.
    now intros [_ ?]%andb_prop.
Qed.

(** C6: every primitive mesh shape is generated once and reused.  Whenever
    PrepareScene returns it has made six load calls, each once, and no draw
    call, and between them these calls generate each of the seven shapes
    once.  Whenever RenderScene returns, from any state, it has made no load
    call, and the shapes of the meshes it has drawn, in the Load* routines as
    well, are the shapes generated by the load calls PrepareScene has made:
    every mesh drawn, the half-torus of the cup handle and of the mouse wheel
    included, is of a shape that a load call of PrepareScene generates, and
    each shape so generated is drawn. *)
Theorem meshes_loaded_once_and_reused :
  (forall st st', PrepareScene st = Ok tt st' ->
     exists es, emitted st st' es /\
                filter is_load es = PreparedLoads /\ filter is_draw es = []) /\
  NoDup PreparedLoads /\
  NoDup (flat_map loaded_shapes PreparedLoads) /\
  (forall st st1 loads st2 st3 draws,
     PrepareScene st = Ok tt st1 -> emitted st st1 loads ->
     RenderScene st2 = Ok tt st3 -> emitted st2 st3 draws ->
     filter is_load draws = [] /\
     In Ev_DrawHalfTorusMesh draws /\
     forall s, (exists e, In e draws /\ drawn_shape e = Some s) <->
               (exists l, In l loads /\ In s (loaded_shapes l))).
Proof.
  split; [|split; [|split]].
  - exact PrepareScene_loads.
  - repeat constructor; cbn; intuition discriminate.
  - repeat constructor; cbn; intuition discriminate.
  - intros st st1 loads st2 st3 draws Hp Hloads Hr Hdraws.
    destruct (PrepareScene_loads _ _ Hp) as (es & Hes & Hfl & _).
    assert (es = loads).
    { unfold emitted in Hes, Hloads. rewrite Hloads in Hes.
      symmetry. now apply app_inv_head in Hes. }
    subst es.
    destruct (steps_RenderScene _ _ _ Hr) as (_ & es & Hl & Ho).
    assert (es = draws).
    { unfold emitted in Hdraws. rewrite Hdraws in Hl. symmetry. now apply app_inv_head in Hl. }
    subst es.
    destruct (RenderScene_draws_scene _ _ _ Hr) as (es & Hl' & Hd).
    assert (es = draws).
    { unfold emitted in Hdraws. rewrite Hdraws in Hl'. symmetry.
      now apply app_inv_head in Hl'. }
    subst es.
    assert (Hdrawn : forall s, exists e, In e draws /\ drawn_shape e = Some s).
    { intros s. destruct (SceneDraws_every_shape s) as (e & Hin & He).
      exists e. split; [|exact He]. rewrite <- Hd in Hin. now apply filter_In in Hin. }
    split; [|split].
    + apply filter_none. revert Ho. apply forallb_impl. intros e H. exact H.
    + destruct (Hdrawn half_torus) as (e & Hin & He).
      destruct e; try discriminate He. exact Hin.
    + intros s. split.
      * intros _. destruct (PreparedLoads_every_shape s) as (l & Hin & Hs).
        exists l. split; [|exact Hs]. rewrite <- Hfl in Hin. now apply filter_In in Hin.
      * intros _. apply Hdrawn.
Qed.

Lemma meshes_loaded_once_and_reused_witness :
  In Ev_DrawHalfTorusMesh (skipn (List.length (log scene_prepared)) (log scene_rendered)) /\
  exists l, In l (log scene_prepared) /\ In half_torus (loaded_shapes l).
Proof.
  destruct (proj2 (proj2 (proj2 meshes_loaded_once_and_reused))
              (constructed 16 stale_material) scene_prepared (log scene_prepared)
              scene_prepared scene_rendered
              (skipn (List.length (log scene_prepared)) (log scene_rendered)))
    as (_ & Hhalf & Hiff).
  - vm_compute. reflexivity.
  - reflexivity.
  - vm_compute. reflexivity.
  - vm_compute. reflexivity.
  - split; [exact Hhalf|]. apply Hiff. exists Ev_DrawHalfTorusMesh. split; [exact Hhalf | reflexivity].
Defined.
